(** * python-inquestlabs: the resilient API-call core of [inquestlabs.py]

    A shallow embedding of the client class [inquestlabs_api]: the
    constructor with its credential resolution, the request executor
    [__API] with its retry loop, the hasher [__HASH], the three operations
    that validate their input ([dfi_search], [dfi_upload], [dfi_download]),
    and the other operations of the class ([dfi_attributes], [dfi_details],
    [dfi_list], [dfi_sources], [stats] and the YARA helpers).  The command
    line [main] is not part of the embedding.

    Python's effects are threaded explicitly: a [world] holds the process
    environment, the file system, the behaviour of the network and of the
    random generator, and the trace of every observable action performed so
    far.  Exceptions are an outcome of the monad [M]. *)

From Stdlib Require Import ZArith QArith Lia Lqa List.
From Stdlib Require Import Strings.Byte Strings.Ascii.
From stdpp Require Import base option gmap strings list.

Set Warnings "-register-all".

Local Open Scope string_scope.
Local Open Scope Z_scope.

#[global] Instance byte_eq_decision : EqDecision byte := Byte.byte_eq_dec.

(** ** Python values *)

(** The four functions of [hashlib] the client uses. *)
Inductive hash_algorithm := Md5 | Sha1 | Sha256 | Sha512.

(** The values that flow through dynamically typed places of the client:
    instance attributes, form fields, decoded JSON bodies and the result of
    [__API].  A [dict] keeps its insertion order.  [PHash] is an incremental
    [hashlib] object: its algorithm and the bytes fed to it by [update] so
    far. *)
Inductive pyval : Type :=
| PNone
| PBool (b : bool)
| PInt (n : Z)
| PFloat (q : Q)
| PStr (s : string)
| PBytes (b : list byte)
| PList (l : list pyval)
| PDict (d : list (string * pyval))
| PHash (algorithm : hash_algorithm) (fed : list byte).

(** Truth value testing, as [if x:] and [not x] do it. *)
Definition truthy (v : pyval) : bool :=
  match v with
  | PNone => false
  | PBool b => b
  | PInt n => negb (n =? 0)
  | PFloat q => negb (Qeq_bool q 0)
  | PStr s => negb (String.eqb s "")
  | PBytes b => negb (Nat.eqb (length b) 0)
  | PList l => negb (Nat.eqb (length l) 0)
  | PDict d => negb (Nat.eqb (length d) 0)
  | PHash _ _ => true
  end.

(** [None] for an absent optional argument, the string otherwise. *)
Definition of_optional_str (o : option string) : pyval :=
  match o with
  | None => PNone
  | Some s => PStr s
  end.

(** [int == x] for an integer left operand. *)
Definition int_eq (n : Z) (v : pyval) : bool :=
  match v with
  | PInt m => n =? m
  | PBool b => n =? (if b then 1 else 0)
  | PFloat q => Qeq_bool (inject_Z n) q
  | _ => false
  end.

(** [d[k]] and [d.get(k)] on the items of a dict: the first binding of [k]. *)
Fixpoint dict_get (d : list (string * pyval)) (k : string) : option pyval :=
  match d with
  | [] => None
  | (k', v) :: d' => if String.eqb k' k then Some v else dict_get d' k
  end.

(** [d[k] = v] on the items of a dict: the binding of [k] is replaced where
    it stands, a new key goes last. *)
Fixpoint dict_set (d : list (string * pyval)) (k : string) (v : pyval)
  : list (string * pyval) :=
  match d with
  | [] => [(k, v)]
  | (k', x) :: d' =>
      if String.eqb k' k then (k, v) :: d' else (k', x) :: dict_set d' k v
  end.

(** The interpreter line.  The two lines differ for this program in one
    respect: in Python 2 a [str] is a byte string, in Python 3 [str] and
    [bytes] are different types. *)
Inductive py_version := Py2 | Py3.

(** [b == s] for [b] read from a binary file and [s] a plain string
    literal.  Python 2's literal is a byte string and is compared byte by
    byte; in Python 3 a [bytes] object never equals a [str]. *)
Definition bytes_eq_str (py : py_version) (b : list byte) (s : string) : bool :=
  match py with
  | Py2 => bool_decide (b = String.list_byte_of_string s)
  | Py3 => false
  end.

(** ** Strings *)

(** [str.lower()] on ASCII text. *)
Definition ascii_lower (c : ascii) : ascii :=
  let n := nat_of_ascii c in
  if (Nat.leb 65 n && Nat.leb n 90)%bool then ascii_of_nat (n + 32) else c.

Fixpoint lower (s : string) : string :=
  match s with
  | EmptyString => EmptyString
  | String c s' => String (ascii_lower c) (lower s')
  end.

(** [str.upper()] on ASCII text.  ([lower] and [upper] change the letters
    [A]-[Z] and [a]-[z] only.  Python 3 maps some other characters to ASCII
    letters as well; what is stated about [upper] is therefore stated for
    [ascii_only] text where such a character would change the outcome.) *)
Definition ascii_upper (c : ascii) : ascii :=
  let n := nat_of_ascii c in
  if (Nat.leb 97 n && Nat.leb n 122)%bool then ascii_of_nat (n - 32) else c.

Fixpoint upper (s : string) : string :=
  match s with
  | EmptyString => EmptyString
  | String c s' => String (ascii_upper c) (upper s')
  end.

(** Text that holds ASCII characters only. *)
Fixpoint ascii_only (s : string) : bool :=
  match s with
  | EmptyString => true
  | String c s' => Nat.ltb (nat_of_ascii c) 128 && ascii_only s'
  end.

(** [sep.join(l)]. *)
Definition join (sep : string) (l : list string) : string := String.concat sep l.

(** [x in l] for a list of strings. *)
Definition str_in (x : string) (l : list string) : bool := bool_decide (x ∈ l).

(** A string built by the [%] operator: [template % args].  The arguments
    are kept as values; [render] produces the text when they are strings or
    integers. *)
Inductive pytext : Type :=
| Lit (s : string)
| Format (template : string) (args : list pyval).

Definition digit_char (d : Z) : ascii := ascii_of_nat (48 + Z.to_nat d).

Fixpoint decimal_digits (fuel : nat) (n : Z) (acc : string) : string :=
  match fuel with
  | O => acc
  | S fuel' =>
      let acc' := String (digit_char (n mod 10)) acc in
      if n / 10 =? 0 then acc' else decimal_digits fuel' (n / 10) acc'
  end.

(** [str(n)] for an integer. *)
Definition str_of_int (n : Z) : string :=
  if n <? 0 then String "-" (decimal_digits (S (Z.to_nat (Z.log2 (- n)))) (- n) "")
  else decimal_digits (S (Z.to_nat (Z.log2 n))) n "".

(** [str(v)] where it needs no [repr] of nested data. *)
Definition py_str (v : pyval) : option string :=
  match v with
  | PNone => Some "None"
  | PBool true => Some "True"
  | PBool false => Some "False"
  | PInt n => Some (str_of_int n)
  | PStr s => Some s
  | _ => None
  end.

(** Substitution of [%s] and [%d], left to right, for the templates of
    this program (they use no other directive); [None] when the arguments
    do not match the directives in number, or are values whose text is not
    defined here ([py_str], and [%d] of anything but an [int]). *)
Fixpoint percent (template : string) (args : list pyval) : option string :=
  match template with
  | EmptyString => match args with [] => Some EmptyString | _ => None end
  | String "%" (String "s" rest) =>
      match args with
      | a :: args' =>
          s ← py_str a; r ← percent rest args'; Some (s ++ r)
      | [] => None
      end
  | String "%" (String "d" rest) =>
      match args with
      | PInt n :: args' => r ← percent rest args'; Some (str_of_int n ++ r)
      | _ => None
      end
  | String c rest => r ← percent rest args; Some (String c r)
  end.

Definition render (t : pytext) : option string :=
  match t with
  | Lit s => Some s
  | Format template args => percent template args
  end.

(** ** Exceptions *)

(** [inquestlabs_exception] is the client's own exception class; the others
    are the built-in exceptions the modelled code can let escape. *)
Inductive exn : Type :=
| inquestlabs_exception (message : pytext)
| AssertionError
| AttributeError (name : string)
| UnboundLocalError (name : string)
| IOError (path : string)
| ValueError
| KeyError (key : string)
| TypeError
| OverflowError.

(** ** The world *)

Inductive node : Type :=
| File (content : list byte)
| Dir.

(** What [requests.request] is called with. *)
Record request : Type := Request {
  req_method : string;
  req_url : string;
  req_data : pyval;
  req_files : option string;
  req_headers : gmap string pytext;
  req_proxies : pyval;
  req_verify : pyval;
}.

Record response : Type := Response {
  status_code : Z;
  content : list byte;
}.

(** One issue of the HTTP request either raises in the transport or
    delivers a response. *)
Inductive net_outcome : Type :=
| TransportError
| Responds (r : response).

Inductive event : Type :=
| EvOpen (path : string) (mode : string)
| EvRead (path : string) (size : Z)
| EvWrite (path : string) (data : list byte)
| EvConfigRead (path : string)
| EvRequest (r : request)
| EvSleep (seconds : Q).

(** [fs] maps a path, as the program spells it, to what it names; two
    spellings of one file are two keys, and nothing is stated here about a
    spelling the program does not use.  [may_create p] is the decision of
    the operating system on [open(p, "wb+")] for a [p] that is no directory:
    it fails for the empty name, for a missing parent directory, for lack of
    permission.  [requests_request k r] is how the network answers the
    [k]-th request of the process when that request is [r];
    [random_random k] is the [k]-th draw of [random.random()]. *)
Record world : Type := World {
  environ : gmap string string;
  home : string;
  fs : gmap string node;
  may_create : string -> bool;
  requests_request : nat -> request -> net_outcome;
  random_random : nat -> Q;
  n_requests : nat;
  n_random : nat;
  trace : list event;
}.

Definition emit (e : event) (w : world) : world :=
  {| environ := environ w; home := home w; fs := fs w; may_create := may_create w;
     requests_request := requests_request w; random_random := random_random w;
     n_requests := n_requests w; n_random := n_random w;
     trace := trace w ++ [e] |}.

Definition set_fs (f : gmap string node) (w : world) : world :=
  {| environ := environ w; home := home w; fs := f; may_create := may_create w;
     requests_request := requests_request w; random_random := random_random w;
     n_requests := n_requests w; n_random := n_random w;
     trace := trace w |}.

Definition count_request (w : world) : world :=
  {| environ := environ w; home := home w; fs := fs w; may_create := may_create w;
     requests_request := requests_request w; random_random := random_random w;
     n_requests := S (n_requests w); n_random := n_random w;
     trace := trace w |}.

Definition count_random (w : world) : world :=
  {| environ := environ w; home := home w; fs := fs w; may_create := may_create w;
     requests_request := requests_request w; random_random := random_random w;
     n_requests := n_requests w; n_random := S (n_random w);
     trace := trace w |}.

(** ** The monad of effects *)

(** [Diverge] is the outcome of a loop that was not given enough fuel. *)
Inductive outcome (A : Type) : Type :=
| Return (a : A)
| Raise (e : exn)
| Diverge.
Arguments Return {A} a.
Arguments Raise {A} e.
Arguments Diverge {A}.

Definition M (A : Type) : Type := world -> outcome A * world.

Definition ret {A} (a : A) : M A := fun w => (Return a, w).
Definition raise {A} (e : exn) : M A := fun w => (Raise e, w).
Definition diverge {A} : M A := fun w => (Diverge, w).

Definition bind {A B} (m : M A) (k : A -> M B) : M B :=
  fun w =>
    match m w with
    | (Return a, w') => k a w'
    | (Raise e, w') => (Raise e, w')
    | (Diverge, w') => (Diverge, w')
    end.

Declare Scope py_scope.
Delimit Scope py_scope with py.
Notation "'let!' x := m 'in' k" := (bind m (fun x => k))
  (at level 10, x name, m at level 100, k at level 200) : py_scope.
Notation "m >> k" := (bind m (fun _ => k))
  (at level 100, k at level 200, right associativity) : py_scope.
Local Open Scope py_scope.

Definition get_world : M world := fun w => (Return w, w).
Definition log (e : event) : M unit := fun w => (Return tt, emit e w).

(** ** The libraries the client calls *)

(** The behaviour of the interpreter and of the third-party code the client
    relies on: [hashlib]'s digest functions, the JSON decoder behind
    [response.json()] ([None] when the body does not decode) and
    [configparser] ([ConfigParser_read] is [None] when the file does not
    parse; otherwise it gives the lookup that [config.get] performs, [None]
    where [get] raises). *)
Record runtime : Type := Runtime {
  python : py_version;
  hashlib_digest : hash_algorithm -> list byte -> list byte;
  json_loads : list byte -> option pyval;
  ConfigParser_read : list byte -> option (string -> string -> option string);
}.

Definition hex_digit (n : N) : ascii :=
  if (n <? 10)%N then ascii_of_N (48 + n) else ascii_of_N (87 + n).

Definition hex_of_byte (b : byte) : string :=
  let n := Byte.to_N b in
  String (hex_digit (n / 16)) (String (hex_digit (n mod 16)) EmptyString).

Fixpoint hexlify (l : list byte) : string :=
  match l with
  | [] => EmptyString
  | b :: l' => hex_of_byte b ++ hexlify l'
  end.

(** [hashfunc.hexdigest()] of an object of algorithm [a] fed with [fed]. *)
Definition hexdigest (rt : runtime) (a : hash_algorithm) (fed : list byte) : string :=
  hexlify (hashlib_digest rt a fed).

Definition hex_value (c : ascii) : option Z :=
  let n := Z.of_nat (nat_of_ascii c) in
  if (48 <=? n) && (n <=? 57) then Some (n - 48)
  else if (97 <=? n) && (n <=? 102) then Some (n - 87)
  else if (65 <=? n) && (n <=? 70) then Some (n - 55)
  else None.

Fixpoint int16_from (acc : Z) (s : string) : option Z :=
  match s with
  | EmptyString => Some acc
  | String c s' => d ← hex_value c; int16_from (16 * acc + d) s'
  end.

(** [int(x, 16)] on a string of hexadecimal digits. *)
Definition int16 (s : string) : option Z :=
  match s with
  | EmptyString => None
  | _ => int16_from 0 s
  end.

Fixpoint str_take (n : nat) (s : string) : string :=
  match n, s with
  | S n', String c s' => String c (str_take n' s')
  | _, _ => EmptyString
  end.

Fixpoint str_drop (n : nat) (s : string) : string :=
  match n, s with
  | S n', String _ s' => str_drop n' s'
  | _, _ => s
  end.

(** The inner generator [chunks(l, n)] of [__HASH] for a positive [n]:
    [l[i:i+n]] for [i] in [range(0, len(l), n)]. *)
Fixpoint chunks_fuel (fuel : nat) (l : string) (n : nat) : list string :=
  match fuel with
  | O => []
  | S fuel' =>
      match l with
      | EmptyString => []
      | _ => str_take n l :: chunks_fuel fuel' (str_drop n l) n
      end
  end.

Definition chunks (l : string) (n : nat) : list string :=
  chunks_fuel (String.length l) l n.

(** ** Files and the operating system *)

(** [os.path.exists(p) and os.path.isfile(p)]. *)
Definition is_file (w : world) (p : string) : bool :=
  match fs w !! p with
  | Some (File _) => true
  | _ => false
  end.

Definition os_path_exists (w : world) (p : string) : bool :=
  match fs w !! p with
  | Some _ => true
  | None => false
  end.

Definition os_path_isfile (w : world) (p : string) : bool := is_file w p.

Fixpoint ends_with_slash (s : string) : bool :=
  match s with
  | EmptyString => false
  | String c EmptyString => Ascii.eqb c "/"
  | String _ s' => ends_with_slash s'
  end.

(** [os.path.join(a, b)] for a relative [b]. *)
Definition os_path_join (a b : string) : string :=
  if String.eqb a "" || ends_with_slash a then a ++ b else a ++ "/" ++ b.

(** [open(path, "rb")]: the content of the file the handle reads. *)
Definition open_rb (path : string) : M (list byte) :=
  fun w =>
    match fs w !! path with
    | Some (File c) => (Return c, emit (EvOpen path "rb") w)
    | _ => (Raise (IOError path), w)
    end.

(** [sys.maxsize] of a 64-bit build. *)
Definition sys_maxsize : Z := 2 ^ 63 - 1.

(** The sizes [fh.read] refuses.  A size that does not fit a machine word
    is an [OverflowError]; Python 3 takes [-1] for all that is left and
    refuses the other negative sizes with [ValueError], Python 2 takes any
    negative size for all that is left. *)
Definition read_error (py : py_version) (size : Z) : option exn :=
  if (size <? - sys_maxsize - 1) || (sys_maxsize <? size) then Some OverflowError
  else
    match py with
    | Py3 => if size <? -1 then Some ValueError else None
    | Py2 => None
    end.

(** [fh.read(size)] on what is left of the file: what is read and what
    remains.  (The buffer of a large read is taken to be allocated: there
    is no [MemoryError] here.) *)
Definition fh_read (py : py_version) (path : string) (size : Z) (rest : list byte)
  : M (list byte * list byte) :=
  fun w =>
    match read_error py size with
    | Some e => (Raise e, w)
    | None =>
        let n := if size <? 0 then length rest else Z.to_nat size in
        (Return (firstn n rest, skipn n rest), emit (EvRead path size) w)
    end.

(** [open(path, "wb+")]: a directory cannot be opened; any other path is
    opened when the operating system allows it, and the file is then
    created, or truncated when it exists. *)
Definition open_wb (path : string) : M unit :=
  fun w =>
    match fs w !! path with
    | Some Dir => (Raise (IOError path), w)
    | _ =>
        if may_create w path
        then (Return tt, emit (EvOpen path "wb+") (set_fs (<[path := File []]> (fs w)) w))
        else (Raise (IOError path), w)
    end.

(** What [open] takes for the name of a file: a string, or a byte string.
    (An integer is a file descriptor to [open]; descriptors are not part of
    the model, and an integer is refused like any other value.) *)
Definition as_path (v : pyval) : option string :=
  match v with
  | PStr p => Some p
  | PBytes b => Some (String.string_of_list_byte b)
  | _ => None
  end.

(** [fh.write(data)] on a handle just opened by [open_wb]: the file that
    [path] names holds [data] afterwards.  (The write itself is taken to
    succeed: a disk that fills up is not part of the model.) *)
Definition fh_write (path : string) (data : list byte) : M unit :=
  fun w => (Return tt, emit (EvWrite path data) (set_fs (<[path := File data]> (fs w)) w)).

(** ** Module-level constants of [inquestlabs.py] *)

Definition __version__ : pyval := PFloat 1.0.

Definition VALID_CAT : list string := ["ext"; "hash"; "ioc"].
Definition VALID_EXT : list string := ["code"; "context"; "metadata"; "ocr"].
Definition VALID_HASH : list string := ["md5"; "sha1"; "sha256"; "sha512"].
Definition VALID_IOC : list string := ["domain"; "email"; "filename"; "ip"; "url"; "xmpid"].

(** ** class [inquestlabs_api] *)

(** An instance is its attribute dictionary. *)
Abbreviation instance := (gmap string pyval).

Module inquestlabs_api.

(** [self.name]. *)
Definition getattr (self : instance) (name : string) : M pyval :=
  match self !! name with
  | Some v => ret v
  | None => raise (AttributeError name)
  end.

Definition os_environ_get (k : string) : M pyval :=
  fun w => (Return (of_optional_str (environ w !! k)), w).

(** [os.path.expanduser("~")]. *)
Definition os_path_expanduser_home : M string :=
  fun w => (Return (home w), w).

(** [config.read(path)] followed by [config.get(section, option)] is
    decided by the content of the file. *)
Definition config_file_content (path : string) : M (list byte) :=
  fun w =>
    match fs w !! path with
    | Some (File c) => (Return c, emit (EvConfigRead path) w)
    | _ => (Return [], w)
    end.

(** [__init__(self, api_key=None, config=None, proxies=None, base_url=None,
    retries=3, verify_ssl=True)]. *)
Definition __init__ (rt : runtime) (api_key config : option string) (proxies : pyval)
    (base_url : option string) (retries : Z) (verify_ssl : bool) : M instance :=
  let self : instance := ∅ in
  let self := <["api_key" := of_optional_str api_key]> self in
  let self := <["base_url" := of_optional_str base_url]> self in
  let self := <["config_file" := of_optional_str config]> self in
  let self := <["num_retries" := PInt retries]> self in
  let self := <["proxies" := proxies]> self in
  let self := <["verify_ssl" := PBool verify_ssl]> self in
  (* if no base URL was specified, use the default. *)
  let self :=
    match base_url with
    | None => <["base_url" := PStr "https://labs.inquest.net/api"]> self
    | Some _ => self
    end in
  (* if no config file was supplied, use a default path of ~/.iqlabskey. *)
  let! config_file :=
    match config with
    | None => let! h := os_path_expanduser_home in ret (os_path_join h ".iqlabskey")
    | Some c => ret c
    end in
  let self := <["config_file" := PStr config_file]> self in
  (* if no API key was specified... *)
  if negb (truthy (of_optional_str api_key)) then
    (* check the environment for one *)
    let! key := os_environ_get "IQLABS_APIKEY" in
    let self := <["api_key" := key]> self in
    let! w := get_world in
    if negb (truthy key) && os_path_exists w config_file && os_path_isfile w config_file then
      let! text := config_file_content config_file in
      match ConfigParser_read rt text with
      | None =>
          raise (inquestlabs_exception
                   (Format "invalid configuration file: %s" [PStr config_file]))
      | Some config_get =>
          match config_get "inquestlabs" "apikey" with
          | None =>
              raise (inquestlabs_exception
                       (Format "unable to find inquestlabs.apikey in: %s" [PStr config_file]))
          | Some v => ret (<["api_key" := PStr v]> self)
          end
      end
    else ret self
  else ret self.

(** *** The request executor *)

(** [4 ** attempt * 100 / 1000.0], in exact arithmetic. *)
Definition backoff_ceiling (attempt : nat) : Q :=
  (inject_Z (4 ^ Z.of_nat attempt * 100) / 1000)%Q.

(** [random.uniform(a, b)] is [a + (b - a) * random.random()]. *)
Definition uniform_at (a b u : Q) : Q := (a + (b - a) * u)%Q.

Definition random_uniform (a b : Q) : M Q :=
  fun w => (Return (uniform_at a b (random_random w (n_random w))), count_random w).

Definition time_sleep (seconds : Q) : M unit := log (EvSleep seconds).

(** [requests.request(method, endpoint, **kwargs)]. *)
Definition do_request (r : request) : M net_outcome :=
  fun w => (Return (requests_request w (n_requests w) r), emit (EvRequest r) (count_request w)).

(** The [while 1:] loop of [__API], entered with the current value of
    [attempt].  [fuel] bounds the number of iterations. *)
Fixpoint API_attempts (fuel : nat) (self : instance) (r : request) (attempt : nat)
  : M response :=
  match fuel with
  | O => diverge
  | S fuel' =>
      let! o := do_request r in
      match o with
      | Responds resp => ret resp
      | TransportError =>
          (* 0.4, 1.6, 6.4, 25.6, ... *)
          let! seconds := random_uniform 0 (backoff_ceiling attempt) in
          time_sleep seconds >>
          let attempt := S attempt in
          (* retries exhausted. *)
          let! retries := getattr self "retries" in
          if int_eq (Z.of_nat attempt) retries then
            raise (inquestlabs_exception
                     (Format "exceeded %s attempts to communicate with InQuest Labs API endpoint %s."
                             [retries; PStr (req_url r)]))
          else API_attempts fuel' self r attempt
      end
  end.

(** [response.json()]. *)
Definition response_json (rt : runtime) (r : response) : M pyval :=
  match json_loads rt (content r) with
  | Some v => ret v
  | None => raise ValueError
  end.

(** [v[k]] for a string key. *)
Definition subscript (v : pyval) (k : string) : M pyval :=
  match v with
  | PDict d =>
      match dict_get d k with
      | Some x => ret x
      | None => raise (KeyError k)
      end
  | _ => raise TypeError
  end.

(** [v.get(k, default)]. *)
Definition dict_get_default (v : pyval) (k : string) (default : pyval) : M pyval :=
  match v with
  | PDict d => ret (match dict_get d k with Some x => x | None => default end)
  | _ => raise (AttributeError "get")
  end.

(** [a + b] for a string right operand. *)
Definition str_add (a : pyval) (b : string) : M string :=
  match a with
  | PStr s => ret (s ++ b)
  | _ => raise TypeError
  end.

(** The part of [__API] after the loop: what is made of a received
    response. *)
Definition API_classify (rt : runtime) (endpoint : string) (raw : bool) (resp : response)
  : M pyval :=
  (* all good. *)
  if status_code resp =? 200 then
    (* if the raw flag was raised, return raw content now. *)
    if raw then ret (PBytes (content resp))
    else
      let! body := response_json rt resp in
      let! success := subscript body "success" in
      if truthy success then subscript body "data"
      else
        let! error := dict_get_default body "error" (PStr "n/a") in
        raise (inquestlabs_exception
                 (Format "status=200 but error communicating with %s: %s"
                         [PStr endpoint; error]))
  (* something went wrong. *)
  else
    let! body := response_json rt resp in
    let! error := dict_get_default body "error" (PStr "n/a") in
    raise (inquestlabs_exception
             (Format "status=%d error communicating with %s: %s"
                     [PInt (status_code resp); PStr endpoint; error])).

(** [__API(self, api, data=None, path=None, method="GET", raw=False)].
    [fuel] bounds the iterations of the retry loop; it is no argument of
    the Python method. *)
Definition __API (rt : runtime) (fuel : nat) (self : instance) (api : string) (data : pyval)
    (path : pyval) (method : string) (raw : bool) : M pyval :=
  if negb (str_in method ["GET"; "POST"]) then raise AssertionError
  else
    (* if a file path was supplied, convert to a dictionary compatible with requests. *)
    let! files :=
      if truthy path then
        match as_path path with
        | Some p => open_rb p >> ret (Some p)
        | None => raise TypeError
        end
      else ret None in
    let headers : gmap string pytext :=
      {["User-Agent" := Format "python-inquestlabs/%s" [__version__]]} in
    let! api_key := getattr self "api_key" in
    let headers :=
      if truthy api_key then <["Authorization" := Format "Basic: %s" [api_key]]> headers
      else headers in
    let! proxies := getattr self "proxies" in
    let! verify := getattr self "verify_ssl" in
    let! base_url := getattr self "base_url" in
    let! endpoint := str_add base_url api in
    let kwargs :=
      {| req_method := method; req_url := endpoint; req_data := data; req_files := files;
         req_headers := headers; req_proxies := proxies; req_verify := verify |} in
    let! resp := API_attempts fuel self kwargs 0 in
    API_classify rt endpoint raw resp.

(** *** The hasher *)

(** The buffer protocol: what [hashfunc.update] and [fh.write] accept. *)
Definition as_bytes (py : py_version) (v : pyval) : option (list byte) :=
  match v with
  | PBytes b => Some b
  | PStr s =>
      match py with
      | Py2 => Some (String.list_byte_of_string s)
      | Py3 => None
      end
  | _ => None
  end.

(** The local variable [hashfunc] of [__HASH]: unbound when [algorithm]
    names none of the four functions. *)
Definition new_hashfunc (algorithm : string) : option (hash_algorithm * list byte) :=
  if String.eqb algorithm "md5" then Some (Md5, [])
  else if String.eqb algorithm "sha1" then Some (Sha1, [])
  else if String.eqb algorithm "sha256" then Some (Sha256, [])
  else if String.eqb algorithm "sha512" then Some (Sha512, [])
  else None.

(** A read of the variable [hashfunc]. *)
Definition the_hashfunc (hashfunc : option (hash_algorithm * list byte))
  : M (hash_algorithm * list byte) :=
  match hashfunc with
  | Some h => ret h
  | None => raise (UnboundLocalError "hashfunc")
  end.

(** [hashfunc.update(data)]. *)
Definition hashfunc_update (hashfunc : option (hash_algorithm * list byte)) (data : list byte)
  : M (option (hash_algorithm * list byte)) :=
  let! h := the_hashfunc hashfunc in
  ret (Some (fst h, (snd h ++ data)%list)).

(** The [while 1:] loop of [__HASH] over the blocks of an open file, of
    which [rest] is still to be read. *)
Fixpoint HASH_blocks (py : py_version) (fuel : nat) (path : string) (block_size : Z)
    (rest : list byte) (hashfunc : option (hash_algorithm * list byte))
  : M (option (hash_algorithm * list byte)) :=
  match fuel with
  | O => diverge
  | S fuel' =>
      let! r := fh_read py path block_size rest in
      let data := fst r in
      if negb (truthy (PBytes data)) then ret hashfunc
      else
        let! hashfunc := hashfunc_update hashfunc data in
        HASH_blocks py fuel' path block_size (snd r) hashfunc
  end.

(** [__HASH(self, path=None, bytes=None, algorithm="md5", block_size=16384,
    fmt="digest")]. *)
Definition __HASH (rt : runtime) (path bytes : pyval) (algorithm : string)
    (block_size : Z) (fmt : string) : M pyval :=
  let algorithm := lower algorithm in
  let hashfunc := new_hashfunc algorithm in
  let! hashfunc :=
    (* hash a file. *)
    if truthy path then
      match as_path path with
      | Some p =>
          let! c := open_rb p in
          HASH_blocks (python rt) (S (length c)) p block_size c hashfunc
      | None => raise TypeError
      end
    (* hash a stream of bytes. *)
    else if truthy bytes then
      match as_bytes (python rt) bytes with
      | Some b => hashfunc_update hashfunc b
      | None => the_hashfunc hashfunc >> raise TypeError
      end
    (* error. *)
    else raise (inquestlabs_exception (Lit "hash expects either 'path' or 'bytes'.")) in
  (* return multiplexor. *)
  let! h := the_hashfunc hashfunc in
  if String.eqb fmt "raw" then ret (PHash (fst h) (snd h))
  else if String.eqb fmt "parts" then
    match mapM int16 (chunks (hexdigest rt (fst h) (snd h)) 8) with
    | Some parts => ret (PList (PInt <$> parts))
    | None => raise ValueError
    end
  else ret (PStr (hexdigest rt (fst h) (snd h))).

(** hash shortcuts. *)
Definition md5 (rt : runtime) (path bytes : pyval) : M pyval :=
  __HASH rt path bytes "md5" 16384 "digest".
Definition sha1 (rt : runtime) (path bytes : pyval) : M pyval :=
  __HASH rt path bytes "sha1" 16384 "digest".
Definition sha256 (rt : runtime) (path bytes : pyval) : M pyval :=
  __HASH rt path bytes "sha256" 16384 "digest".
Definition sha512 (rt : runtime) (path bytes : pyval) : M pyval :=
  __HASH rt path bytes "sha512" 16384 "digest".

(** *** Operations *)

(** [dfi_download(self, sha256, path)].  Here and below [fuel] is handed
    to [__API]. *)
Definition dfi_download (rt : runtime) (fuel : nat) (self : instance)
    (sha256 : string) (path : string) : M unit :=
  let! data := __API rt fuel self "/dfi/download" (PDict [("sha256", PStr sha256)])
                     PNone "GET" true in
  (* ensure we got what we were looking for. *)
  let! calculated := inquestlabs_api.sha256 rt PNone data in
  if negb (match calculated with PStr c => String.eqb c sha256 | _ => false end) then
    raise (inquestlabs_exception
             (Format "failed downloading file! expected sha256=%s calculated sha256=%s"
                     [PStr sha256; calculated]))
  else
    (* write the file to disk. *)
    open_wb path >>
    match as_bytes (python rt) data with
    | Some b => fh_write path b
    | None => raise TypeError
    end.

(** The [for c, v in zip(VALID_CAT, [VALID_EXT, VALID_HASH, VALID_IOC])]
    loop of [dfi_search]. *)
Fixpoint check_subcategory (category subcategory : string)
    (pairs : list (string * list string)) : M unit :=
  match pairs with
  | [] => ret tt
  | (c, v) :: pairs' =>
      if String.eqb category c && negb (str_in subcategory v) then
        raise (inquestlabs_exception
                 (Format "invalid subcategory '%s' for category '%s'. valid subcategories include: %s"
                         [PStr subcategory; PStr category; PStr (join ", " v)]))
      else check_subcategory category subcategory pairs'
  end.

(** [dfi_search(self, category, subcategory, keyword)]. *)
Definition dfi_search (rt : runtime) (fuel : nat) (self : instance)
    (category subcategory keyword : string) : M pyval :=
  (* normalize to lowercase. *)
  let category := lower category in
  let subcategory := lower subcategory in
  (* sanity check. *)
  if negb (str_in category VALID_CAT) then
    raise (inquestlabs_exception
             (Format "invalid category '%s'. valid categories include: %s"
                     [PStr category; PStr (join ", " VALID_CAT)]))
  else
    check_subcategory category subcategory
      (combine VALID_CAT [VALID_EXT; VALID_HASH; VALID_IOC]) >>
    (* API dance. *)
    let subcategory :=
      if String.eqb category "ext" then "ext_" ++ subcategory else subcategory in
    let data :=
      if String.eqb category "hash" then PDict [("hash", PStr keyword)]
      else PDict [("keyword", PStr keyword)] in
    __API rt fuel self ("/dfi/search/" ++ category ++ "/" ++ subcategory) data
          PNone "GET" false.

(** The two-character literal ["\xD0\xCF"]. *)
Definition OLE_MAGIC : string :=
  String (ascii_of_nat 208) (String (ascii_of_nat 207) EmptyString).

(** [dfi_upload(self, path)]. *)
Definition dfi_upload (rt : runtime) (fuel : nat) (self : instance) (path : string)
  : M pyval :=
  let VALID_TYPES := ["doc"; "docx"; "ppt"; "pptx"; "xls"; "xlsx"] in
  (* ensure the path exists and points to a file. *)
  let! w := get_world in
  if negb (os_path_exists w path) || negb (os_path_isfile w path) then
    raise (inquestlabs_exception
             (Format "invalid file path specified for upload: %s" [PStr path]))
  else
    (* ensure the file is an OLE (pre 2007 Office file) or ZIP (post 2007 Office file). *)
    let! c := open_rb path in
    let! r := fh_read (python rt) path 2 c in
    if negb (existsb (bytes_eq_str (python rt) (fst r)) [OLE_MAGIC; "PK"]) then
      raise (inquestlabs_exception
               (Format "unsupported file type for upload, valid files include: %s"
                       [PStr (join ", " VALID_TYPES)]))
    else
      (* dance with the API. *)
      __API rt fuel self "/dfi/upload" PNone (PStr path) "POST" false.

(** *** The other operations *)

(** [for x in v]: the items a loop over [v] visits, [None] when [v] is not
    iterable.  A dict gives its keys, a string its characters, a byte
    string its bytes (integers in Python 3, one-byte strings in Python 2). *)
Definition py_iter (py : py_version) (v : pyval) : option (list pyval) :=
  match v with
  | PList l => Some l
  | PDict d => Some (map (fun kv => PStr (fst kv)) d)
  | PStr s => Some (map (fun c => PStr (String c EmptyString)) (String.list_ascii_of_string s))
  | PBytes b =>
      Some (map (fun x => match py with
                          | Py2 => PBytes [x]
                          | Py3 => PInt (Z.of_N (Byte.to_N x))
                          end) b)
  | _ => None
  end.

(** [v == s] for a string right operand. *)
Definition py_eq_str (py : py_version) (v : pyval) (s : string) : bool :=
  match v with
  | PStr x => String.eqb x s
  | PBytes b => bytes_eq_str py b s
  | _ => false
  end.

(** [data[k] = v]. *)
Definition setitem (data : pyval) (k : string) (v : pyval) : M pyval :=
  match data with
  | PDict d => ret (PDict (dict_set d k v))
  | _ => raise TypeError
  end.

(** The list comprehension of [dfi_attributes]:
    [[attr for attr in attributes if attr['attribute'] == filter_by]]. *)
Fixpoint select_attribute (py : py_version) (filter_by : string) (items : list pyval)
  : M (list pyval) :=
  match items with
  | [] => ret []
  | attr :: items' =>
      let! a := subscript attr "attribute" in
      let! rest := select_attribute py filter_by items' in
      ret (if py_eq_str py a filter_by then attr :: rest else rest)
  end.

(** [dfi_attributes(self, sha256, filter_by=None)]. *)
Definition dfi_attributes (rt : runtime) (fuel : nat) (self : instance)
    (sha256 : string) (filter_by : option string) : M pyval :=
  (* if a filter is specified, sanity check. *)
  let! filter_by :=
    match filter_by with
    | Some f =>
        if truthy (PStr f) then
          let f := lower f in
          if negb (str_in f VALID_IOC) then
            raise (inquestlabs_exception
                     (Format "invalid attribute filter '%s'. valid filters include: %s"
                             [PStr f; PStr (join ", " VALID_IOC)]))
          else ret (Some f)
        else ret (Some f)
    | None => ret None
    end in
  (* dance with the API. *)
  let! attributes := __API rt fuel self "/dfi/details/attributes"
                           (PDict [("sha256", PStr sha256)]) PNone "GET" false in
  (* filter if necessary. *)
  match filter_by with
  | Some f =>
      if truthy (PStr f) then
        match py_iter (python rt) attributes with
        | Some items =>
            let! selected := select_attribute (python rt) f items in
            ret (PList selected)
        | None => raise TypeError
        end
      else ret attributes
  | None => ret attributes
  end.

(** [dfi_details(self, sha256, attributes=False)]. *)
Definition dfi_details (rt : runtime) (fuel : nat) (self : instance)
    (sha256 : string) (attributes : bool) : M pyval :=
  let! data := __API rt fuel self "/dfi/details" (PDict [("sha256", PStr sha256)])
                     PNone "GET" false in
  if attributes then
    let! a := dfi_attributes rt fuel self sha256 None in
    setitem data "attributes" a
  else ret data.

(** [dfi_list(self)], [dfi_sources(self)] and [stats(self)]. *)
Definition dfi_list (rt : runtime) (fuel : nat) (self : instance) : M pyval :=
  __API rt fuel self "/dfi/list" PNone PNone "GET" false.
Definition dfi_sources (rt : runtime) (fuel : nat) (self : instance) : M pyval :=
  __API rt fuel self "/dfi/sources" PNone PNone "GET" false.
Definition stats (rt : runtime) (fuel : nat) (self : instance) : M pyval :=
  __API rt fuel self "/stats" PNone PNone "GET" false.

(** [yara_b64re(self, regex, endian=None)]. *)
Definition yara_b64re (rt : runtime) (fuel : nat) (self : instance)
    (regex : string) (endian : option string) : M pyval :=
  (* initialize data dictionary with supplied regular expression. *)
  let data := [("instring", PStr regex)] in
  (* splice in the appropriate endianess option if supplied. *)
  let! data :=
    match endian with
    | Some e =>
        if truthy (PStr e) then
          let e := upper e in
          if String.eqb e "BIG" then ret (dict_set data "option" (PStr "widen_big"))
          else if String.eqb e "LITTLE" then
            ret (dict_set data "option" (PStr "widen_little"))
          else
            raise (inquestlabs_exception
                     (Format "invalid endianess supplied to yara_b64re: %s" [PStr e]))
        else ret data
    | None => ret data
    end in
  (* dance with the API and return results. *)
  __API rt fuel self "/yara/base64re" (PDict data) PNone "GET" false.

(** [yara_hexcase(self, instring)]. *)
Definition yara_hexcase (rt : runtime) (fuel : nat) (self : instance) (instring : string)
  : M pyval :=
  __API rt fuel self "/yara/mixcase" (PDict [("instring", PStr instring)]) PNone "GET" false.

(** [yara_widere(self, regex, endian=None)]. *)
Definition yara_widere (rt : runtime) (fuel : nat) (self : instance)
    (regex : string) (endian : option string) : M pyval :=
  (* initialize data dictionary with supplied regular expression. *)
  let data := [("instring", PStr regex)] in
  (* splice in the appropriate endianess option if supplied. *)
  let! data :=
    match endian with
    | Some e =>
        if truthy (PStr e) then
          let e := upper e in
          if str_in e ["BIG"; "LITTLE"] then ret (dict_set data "kind" (PStr e))
          else
            raise (inquestlabs_exception
                     (Format "invalid endianess supplied to yara_b64re: %s" [PStr e]))
        else ret data
    | None => ret data
    end in
  (* dance with the API and return results. *)
  __API rt fuel self "/yara/widere" (PDict data) PNone "GET" false.

(** [yara_uint(self, magic, offset=0, is_hex=False)]. *)
Definition yara_uint (rt : runtime) (fuel : nat) (self : instance)
    (magic : string) (offset is_hex : pyval) : M pyval :=
  __API rt fuel self "/yara/trigger"
        (PDict [("trigger", PStr magic); ("offset", offset); ("is_hex", is_hex)])
        PNone "GET" false.

End inquestlabs_api.
Import inquestlabs_api.

(** ** Observations on traces, instances and computations *)

(** The durations slept, in order. *)
Definition sleeps (t : list event) : list Q :=
  omap (fun e => match e with EvSleep d => Some d | _ => None end) t.

(** The requests issued, in order. *)
Definition requests_of (t : list event) : list request :=
  omap (fun e => match e with EvRequest r => Some r | _ => None end) t.

(** [self] is an instance as the constructor leaves it. *)
Definition constructed (rt : runtime) (self : instance) : Prop :=
  exists api_key config proxies base_url retries verify_ssl w0 w1,
    __init__ rt api_key config proxies base_url retries verify_ssl w0 = (Return self, w1).

(** An optional string that [not x] treats as missing. *)
Definition unset (o : option string) : Prop := o = None \/ o = Some "".

(** The path [__init__] stores in [self.config_file]. *)
Definition config_path (config : option string) (w : world) : string :=
  match config with
  | Some c => c
  | None => os_path_join (home w) ".iqlabskey"
  end.

(** The constructor returned an instance whose [api_key] is [k], leaving
    the world [w']. *)
Definition resolves (run : outcome instance * world) (k : pyval) (w' : world) : Prop :=
  exists self : instance, run = (Return self, w') /\ self !! "api_key" = Some k.

(** The delays of [k] consecutive failed attempts, the first of them
    numbered [a], drawn from the random stream of [w]. *)
Definition backoff_delays (w : world) (a k : nat) : list Q :=
  map (fun i => uniform_at 0 (backoff_ceiling (a + i)) (random_random w (n_random w + i)))
      (seq 0 k).

(** A computation that leaves the file system as it found it. *)
Definition keeps_fs {A} (m : M A) : Prop := forall w, fs (snd (m w)) = fs w.

(** A computation that neither sleeps nor draws a random number. *)
Definition quiet {A} (m : M A) : Prop :=
  forall w, sleeps (trace (snd (m w))) = sleeps (trace w)
            /\ n_random (snd (m w)) = n_random w
            /\ random_random (snd (m w)) = random_random w.

(** A computation whose sleeps are those of consecutive failed attempts
    counted from [a]. *)
Definition backs_off {A} (a : nat) (m : M A) : Prop :=
  forall w, exists k,
    sleeps (trace (snd (m w))) = (sleeps (trace w) ++ backoff_delays w a k)%list.

(** An outcome other than the client's own exception. *)
Definition not_client_error {A} (o : outcome A) : Prop :=
  match o with
  | Raise (inquestlabs_exception _) => False
  | _ => True
  end.

(** The error of the last branch of [__HASH]. *)
Definition hash_expects : exn :=
  inquestlabs_exception (Lit "hash expects either 'path' or 'bytes'.").

(** The number a sequence of bytes writes in base 256, most significant
    byte first. *)
Definition be_value (l : list byte) : Z :=
  fold_left (fun acc b => 256 * acc + Z.of_N (Byte.to_N b)) l 0.

(** The numbers of the successive groups of four bytes of [l]; the last
    group may be shorter. *)
Fixpoint words32_fuel (fuel : nat) (l : list byte) : list Z :=
  match fuel with
  | O => []
  | S fuel' =>
      match l with
      | [] => []
      | _ => be_value (firstn 4 l) :: words32_fuel fuel' (skipn 4 l)
      end
  end.

Definition words32 (l : list byte) : list Z := words32_fuel (length l) l.

(** The entry [attr['attribute']] of an attribute record, and whether it
    equals [f]. *)
Definition attribute_of (attr : pyval) : option pyval :=
  match attr with
  | PDict d => dict_get d "attribute"
  | _ => None
  end.

Definition has_attribute (py : py_version) (f : string) (attr : pyval) : bool :=
  match attribute_of attr with
  | Some a => py_eq_str py a f
  | None => false
  end.

(** The events of [k] consecutive failed attempts at the request [r], the
    first of them numbered [a], with the random stream of [w]: each request,
    and right after it the sleep of its delay. *)
Definition failed_attempts (w : world) (r : request) (a k : nat) : list event :=
  flat_map (fun i => [EvRequest r;
                      EvSleep (uniform_at 0 (backoff_ceiling (a + i))
                                 (random_random w (n_random w + i)))])
           (seq 0 k).

(** The paths opened for writing, or written to, in order. *)
Definition written (t : list event) : list string :=
  omap (fun e => match e with
                 | EvOpen p mode => if String.eqb mode "rb" then None else Some p
                 | EvWrite p _ => Some p
                 | _ => None
                 end) t.

(** A computation that opens nothing for writing. *)
Definition reads_only {A} (m : M A) : Prop :=
  forall w, written (trace (snd (m w))) = written (trace w).

(** A computation that opens for writing, and writes to, [path] only. *)
Definition writes_to {A} (path : string) (m : M A) : Prop :=
  forall w, exists l,
    written (trace (snd (m w))) = (written (trace w) ++ l)%list
    /\ Forall (fun p => p = path) l.

(** A computation that issues no request. *)
Definition silent {A} (m : M A) : Prop :=
  forall w, requests_of (trace (snd (m w))) = requests_of (trace w)
            /\ n_requests (snd (m w)) = n_requests w.

(** The instance after the assignment [self.retries = n]. *)
Definition with_retries (n : Z) (self : instance) : instance :=
  <["retries" := PInt n]> self.

(** The network fails every request numbered [first], ..., [first + j - 1]. *)
Definition fails_from (w : world) (first j : nat) : Prop :=
  forall i r, (i < j)%nat -> requests_request w (first + i) r = TransportError.

(** ** Sample runtimes, worlds and instances *)

Module Sample.

(** A decoder that accepts one body, the text [ok], and reads it as the
    envelope of a successful answer with no data. *)
Definition loads (b : list byte) : option pyval :=
  if bool_decide (b = String.list_byte_of_string "ok")
  then Some (PDict [("success", PBool true); ("data", PList [])])
  else None.

(** A stand-in for [configparser], with a grammar of its own (it is not
    that of INI files): [key=K] defines the API key [K], a file that starts
    with a bracket parses but defines no key; anything else does not
    parse. *)
Definition read_ini (b : list byte) : option (string -> string -> option string) :=
  match String.string_of_list_byte b with
  | String "k" (String "e" (String "y" (String "=" k))) =>
      Some (fun section option =>
              if String.eqb section "inquestlabs" && String.eqb option "apikey"
              then Some k else None)
  | String "[" _ => Some (fun _ _ => None)
  | _ => None
  end.

(** The digest of the samples is the reversed input: enough to tell equal
    from different contents. *)
Definition runtime_of (py : py_version) : runtime :=
  {| python := py;
     hashlib_digest := fun _ b => rev b;
     json_loads := loads;
     ConfigParser_read := read_ini |}.

Definition docx : list byte := String.list_byte_of_string "PK-rest-of-archive".

Definition files : gmap string node :=
  {[ "/tmp/report.docx" := File docx;
     "/tmp/notes.txt" := File (String.list_byte_of_string "plain");
     "/tmp/out" := Dir ]}.

(** The sample processes may create files in [/tmp] and nowhere else. *)
Definition in_tmp (p : string) : bool :=
  String.prefix "/tmp/" p && negb (String.eqb p "/tmp/").

(** A process with no key in its environment and no configuration file,
    whose network answers every request by [answer]. *)
Definition world_of (answer : net_outcome) : world :=
  {| environ := ∅; home := "/home/analyst"; fs := files; may_create := in_tmp;
     requests_request := fun _ _ => answer;
     random_random := fun _ => (1 # 2)%Q;
     n_requests := 0; n_random := 0; trace := [] |}.

Definition offline : world := world_of TransportError.

(** A 404 answer whose body is a web page, and two 200 answers to a
    download: an empty one and one of three bytes. *)
Definition page : response :=
  {| status_code := 404; content := String.list_byte_of_string "<html>" |}.
Definition empty_answer : response := {| status_code := 200; content := [] |}.
Definition abc_answer : response :=
  {| status_code := 200; content := String.list_byte_of_string "abc" |}.

(** The same process with a configuration file of content [text]. *)
Definition configured (text : string) : world :=
  set_fs (<["/home/analyst/.iqlabskey" := File (String.list_byte_of_string text)]> files)
         offline.

(** The same process with the environment variable set to [key]. *)
Definition with_environment (key : string) : world :=
  {| environ := {["IQLABS_APIKEY" := key]}; home := "/home/analyst"; fs := files; may_create := in_tmp;
     requests_request := fun _ _ => TransportError;
     random_random := fun _ => (1 # 2)%Q;
     n_requests := 0; n_random := 0; trace := [] |}.

(** The instance [inquestlabs_api()] builds in [offline]. *)
Definition client : instance :=
  match fst (__init__ (runtime_of Py3) None None PNone None 3 true offline) with
  | Return self => self
  | _ => ∅
  end.

(** The same instance holding an API key. *)
Definition keyed : instance := <["api_key" := PStr "secret"]> client.

(** A network that fails the first [j] requests and answers the later
    ones by [answer]. *)
Definition flaky (j : nat) (answer : response) : world :=
  {| environ := ∅; home := "/home/analyst"; fs := files; may_create := in_tmp;
     requests_request := fun i _ => if (i <? j)%nat then TransportError else Responds answer;
     random_random := fun _ => (1 # 2)%Q;
     n_requests := 0; n_random := 0; trace := [] |}.

(** The 200 answer whose body [loads] decodes. *)
Definition ok_answer : response :=
  {| status_code := 200; content := String.list_byte_of_string "ok" |}.

(** A decoder for the bodies of a small service: the details of a file, its
    attributes, a refusal, and three malformed envelopes. *)
Definition attributes : list pyval :=
  [ PDict [("attribute", PStr "domain"); ("value", PStr "a.example")];
    PDict [("attribute", PStr "ip"); ("value", PStr "192.0.2.1")];
    PDict [("attribute", PStr "domain"); ("value", PStr "b.example")] ].

Definition details : list (string * pyval) :=
  [("sha256", PStr "00ff"); ("mime_type", PStr "application/msword")].

Definition loads_labs (b : list byte) : option pyval :=
  let body := String.string_of_list_byte b in
  if String.eqb body "details" then
    Some (PDict [("success", PBool true); ("data", PDict details)])
  else if String.eqb body "attributes" then
    Some (PDict [("success", PBool true); ("data", PList attributes)])
  else if String.eqb body "refused" then
    Some (PDict [("success", PBool false); ("error", PStr "rate limited")])
  else if String.eqb body "no-flag" then Some (PDict [("data", PList [])])
  else if String.eqb body "no-data" then Some (PDict [("success", PBool true)])
  else if String.eqb body "list" then Some (PList [])
  else None.

Definition runtime_labs (py : py_version) : runtime :=
  {| python := py;
     hashlib_digest := fun _ b => rev b;
     json_loads := loads_labs;
     ConfigParser_read := read_ini |}.

Definition answer_of (status : Z) (body : string) : response :=
  {| status_code := status; content := String.list_byte_of_string body |}.

(** A network that answers the [i]-th request of the process by the
    [i]-th response of [answers], and fails the later ones. *)
Definition scripted (answers : list response) : world :=
  {| environ := ∅; home := "/home/analyst"; fs := files; may_create := in_tmp;
     requests_request := fun i _ =>
       match nth_error answers i with
       | Some a => Responds a
       | None => TransportError
       end;
     random_random := fun _ => (1 # 2)%Q;
     n_requests := 0; n_random := 0; trace := [] |}.

End Sample.

(** ** Tactics *)

(** Case analysis on the innermost scrutinee of the goal. *)
Ltac destruct_scrutinee :=
  match goal with
  | |- context [match ?x with _ => _ end] =>
      lazymatch x with
      | context [match _ with _ => _ end] => fail
      | _ => destruct x eqn:?
      end
  end.

(** One step into a computation whose head is a [let], an [if] or a
    [match]. *)
Ltac effects_step :=
  match goal with
  | |- _ (let x := _ in _) => cbv zeta
  | |- _ (if ?b then _ else _) => destruct b
  | |- _ (match ?x with _ => _ end) => destruct x
  end.

Create HintDb effects.

(** * The helpers on small inputs *)

Example lower_sha256 : lower "SHA256" = "sha256".
Proof. reflexivity. Qed.

Example join_valid_cat : join ", " VALID_CAT = "ext, hash, ioc".
Proof. reflexivity. Qed.

Example ole_magic_bytes : String.list_byte_of_string OLE_MAGIC = [xd0; xcf]%byte.
Proof. reflexivity. Qed.

Example hexlify_ole : hexlify [xd0; xcf; x0a]%byte = "d0cf0a".
Proof. reflexivity. Qed.

Example int16_deadbeef : int16 "deadbeef" = Some 3735928559.
Proof. reflexivity. Qed.

Example chunks_of_eight :
  chunks "0123456789abcdef01" 8 = ["01234567"; "89abcdef"; "01"].
Proof. reflexivity. Qed.

Example os_path_join_home : os_path_join "/home/analyst" ".iqlabskey" = "/home/analyst/.iqlabskey".
Proof. reflexivity. Qed.

Example str_of_int_samples :
  (str_of_int 0, str_of_int 404, str_of_int (-120)) = ("0", "404", "-120").
Proof. reflexivity. Qed.

Example render_status :
  render (Format "status=%d error communicating with %s: %s"
                 [PInt 404; PStr "https://labs.inquest.net/api/stats"; PStr "n/a"])
  = Some "status=404 error communicating with https://labs.inquest.net/api/stats: n/a".
Proof. reflexivity. Qed.

Example truthy_empty_buffer : truthy (PBytes []) = false /\ truthy (PStr "") = false.
Proof. split; reflexivity. Qed.

Example python3_bytes_never_equal_str :
  bytes_eq_str Py3 (String.list_byte_of_string "PK") "PK" = false
  /\ bytes_eq_str Py2 (String.list_byte_of_string "PK") "PK" = true.
Proof. split; reflexivity. Qed.

(** * Effects of the building blocks *)

Section Effects.

Lemma bind_return {A B} (m : M A) (k : A -> M B) w a w' :
  m w = (Return a, w') -> bind m k w = k a w'.
Proof. intros H. unfold bind. now rewrite H. Qed.

Lemma bind_raise {A B} (m : M A) (k : A -> M B) w e w' :
  m w = (Raise e, w') -> bind m k w = (Raise e, w').
Proof. intros H. unfold bind. now rewrite H. Qed.

Lemma sleeps_snoc t e :
  sleeps (t ++ [e]) = (sleeps t ++ match e with EvSleep d => [d] | _ => [] end)%list.
Proof. unfold sleeps. rewrite omap_app. destruct e; reflexivity. Qed.

Lemma requests_of_snoc t e :
  requests_of (t ++ [e])
  = (requests_of t ++ match e with EvRequest r => [r] | _ => [] end)%list.
Proof. unfold requests_of. rewrite omap_app. destruct e; reflexivity. Qed.

Lemma keeps_fs_ret {A} (a : A) : keeps_fs (ret a).
Proof. intros w. reflexivity. Qed.

Lemma keeps_fs_raise {A} e : keeps_fs (@raise A e).
Proof. intros w. reflexivity. Qed.

Lemma keeps_fs_diverge {A} : keeps_fs (@diverge A).
Proof. intros w. reflexivity. Qed.

Lemma keeps_fs_bind {A B} (m : M A) (k : A -> M B) :
  keeps_fs m -> (forall a, keeps_fs (k a)) -> keeps_fs (bind m k).
Proof.
  intros Hm Hk w. unfold bind. specialize (Hm w).
  destruct (m w) as [[a|e|] w']; cbn [snd] in *; try assumption.
  now rewrite Hk.
Qed.

Lemma keeps_fs_log e : keeps_fs (log e).
Proof. intros w. reflexivity. Qed.

Lemma keeps_fs_getattr (self : instance) name : keeps_fs (getattr self name).
Proof. unfold getattr. destruct (self !! name); intros w; reflexivity. Qed.

Lemma keeps_fs_open_rb p : keeps_fs (open_rb p).
Proof. intros w. unfold open_rb. destruct (fs w !! p) as [[c|]|]; reflexivity. Qed.

Lemma keeps_fs_fh_read py p n rest : keeps_fs (fh_read py p n rest).
Proof. intros w. unfold fh_read. destruct (read_error py n); reflexivity. Qed.

Lemma keeps_fs_do_request r : keeps_fs (do_request r).
Proof. intros w. reflexivity. Qed.

Lemma keeps_fs_random_uniform a b : keeps_fs (random_uniform a b).
Proof. intros w. reflexivity. Qed.

Lemma keeps_fs_get_world : keeps_fs get_world.
Proof. intros w. reflexivity. Qed.

Lemma quiet_ret {A} (a : A) : quiet (ret a).
Proof. intros w. auto. Qed.

Lemma quiet_raise {A} e : quiet (@raise A e).
Proof. intros w. auto. Qed.

Lemma quiet_diverge {A} : quiet (@diverge A).
Proof. intros w. auto. Qed.

Lemma quiet_bind {A B} (m : M A) (k : A -> M B) :
  quiet m -> (forall a, quiet (k a)) -> quiet (bind m k).
Proof.
  intros Hm Hk w. unfold bind. specialize (Hm w).
  destruct (m w) as [[a|e|] w']; cbn [snd] in *; try assumption.
  destruct (Hk a w') as (H1 & H2 & H3). destruct Hm as (H4 & H5 & H6).
  repeat split; congruence.
Qed.

Lemma quiet_getattr (self : instance) name : quiet (getattr self name).
Proof. unfold getattr. destruct (self !! name); intros w; auto. Qed.

Lemma quiet_open_rb p : quiet (open_rb p).
Proof.
  intros w. unfold open_rb. destruct (fs w !! p) as [[c|]|]; auto.
  cbn [snd trace emit n_random random_random]. rewrite sleeps_snoc, app_nil_r. auto.
Qed.

Lemma quiet_do_request r : quiet (do_request r).
Proof.
  intros w. cbn [do_request snd trace emit count_request n_random random_random].
  rewrite sleeps_snoc, app_nil_r. auto.
Qed.

End Effects.

#[export] Hint Resolve keeps_fs_ret keeps_fs_raise keeps_fs_diverge keeps_fs_log
  keeps_fs_getattr keeps_fs_open_rb keeps_fs_fh_read keeps_fs_do_request
  keeps_fs_random_uniform keeps_fs_get_world
  quiet_ret quiet_raise quiet_diverge quiet_getattr quiet_open_rb quiet_do_request
  : effects.

(** Decompose a computation down to the building blocks above. *)
Ltac keeps_fs_effects :=
  repeat first
    [ progress (eauto with effects)
    | apply keeps_fs_bind; [| intros ? ]
    | effects_step ].

Ltac quiet_effects :=
  repeat first
    [ progress (eauto with effects)
    | apply quiet_bind; [| intros ? ]
    | effects_step ].

(** * Credential resolution *)

Section Credentials.
Variable rt : runtime.
Variables (api_key config : option string) (proxies : pyval) (base_url : option string).
Variables (retries : Z) (verify_ssl : bool) (w : world).

Local Abbreviation run :=
  (__init__ rt api_key config proxies base_url retries verify_ssl w).
Local Abbreviation config_file := (config_path config w).

Lemma truthy_str k : k <> "" -> truthy (PStr k) = true.
Proof.
  intros H. simpl. destruct (String.eqb k "") eqn:E; [| reflexivity].
  apply String.eqb_eq in E. contradiction.
Qed.

Lemma unset_falsy o : unset o -> truthy (of_optional_str o) = false.
Proof. intros [-> | ->]; reflexivity. Qed.

Ltac init_unfold :=
  unfold resolves, config_path, __init__, bind, ret, raise,
    os_path_expanduser_home, os_environ_get, get_world, config_file_content,
    os_path_isfile, os_path_exists, is_file.

Ltac init_attributes :=
  destruct base_url; eexists; (split; [reflexivity | by simplify_map_eq]).

(** An explicit key wins, and nothing else is consulted. *)
Lemma init_explicit k :
  api_key = Some k -> k <> "" -> resolves run (PStr k) w.
Proof.
  intros -> Hk. init_unfold.
  destruct config; cbn beta iota delta [of_optional_str];
    rewrite (truthy_str k Hk); cbn [negb]; init_attributes.
Qed.

(** Without one, the environment variable is used. *)
Lemma init_environment y :
  unset api_key -> environ w !! "IQLABS_APIKEY" = Some y -> y <> "" ->
  resolves run (PStr y) w.
Proof.
  intros Hu Hy Hne. init_unfold.
  destruct config; cbn beta iota;
    rewrite (unset_falsy _ Hu); cbn [negb]; rewrite Hy; cbn [of_optional_str];
    rewrite (truthy_str y Hne); cbn [negb andb]; init_attributes.
Qed.

(** Without either, the key of the configuration file is used. *)
Lemma init_config_file c get z :
  unset api_key -> unset (environ w !! "IQLABS_APIKEY") ->
  fs w !! config_file = Some (File c) ->
  ConfigParser_read rt c = Some get -> get "inquestlabs" "apikey" = Some z ->
  resolves run (PStr z) (emit (EvConfigRead config_file) w).
Proof.
  intros Hu He Hf Hr Hg. init_unfold.
  destruct config as [cf|]; cbn [config_path] in Hf; cbn beta iota;
    rewrite (unset_falsy _ Hu); cbn [negb]; rewrite (unset_falsy _ He); cbn [negb andb];
    rewrite Hf; cbn [andb]; rewrite Hf; cbn beta iota; rewrite Hr, Hg; init_attributes.
Qed.

(** With no source at all the key stays [None]. *)
Lemma init_absent :
  unset api_key -> environ w !! "IQLABS_APIKEY" = None ->
  is_file w config_file = false ->
  resolves run PNone w.
Proof.
  intros Hu He Hf. init_unfold. unfold is_file in Hf.
  destruct config as [cf|]; cbn [config_path] in Hf; cbn beta iota;
    rewrite (unset_falsy _ Hu); cbn [negb]; rewrite He;
    cbn [of_optional_str truthy negb andb];
    destruct (fs w !! _) as [[|]|] eqn:E; try discriminate Hf; cbn [andb];
    init_attributes.
Qed.

Lemma init_unparseable c :
  unset api_key -> unset (environ w !! "IQLABS_APIKEY") ->
  fs w !! config_file = Some (File c) ->
  ConfigParser_read rt c = None ->
  run = (Raise (inquestlabs_exception
                  (Format "invalid configuration file: %s" [PStr config_file])),
         emit (EvConfigRead config_file) w).
Proof.
  intros Hu He Hf Hr. init_unfold.
  destruct config as [cf|]; cbn [config_path] in Hf; cbn beta iota;
    rewrite (unset_falsy _ Hu); cbn [negb]; rewrite (unset_falsy _ He); cbn [negb andb];
    rewrite Hf; cbn [andb]; rewrite Hf; cbn beta iota; rewrite Hr; reflexivity.
Qed.

Lemma init_key_missing c get :
  unset api_key -> unset (environ w !! "IQLABS_APIKEY") ->
  fs w !! config_file = Some (File c) ->
  ConfigParser_read rt c = Some get -> get "inquestlabs" "apikey" = None ->
  run = (Raise (inquestlabs_exception
                  (Format "unable to find inquestlabs.apikey in: %s" [PStr config_file])),
         emit (EvConfigRead config_file) w).
Proof.
  intros Hu He Hf Hr Hg. init_unfold.
  destruct config as [cf|]; cbn [config_path] in Hf; cbn beta iota;
    rewrite (unset_falsy _ Hu); cbn [negb]; rewrite (unset_falsy _ He); cbn [negb andb];
    rewrite Hf; cbn [andb]; rewrite Hf; cbn beta iota; rewrite Hr, Hg; reflexivity.
Qed.

(** C4.  The constructor resolves the API key from, in this order: the
    [api_key] argument when it is a non-empty string; else the environment
    variable [IQLABS_APIKEY] when it is set and non-empty; else the key
    [apikey] of section [inquestlabs] of the configuration file, when that
    file exists.  With no argument, no variable and no such file the key is
    [None] and the constructor returns normally.  When the file is consulted
    and does not parse, or parses and lacks the key, the constructor raises
    [inquestlabs_exception], with a different message in the two cases. *)
Theorem credential_resolution :
  (forall k, api_key = Some k -> k <> "" -> resolves run (PStr k) w)
  /\ (forall y,
        unset api_key -> environ w !! "IQLABS_APIKEY" = Some y -> y <> "" ->
        resolves run (PStr y) w)
  /\ (forall c get z,
        unset api_key -> unset (environ w !! "IQLABS_APIKEY") ->
        fs w !! config_file = Some (File c) ->
        ConfigParser_read rt c = Some get -> get "inquestlabs" "apikey" = Some z ->
        resolves run (PStr z) (emit (EvConfigRead config_file) w))
  /\ (unset api_key -> environ w !! "IQLABS_APIKEY" = None ->
      is_file w config_file = false ->
      resolves run PNone w)
  /\ (forall c,
        unset api_key -> unset (environ w !! "IQLABS_APIKEY") ->
        fs w !! config_file = Some (File c) ->
        ConfigParser_read rt c = None ->
        run = (Raise (inquestlabs_exception
                        (Format "invalid configuration file: %s" [PStr config_file])),
               emit (EvConfigRead config_file) w))
  /\ (forall c get,
        unset api_key -> unset (environ w !! "IQLABS_APIKEY") ->
        fs w !! config_file = Some (File c) ->
        ConfigParser_read rt c = Some get -> get "inquestlabs" "apikey" = None ->
        run = (Raise (inquestlabs_exception
                        (Format "unable to find inquestlabs.apikey in: %s"
                                [PStr config_file])),
               emit (EvConfigRead config_file) w)).
Proof.
  split; [exact init_explicit|].
  split; [exact init_environment|].
  split; [exact init_config_file|].
  split; [exact init_absent|].
  split; [exact init_unparseable | exact init_key_missing].
Qed.

End Credentials.

(** C4 on sample processes: an explicit key beats the environment, the
    environment is used without one, the configuration file is used without
    either, nothing at all gives [None], and the two malformed files give
    the two messages. *)
Lemma credential_resolution_witness :
  let rt := Sample.runtime_of Py3 in
  let w_env := Sample.with_environment "from-env" in
  let cfg := "/home/analyst/.iqlabskey" in
  resolves (__init__ rt (Some "explicit") None PNone None 3 true w_env) (PStr "explicit") w_env
  /\ resolves (__init__ rt None None PNone None 3 true w_env) (PStr "from-env") w_env
  /\ resolves (__init__ rt None None PNone None 3 true (Sample.configured "key=from-file"))
       (PStr "from-file") (emit (EvConfigRead cfg) (Sample.configured "key=from-file"))
  /\ resolves (__init__ rt None None PNone None 3 true Sample.offline) PNone Sample.offline
  /\ __init__ rt None None PNone None 3 true (Sample.configured "garbage")
     = (Raise (inquestlabs_exception (Format "invalid configuration file: %s" [PStr cfg])),
        emit (EvConfigRead cfg) (Sample.configured "garbage"))
  /\ __init__ rt None None PNone None 3 true (Sample.configured "[other]")
     = (Raise (inquestlabs_exception
                 (Format "unable to find inquestlabs.apikey in: %s" [PStr cfg])),
        emit (EvConfigRead cfg) (Sample.configured "[other]")).
Proof.
  cbv zeta.
  split; [| split; [| split; [| split; [| split]]]].
  - apply (proj1 (credential_resolution (Sample.runtime_of Py3) (Some "explicit") None
                    PNone None 3 true (Sample.with_environment "from-env")));
      [reflexivity | discriminate].
  - apply (proj1 (proj2 (credential_resolution (Sample.runtime_of Py3) None None
                           PNone None 3 true (Sample.with_environment "from-env"))));
      [left; reflexivity | reflexivity | discriminate].
  - eapply (proj1 (proj2 (proj2 (credential_resolution (Sample.runtime_of Py3) None None
                           PNone None 3 true (Sample.configured "key=from-file")))));
      [left; reflexivity | left; reflexivity | reflexivity | reflexivity | reflexivity].
  - apply (proj1 (proj2 (proj2 (proj2 (credential_resolution (Sample.runtime_of Py3)
                           None None PNone None 3 true Sample.offline)))));
      [left; reflexivity | reflexivity | reflexivity].
  - eapply (proj1 (proj2 (proj2 (proj2 (proj2 (credential_resolution
                           (Sample.runtime_of Py3) None None PNone None 3 true
                           (Sample.configured "garbage")))))));
      [left; reflexivity | left; reflexivity | reflexivity | reflexivity].
  - eapply (proj2 (proj2 (proj2 (proj2 (proj2 (credential_resolution
                           (Sample.runtime_of Py3) None None PNone None 3 true
                           (Sample.configured "[other]")))))));
      [left; reflexivity | left; reflexivity | reflexivity | reflexivity | reflexivity].
Defined.

Lemma sample_client_constructed : constructed (Sample.runtime_of Py3) Sample.client.
Proof.
  destruct (init_absent (Sample.runtime_of Py3) None None PNone None 3 true Sample.offline)
    as (self & E & _); [left; reflexivity | reflexivity | reflexivity |].
  exists None, None, PNone, None, 3, true, Sample.offline, Sample.offline.
  unfold Sample.client. rewrite E. reflexivity.
Qed.

(** * The request executor *)

Section Executor.
Variable rt : runtime.

Lemma str_in_method_ok method :
  str_in method ["GET"; "POST"] = true <-> method = "GET" \/ method = "POST".
Proof.
  unfold str_in. rewrite bool_decide_eq_true.
  rewrite !elem_of_cons, elem_of_nil. tauto.
Qed.

(** What the constructor leaves in the attribute dictionary: it stores the
    budget under [num_retries], and nothing under [retries]. *)
Lemma constructed_attributes (self : instance) :
  constructed rt self ->
  self !! "retries" = None
  /\ (exists k, self !! "api_key" = Some k)
  /\ (exists b, self !! "base_url" = Some (PStr b))
  /\ (exists p, self !! "proxies" = Some p)
  /\ (exists v, self !! "verify_ssl" = Some v).
Proof.
  intros (api_key & config & proxies & base_url & retries & verify_ssl & w0 & w1 & H).
  unfold __init__, bind, ret, raise, os_path_expanduser_home, os_environ_get,
    get_world, config_file_content in H.
  repeat match type of H with
         | context [match ?x with _ => _ end] => destruct x eqn:?
         end.
  all: try discriminate H.
  all: inversion H; subst; clear H.
  all: repeat split; try (eexists; by simplify_map_eq); by simplify_map_eq.
Qed.

Lemma constructed_num_retries api_key config proxies base_url retries verify_ssl w0
    (self : instance) w1 :
  __init__ rt api_key config proxies base_url retries verify_ssl w0 = (Return self, w1) ->
  self !! "num_retries" = Some (PInt retries).
Proof.
  intros H.
  unfold __init__, bind, ret, raise, os_path_expanduser_home, os_environ_get,
    get_world, config_file_content in H.
  repeat match type of H with
         | context [match ?x with _ => _ end] => destruct x eqn:?
         end.
  all: try discriminate H.
  all: inversion H; subst; clear H.
  all: by simplify_map_eq.
Qed.

(** With no file to attach and the attributes in place, [__API] is its
    loop followed by the classification of the response. *)
Lemma API_unfold fuel (self : instance) api data method raw w ak px vf b :
  str_in method ["GET"; "POST"] = true ->
  self !! "api_key" = Some ak -> self !! "proxies" = Some px ->
  self !! "verify_ssl" = Some vf -> self !! "base_url" = Some (PStr b) ->
  exists r,
    (req_method r = method /\ req_url r = b ++ api /\ req_data r = data
     /\ req_files r = None)
    /\ __API rt fuel self api data PNone method raw w
       = bind (API_attempts fuel self r 0) (API_classify rt (b ++ api) raw) w.
Proof.
  intros Hm Hk Hp Hv Hb. eexists. split; cycle 1.
  - unfold __API. rewrite Hm. simpl negb. cbv iota.
    unfold getattr. rewrite Hk, Hp, Hv, Hb. simpl. reflexivity.
  - simpl. auto.
Qed.

Lemma API_unfold_constructed fuel (self : instance) api data method raw w :
  constructed rt self ->
  method = "GET" \/ method = "POST" ->
  exists r,
    (req_method r = method /\ req_data r = data /\ req_files r = None
     /\ exists b, self !! "base_url" = Some (PStr b) /\ req_url r = b ++ api)
    /\ __API rt fuel self api data PNone method raw w
       = bind (API_attempts fuel self r 0) (API_classify rt (req_url r) raw) w.
Proof.
  intros Hc Hm. apply str_in_method_ok in Hm.
  destruct (constructed_attributes self Hc) as (_ & [k Hk] & [b Hb] & [p Hp] & [v Hv]).
  destruct (API_unfold fuel self api data method raw w k p v b Hm Hk Hp Hv Hb)
    as (r & (H1 & H2 & H3 & H4) & E).
  exists r. rewrite H2. repeat split; eauto.
Qed.

(** One iteration of the loop that receives a response leaves the loop. *)
Lemma API_attempts_response fuel (self : instance) r a w resp :
  requests_request w (n_requests w) r = Responds resp ->
  API_attempts (S fuel) self r a w
  = (Return resp, emit (EvRequest r) (count_request w)).
Proof. intros H. simpl. unfold bind, do_request. rewrite H. reflexivity. Qed.

(** One iteration whose request fails sleeps and then reads [self.retries];
    without that attribute the read raises. *)
Lemma API_attempts_no_budget fuel (self : instance) r a w :
  self !! "retries" = None ->
  requests_request w (n_requests w) r = TransportError ->
  API_attempts (S fuel) self r a w
  = (Raise (AttributeError "retries"),
     emit (EvSleep (uniform_at 0 (backoff_ceiling a) (random_random w (n_random w))))
          (count_random (emit (EvRequest r) (count_request w)))).
Proof.
  intros Hr H. simpl. unfold bind, do_request. rewrite H. simpl.
  unfold getattr. rewrite Hr. reflexivity.
Qed.

Lemma backoff_delays_same w w' a k :
  n_random w' = n_random w -> random_random w' = random_random w ->
  backoff_delays w' a k = backoff_delays w a k.
Proof. intros H1 H2. unfold backoff_delays. now rewrite H1, H2. Qed.

Lemma backoff_delays_S w a k d :
  d = uniform_at 0 (backoff_ceiling a) (random_random w (n_random w)) ->
  forall w2, random_random w2 = random_random w -> n_random w2 = S (n_random w) ->
  backoff_delays w a (S k) = d :: backoff_delays w2 (S a) k.
Proof.
  intros -> w2 Hr Hn. unfold backoff_delays.
  rewrite <- cons_seq, <- seq_shift, map_cons, map_map, Hr, Hn.
  rewrite !Nat.add_0_r. f_equal.
  apply map_ext. intros i. now rewrite <- !plus_n_Sm.
Qed.

(** The world after one failed attempt numbered [a]. *)
Lemma API_attempts_failed_step fuel (self : instance) r a w :
  requests_request w (n_requests w) r = TransportError ->
  let d := uniform_at 0 (backoff_ceiling a) (random_random w (n_random w)) in
  let w2 := emit (EvSleep d) (count_random (emit (EvRequest r) (count_request w))) in
  API_attempts (S fuel) self r a w
  = match self !! "retries" with
    | None => (Raise (AttributeError "retries"), w2)
    | Some v =>
        if int_eq (Z.of_nat (S a)) v then
          (Raise (inquestlabs_exception
                    (Format "exceeded %s attempts to communicate with InQuest Labs API endpoint %s."
                            [v; PStr (req_url r)])), w2)
        else API_attempts fuel self r (S a) w2
    end.
Proof.
  intros H d w2. simpl. unfold bind, do_request. rewrite H.
  cbn [random_uniform time_sleep log]. unfold getattr.
  destruct (self !! "retries") as [v|]; [| reflexivity].
  cbn [ret]. destruct (int_eq _ v); reflexivity.
Qed.

Lemma keeps_fs_API_attempts fuel (self : instance) r : forall a,
  keeps_fs (API_attempts fuel self r a).
Proof.
  induction fuel as [|fuel IH]; intros a; simpl; unfold time_sleep; keeps_fs_effects.
Qed.

Lemma keeps_fs_API_classify endpoint raw resp :
  keeps_fs (API_classify rt endpoint raw resp).
Proof.
  unfold API_classify, response_json, subscript, dict_get_default. keeps_fs_effects.
Qed.

Lemma quiet_API_classify endpoint raw resp : quiet (API_classify rt endpoint raw resp).
Proof.
  unfold API_classify, response_json, subscript, dict_get_default. quiet_effects.
Qed.

(** [__API] never touches the file system. *)
Lemma keeps_fs_API fuel (self : instance) api data path method raw :
  keeps_fs (__API rt fuel self api data path method raw).
Proof.
  unfold __API, str_add.
  repeat first
    [ apply keeps_fs_API_attempts
    | apply keeps_fs_API_classify
    | progress (eauto with effects)
    | apply keeps_fs_bind; [| intros ? ]
    | effects_step ].
Qed.

Lemma backs_off_quiet {A} a (m : M A) : quiet m -> backs_off a m.
Proof.
  intros H w. exists 0%nat. destruct (H w) as (-> & _). cbn. now rewrite app_nil_r.
Qed.

Lemma backs_off_after_quiet {A B} a (m : M A) (k : A -> M B) :
  quiet m -> (forall x, backs_off a (k x)) -> backs_off a (bind m k).
Proof.
  intros Hm Hk w. unfold bind. destruct (Hm w) as (H1 & H2 & H3).
  destruct (m w) as [[x|e|] w']; cbn [snd] in *.
  - destruct (Hk x w') as [n Hn]. exists n.
    now rewrite Hn, H1, (backoff_delays_same w w' a n H2 H3).
  - exists 0%nat. cbn. now rewrite app_nil_r.
  - exists 0%nat. cbn. now rewrite app_nil_r.
Qed.

Lemma backs_off_then_quiet {A B} a (m : M A) (k : A -> M B) :
  backs_off a m -> (forall x, quiet (k x)) -> backs_off a (bind m k).
Proof.
  intros Hm Hk w. unfold bind. destruct (Hm w) as [n Hn]. exists n.
  destruct (m w) as [[x|e|] w']; cbn [snd] in *; try assumption.
  destruct (Hk x w') as (-> & _). assumption.
Qed.

(** The loop sleeps once per failed attempt, the attempt numbered [n]
    for [uniform(0, backoff_ceiling n)] seconds. *)
Lemma backs_off_API_attempts fuel (self : instance) r : forall a,
  backs_off a (API_attempts fuel self r a).
Proof.
  induction fuel as [|fuel IH]; intros a w.
  - exists 0%nat. simpl. now rewrite app_nil_r.
  - destruct (requests_request w (n_requests w) r) as [|resp] eqn:E.
    + rewrite (API_attempts_failed_step fuel self r a w E). cbv zeta.
      set (d := uniform_at 0 (backoff_ceiling a) (random_random w (n_random w))).
      set (w2 := emit (EvSleep d) (count_random (emit (EvRequest r) (count_request w)))).
      assert (Hw2 : sleeps (trace w2) = (sleeps (trace w) ++ [d])%list).
      { unfold w2. cbn [trace emit count_random count_request].
        now rewrite !sleeps_snoc, app_nil_r. }
      assert (Hone : forall k, (sleeps (trace w) ++ backoff_delays w a (S k))%list
                               = (sleeps (trace w2) ++ backoff_delays w2 (S a) k)%list).
      { intros k. rewrite Hw2, <- app_assoc.
        now rewrite (backoff_delays_S w a k d eq_refl w2). }
      destruct (self !! "retries") as [v|].
      * destruct (int_eq (Z.of_nat (S a)) v).
        -- exists 1%nat. cbn [snd]. rewrite Hone. cbn. now rewrite app_nil_r.
        -- destruct (IH (S a) w2) as [k Hk]. exists (S k). now rewrite Hk, Hone.
      * exists 1%nat. cbn [snd]. rewrite Hone. cbn. now rewrite app_nil_r.
    + rewrite (API_attempts_response fuel self r a w resp E).
      exists 0%nat. cbn [snd trace emit count_request].
      now rewrite sleeps_snoc, !app_nil_r.
Qed.

Lemma backs_off_API fuel (self : instance) api data path method raw :
  backs_off 0 (__API rt fuel self api data path method raw).
Proof.
  unfold __API, str_add.
  repeat first
    [ apply backs_off_then_quiet;
      [apply backs_off_API_attempts | intros ?; apply quiet_API_classify]
    | apply backs_off_after_quiet; [quiet_effects; fail | intros ?]
    | apply backs_off_quiet; quiet_effects; fail
    | effects_step ].
Qed.

(** The classification of a response has no effect on the world. *)
Lemma API_classify_world endpoint raw resp w :
  snd (API_classify rt endpoint raw resp w) = w.
Proof.
  unfold API_classify, response_json, subscript, dict_get_default, bind, ret, raise.
  repeat destruct_scrutinee; reflexivity.
Qed.

Lemma failed_attempts_S w r a k d :
  d = uniform_at 0 (backoff_ceiling a) (random_random w (n_random w)) ->
  forall w2, random_random w2 = random_random w -> n_random w2 = S (n_random w) ->
  failed_attempts w r a (S k)
  = ([EvRequest r; EvSleep d] ++ failed_attempts w2 r (S a) k)%list.
Proof.
  intros -> w2 Hr Hn. unfold failed_attempts.
  rewrite <- cons_seq, <- seq_shift. cbn [flat_map]. rewrite !Nat.add_0_r.
  f_equal. rewrite !flat_map_concat_map, map_map, Hr, Hn. f_equal.
  apply map_ext. intros i. now rewrite <- !plus_n_Sm.
Qed.

(** The trace of the loop: some number [k] of failed attempts, each
    followed by its sleep, and then either the request that was answered,
    or the exception that ended the loop after the last failure, or the end
    of the fuel. *)
Lemma API_attempts_trace (self : instance) r : forall fuel a w,
  exists k w',
    (k <= fuel)%nat
    /\ (forall i, (i < k)%nat -> requests_request w (n_requests w + i) r = TransportError)
    /\ ((exists resp,
           requests_request w (n_requests w + k) r = Responds resp
           /\ API_attempts fuel self r a w = (Return resp, w')
           /\ trace w' = (trace w ++ failed_attempts w r a k ++ [EvRequest r])%list)
        \/ ((1 <= k)%nat
            /\ (exists e, API_attempts fuel self r a w = (Raise e, w'))
            /\ trace w' = (trace w ++ failed_attempts w r a k)%list)
        \/ (k = fuel
            /\ API_attempts fuel self r a w = (Diverge, w')
            /\ trace w' = (trace w ++ failed_attempts w r a k)%list)).
Proof.
  induction fuel as [|fuel IH]; intros a w.
  - exists 0%nat, w. split; [lia|]. split; [intros i Hi; lia|].
    right; right. split; [reflexivity|]. split; [reflexivity|].
    cbn. now rewrite app_nil_r.
  - destruct (requests_request w (n_requests w) r) as [|resp] eqn:E.
    + pose proof (API_attempts_failed_step fuel self r a w E) as Hstep. cbv zeta in Hstep.
      set (d := uniform_at 0 (backoff_ceiling a) (random_random w (n_random w))) in *.
      set (w2 := emit (EvSleep d) (count_random (emit (EvRequest r) (count_request w)))) in *.
      assert (Hone : forall k tail,
                 (trace w2 ++ failed_attempts w2 r (S a) k ++ tail)%list
                 = (trace w ++ failed_attempts w r a (S k) ++ tail)%list).
      { intros k tail. rewrite (failed_attempts_S w r a k d eq_refl w2) by reflexivity.
        unfold w2. cbn [trace emit count_random count_request].
        rewrite <- !app_assoc. reflexivity. }
      assert (Hfirst : forall i, (i < 1)%nat ->
                 requests_request w (n_requests w + i) r = TransportError).
      { intros i Hi. replace i with 0%nat by lia. now rewrite Nat.add_0_r. }
      assert (Hstop : trace w2 = (trace w ++ failed_attempts w r a 1)%list).
      { specialize (Hone 0%nat []). cbn [failed_attempts flat_map seq] in Hone.
        rewrite !app_nil_r in Hone. rewrite Hone. unfold failed_attempts.
        cbn [flat_map seq]. now rewrite app_nil_r. }
      destruct (self !! "retries") as [v|].
      * destruct (int_eq (Z.of_nat (S a)) v).
        -- exists 1%nat, w2. split; [lia|]. split; [exact Hfirst|].
           right; left. split; [lia|]. split; [eauto | exact Hstop].
        -- destruct (IH (S a) w2) as (k & w' & Hk & Hfail & Hcases).
           exists (S k), w'. split; [lia|]. split.
           { intros i Hi. destruct i as [|i]; [now rewrite Nat.add_0_r|].
             specialize (Hfail i ltac:(lia)).
             cbn [w2 n_requests requests_request emit count_random count_request] in Hfail.
             now replace (n_requests w + S i)%nat with (S (n_requests w) + i)%nat by lia. }
           rewrite Hstep.
           destruct Hcases as [(resp & Hresp & E2 & Ht) | [(H1 & He & Ht) | (-> & E2 & Ht)]].
           ++ left. exists resp. split; [| split; [exact E2|]].
              ** cbn [w2 n_requests requests_request emit count_random count_request] in Hresp.
                 now replace (n_requests w + S k)%nat with (S (n_requests w) + k)%nat by lia.
              ** now rewrite Ht, Hone.
           ++ right; left. split; [lia|]. split; [exact He|].
              specialize (Hone k []). rewrite !app_nil_r in Hone. now rewrite Ht.
           ++ right; right. split; [reflexivity|]. split; [exact E2|].
              specialize (Hone fuel []). rewrite !app_nil_r in Hone. now rewrite Ht.
      * exists 1%nat, w2. split; [lia|]. split; [exact Hfirst|].
        right; left. split; [lia|]. split; [eauto | exact Hstop].
    + exists 0%nat. eexists. split; [lia|]. split; [intros i Hi; lia|].
      left. exists resp. rewrite Nat.add_0_r. split; [exact E|].
      split; [apply API_attempts_response; exact E|].
      cbn [trace emit count_request failed_attempts flat_map seq app]. reflexivity.
Qed.

Lemma API_trace fuel (self : instance) api data method raw w ak px vf b :
  method = "GET" \/ method = "POST" ->
  self !! "api_key" = Some ak -> self !! "proxies" = Some px ->
  self !! "verify_ssl" = Some vf -> self !! "base_url" = Some (PStr b) ->
  exists r k,
    (k <= fuel)%nat
    /\ (forall i, (i < k)%nat -> requests_request w (n_requests w + i) r = TransportError)
    /\ ((exists resp,
           requests_request w (n_requests w + k) r = Responds resp
           /\ trace (snd (__API rt fuel self api data PNone method raw w))
              = (trace w ++ failed_attempts w r 0 k ++ [EvRequest r])%list)
        \/ ((1 <= k)%nat
            /\ (exists e, fst (__API rt fuel self api data PNone method raw w) = Raise e)
            /\ trace (snd (__API rt fuel self api data PNone method raw w))
               = (trace w ++ failed_attempts w r 0 k)%list)
        \/ (k = fuel
            /\ fst (__API rt fuel self api data PNone method raw w) = Diverge
            /\ trace (snd (__API rt fuel self api data PNone method raw w))
               = (trace w ++ failed_attempts w r 0 k)%list)).
Proof.
  intros Hm Hk Hp Hv Hb. apply str_in_method_ok in Hm.
  destruct (API_unfold fuel self api data method raw w ak px vf b Hm Hk Hp Hv Hb)
    as (r & _ & E).
  destruct (API_attempts_trace self r fuel 0%nat w) as (k & w' & Hle & Hfail & Hcases).
  exists r, k. split; [exact Hle|]. split; [exact Hfail|]. rewrite E. unfold bind.
  destruct Hcases as [(resp & Hresp & E2 & Ht) | [(H1 & [e E2] & Ht) | (-> & E2 & Ht)]];
    rewrite E2.
  - left. exists resp. split; [exact Hresp|]. now rewrite API_classify_world.
  - right; left. split; [exact H1|]. split; [eauto | exact Ht].
  - right; right. split; [reflexivity|]. split; [reflexivity | exact Ht].
Qed.

End Executor.

Section ExecutorClaims.
Variable rt : runtime.

Lemma backoff_ceiling_closed_form n :
  (backoff_ceiling n == inject_Z (4 ^ Z.of_nat n) * 0.1)%Q.
Proof. unfold backoff_ceiling. rewrite inject_Z_mult. field. Qed.

Lemma backoff_ceiling_nonneg n : (0 <= backoff_ceiling n)%Q.
Proof.
  rewrite backoff_ceiling_closed_form.
  apply Qmult_le_0_compat; [| discriminate].
  change 0%Q with (inject_Z 0). rewrite <- Zle_Qle. apply Z.pow_nonneg. lia.
Qed.

Lemma uniform_at_bounds c u :
  (0 <= c)%Q -> (0 <= u <= 1)%Q -> (0 <= uniform_at 0 c u <= c)%Q.
Proof. intros Hc [H0 H1]. unfold uniform_at. split; nra. Qed.

(** What is made of a response whose status is not 200 and whose body is
    not JSON. *)
Lemma API_classify_not_json endpoint raw resp w :
  status_code resp <> 200 -> json_loads rt (content resp) = None ->
  API_classify rt endpoint raw resp w = (Raise ValueError, w).
Proof.
  intros Hs Hj. unfold API_classify.
  destruct (status_code resp =? 200) eqn:E; [apply Z.eqb_eq in E; contradiction|].
  unfold bind, response_json. rewrite Hj. reflexivity.
Qed.

(** What is made of it when the body is a JSON object. *)
Lemma API_classify_http_error endpoint raw resp d w :
  status_code resp <> 200 -> json_loads rt (content resp) = Some (PDict d) ->
  API_classify rt endpoint raw resp w
  = (Raise (inquestlabs_exception
              (Format "status=%d error communicating with %s: %s"
                      [PInt (status_code resp); PStr endpoint;
                       match dict_get d "error" with Some x => x | None => PStr "n/a" end])),
     w).
Proof.
  intros Hs Hj. unfold API_classify.
  destruct (status_code resp =? 200) eqn:E; [apply Z.eqb_eq in E; contradiction|].
  unfold bind, response_json. rewrite Hj. reflexivity.
Qed.

(** A 200 answer to a raw call is returned as its bytes, undecoded. *)
Lemma API_classify_raw endpoint resp w :
  status_code resp = 200 ->
  API_classify rt endpoint true resp w = (Return (PBytes (content resp)), w).
Proof. intros Hs. unfold API_classify. rewrite Hs. reflexivity. Qed.

Lemma API_raw_content fuel (self : instance) api data w resp :
  constructed rt self ->
  (forall r, requests_request w (n_requests w) r = Responds resp) ->
  status_code resp = 200 ->
  exists r,
    __API rt (S fuel) self api data PNone "GET" true w
    = (Return (PBytes (content resp)), emit (EvRequest r) (count_request w)).
Proof.
  intros Hc Hnet Hs.
  destruct (API_unfold_constructed rt (S fuel) self api data "GET" true w Hc)
    as (r & _ & E); [auto|].
  exists r. rewrite E.
  rewrite (bind_return _ _ _ _ _ (API_attempts_response fuel self r 0 w resp (Hnet r))).
  now apply API_classify_raw.
Qed.

(** On an instance that does carry a [retries] attribute [n], a network
    that is down is tried [n] times; every attempt, the last one too, is
    followed by a sleep, and only then is the exception raised. *)
Lemma API_attempts_budget (self : instance) r n :
  self !! "retries" = Some (PInt (Z.of_nat n)) ->
  forall k a extra w,
    (a + S k = n)%nat ->
    (forall i q, requests_request w i q = TransportError) ->
    exists w',
      API_attempts (S k + extra) self r a w
      = (Raise (inquestlabs_exception
                  (Format "exceeded %s attempts to communicate with InQuest Labs API endpoint %s."
                          [PInt (Z.of_nat n); PStr (req_url r)])), w')
      /\ requests_of (trace w') = (requests_of (trace w) ++ repeat r (S k))%list
      /\ sleeps (trace w') = (sleeps (trace w) ++ backoff_delays w a (S k))%list
      /\ exists t d, trace w' = (t ++ [EvSleep d])%list.
Proof.
  intros Hattr. induction k as [|k IH]; intros a extra w Ha Hnet.
  - cbn [Nat.add]. rewrite (API_attempts_failed_step extra self r a w (Hnet _ _)).
    cbv zeta. rewrite Hattr. cbn [int_eq].
    replace (Z.of_nat (S a) =? Z.of_nat n) with true by (symmetry; apply Z.eqb_eq; lia).
    eexists. split; [reflexivity|]. cbn [trace emit count_random count_request].
    rewrite !requests_of_snoc, !sleeps_snoc, !app_nil_r.
    split; [reflexivity|]. split.
    + unfold backoff_delays. cbn. now rewrite !Nat.add_0_r.
    + eauto.
  - change (S (S k) + extra)%nat with (S (S k + extra)).
    rewrite (API_attempts_failed_step (S k + extra) self r a w (Hnet _ _)).
    cbv zeta. rewrite Hattr. cbn [int_eq].
    replace (Z.of_nat (S a) =? Z.of_nat n) with false by (symmetry; apply Z.eqb_neq; lia).
    set (d := uniform_at 0 (backoff_ceiling a) (random_random w (n_random w))).
    set (w2 := emit (EvSleep d) (count_random (emit (EvRequest r) (count_request w)))).
    destruct (IH (S a) extra w2) as (w' & E & Hreq & Hsl & Hlast); [lia | exact Hnet |].
    exists w'. split; [exact E|]. split; [| split; [| exact Hlast]].
    + rewrite Hreq. unfold w2. cbn [trace emit count_random count_request].
      rewrite !requests_of_snoc, app_nil_r, <- app_assoc. reflexivity.
    + rewrite Hsl. unfold w2 at 1. cbn [trace emit count_random count_request].
      rewrite !sleeps_snoc, app_nil_r, <- app_assoc.
      now rewrite (backoff_delays_S w a (S k) d eq_refl w2).
Qed.

(** C6.  A method other than GET or POST makes [__API] fail on its first
    statement, the [assert] (an [AssertionError], which is how this client
    signals the invalid input): the world is left exactly as it was, so no
    file is opened, no request is issued and nothing is slept, and the retry
    loop is never entered, whatever fuel it is given. *)
Theorem API_method_precondition fuel (self : instance) api data path method raw w :
  method <> "GET" -> method <> "POST" ->
  __API rt fuel self api data path method raw w = (Raise AssertionError, w).
Proof.
  intros Hget Hpost. unfold __API.
  destruct (str_in method ["GET"; "POST"]) eqn:E.
  - apply str_in_method_ok in E. tauto.
  - reflexivity.
Qed.

(** C1, as the code behaves.  On an instance built by the constructor, a
    call whose every request fails in the transport issues ONE request,
    sleeps once after it, and then fails with [AttributeError]: the loop
    reads [self.retries], an attribute the constructor never sets (the
    budget is stored as [self.num_retries]).  This holds for every
    [retries] argument, so neither the count of attempts nor the error is
    the one the claim states. *)
Theorem API_transport_failure_attribute_error fuel (self : instance) api data method raw w :
  constructed rt self ->
  method = "GET" \/ method = "POST" ->
  (forall k r, requests_request w k r = TransportError) ->
  exists r w',
    __API rt (S fuel) self api data PNone method raw w
    = (Raise (AttributeError "retries"), w')
    /\ trace w' = (trace w ++
         [EvRequest r;
          EvSleep (uniform_at 0 (backoff_ceiling 0) (random_random w (n_random w)))])%list
    /\ n_requests w' = S (n_requests w).
Proof.
  intros Hc Hm Hnet.
  destruct (API_unfold_constructed rt (S fuel) self api data method raw w Hc Hm)
    as (r & _ & E).
  destruct (constructed_attributes rt self Hc) as (Hr & _).
  exists r. eexists. split; [| split].
  - rewrite E. apply bind_raise. apply API_attempts_no_budget; auto.
  - simpl. rewrite <- app_assoc. reflexivity.
  - reflexivity.
Qed.

(** C8.  The ceiling of the delay after the failed attempt numbered [n]
    (from 0) is [4^n * 0.1] seconds, that is 0.1, 0.4, 1.6, 6.4, 25.6, ...;
    whatever [__API] is called with, the durations it sleeps are, in order,
    [random.uniform(0, ceiling n)] for [n = 0, 1, 2, ...], each computed
    from a fresh draw of the generator; and such a duration lies between 0
    and its ceiling for a draw between 0 and 1.  On an instance that has the
    attributes of the request, the trace of a call is that of some number
    [k] of attempts that failed in the transport, the attempt numbered [n]
    directly followed by its sleep of [random.uniform(0, ceiling n)], and
    then: the request that was answered, with no sleep after it; or nothing
    more, when the loop was ended by an exception after the sleep of the
    last failure; or nothing more, when the loop is still running after
    [fuel] iterations.  (Arithmetic is exact here; the distribution of the
    draws is the generator's.) *)
Theorem API_backoff_schedule fuel (self : instance) api data path method raw w :
  (forall n, backoff_ceiling n == inject_Z (4 ^ Z.of_nat n) * 0.1)%Q
  /\ (backoff_ceiling 0 == 0.1 /\ backoff_ceiling 1 == 0.4 /\ backoff_ceiling 2 == 1.6
      /\ backoff_ceiling 3 == 6.4 /\ backoff_ceiling 4 == 25.6)%Q
  /\ (exists k,
        sleeps (trace (snd (__API rt fuel self api data path method raw w)))
        = (sleeps (trace w) ++ backoff_delays w 0 k)%list)
  /\ (forall n u, (0 <= u <= 1)%Q ->
        (0 <= uniform_at 0 (backoff_ceiling n) u <= backoff_ceiling n)%Q)
  /\ (forall ak px vf b,
        method = "GET" \/ method = "POST" ->
        self !! "api_key" = Some ak -> self !! "proxies" = Some px ->
        self !! "verify_ssl" = Some vf -> self !! "base_url" = Some (PStr b) ->
        exists r k,
          (k <= fuel)%nat
          /\ (forall i, (i < k)%nat ->
                requests_request w (n_requests w + i) r = TransportError)
          /\ ((exists resp,
                 requests_request w (n_requests w + k) r = Responds resp
                 /\ trace (snd (__API rt fuel self api data PNone method raw w))
                    = (trace w ++ failed_attempts w r 0 k ++ [EvRequest r])%list)
              \/ ((1 <= k)%nat
                  /\ (exists e,
                        fst (__API rt fuel self api data PNone method raw w) = Raise e)
                  /\ trace (snd (__API rt fuel self api data PNone method raw w))
                     = (trace w ++ failed_attempts w r 0 k)%list)
              \/ (k = fuel
                  /\ fst (__API rt fuel self api data PNone method raw w) = Diverge
                  /\ trace (snd (__API rt fuel self api data PNone method raw w))
                     = (trace w ++ failed_attempts w r 0 k)%list))).
Proof.
  split; [exact backoff_ceiling_closed_form|].
  split; [repeat split; reflexivity|].
  split; [apply backs_off_API|].
  split.
  - intros n u Hu. apply uniform_at_bounds; [apply backoff_ceiling_nonneg | exact Hu].
  - intros ak px vf b. apply API_trace.
Qed.

(** C9.  When the response that ends the loop has a status other than 200,
    its body is decoded as JSON before anything else: if the body is not
    JSON the call fails with the decoder's [ValueError], and the client's
    own exception with the status code is never built. *)
Theorem API_error_status_body_not_json fuel (self : instance) api data method raw w resp :
  constructed rt self ->
  method = "GET" \/ method = "POST" ->
  (forall r, requests_request w (n_requests w) r = Responds resp) ->
  status_code resp <> 200 ->
  json_loads rt (content resp) = None ->
  exists r,
    __API rt (S fuel) self api data PNone method raw w
    = (Raise ValueError, emit (EvRequest r) (count_request w)).
Proof.
  intros Hc Hm Hnet Hs Hj.
  destruct (API_unfold_constructed rt (S fuel) self api data method raw w Hc Hm)
    as (r & _ & E).
  exists r. rewrite E.
  rewrite (bind_return _ _ _ _ _ (API_attempts_response fuel self r 0 w resp (Hnet r))).
  now apply API_classify_not_json.
Qed.

(** The same response with a JSON object as body gives the client's
    exception, which carries the status code. *)
Lemma API_error_status_json_object fuel (self : instance) api data method raw w resp d :
  constructed rt self ->
  method = "GET" \/ method = "POST" ->
  (forall r, requests_request w (n_requests w) r = Responds resp) ->
  status_code resp <> 200 ->
  json_loads rt (content resp) = Some (PDict d) ->
  exists r,
    __API rt (S fuel) self api data PNone method raw w
    = (Raise (inquestlabs_exception
                (Format "status=%d error communicating with %s: %s"
                        [PInt (status_code resp); PStr (req_url r);
                         match dict_get d "error" with Some x => x | None => PStr "n/a" end])),
       emit (EvRequest r) (count_request w)).
Proof.
  intros Hc Hm Hnet Hs Hj.
  destruct (API_unfold_constructed rt (S fuel) self api data method raw w Hc Hm)
    as (r & _ & E).
  exists r. rewrite E.
  rewrite (bind_return _ _ _ _ _ (API_attempts_response fuel self r 0 w resp (Hnet r))).
  now apply API_classify_http_error.
Qed.

End ExecutorClaims.

(** C6 at [PUT], with the retry loop given no fuel at all. *)
Lemma API_method_precondition_witness :
  __API (Sample.runtime_of Py3) 0 Sample.client "/stats" PNone PNone "PUT" false
        Sample.offline
  = (Raise AssertionError, Sample.offline)
  /\ requests_of (trace Sample.offline) = [].
Proof.
  split.
  - apply (API_method_precondition (Sample.runtime_of Py3) 0 Sample.client
             "/stats" PNone PNone "PUT" false Sample.offline); discriminate.
  - reflexivity.
Defined.

(** C1 on [inquestlabs_api(retries=3)] with the network down: one request,
    one sleep, [AttributeError]. *)
Lemma API_transport_failure_attribute_error_witness :
  exists r w',
    __API (Sample.runtime_of Py3) 1 Sample.client "/stats" PNone PNone "GET" false
          Sample.offline
    = (Raise (AttributeError "retries"), w')
    /\ trace w' = (trace Sample.offline ++
         [EvRequest r;
          EvSleep (uniform_at 0 (backoff_ceiling 0)
                     (random_random Sample.offline (n_random Sample.offline)))])%list
    /\ n_requests w' = S (n_requests Sample.offline).
Proof.
  apply (API_transport_failure_attribute_error (Sample.runtime_of Py3) 0 Sample.client
           "/stats" PNone "GET" false Sample.offline).
  - exact sample_client_constructed.
  - left; reflexivity.
  - intros k r; reflexivity.
Defined.

(** The budget the sample instance was given is there, under the other
    name. *)
Lemma sample_client_budget :
  Sample.client !! "num_retries" = Some (PInt 3) /\ Sample.client !! "retries" = None.
Proof.
  destruct (init_absent (Sample.runtime_of Py3) None None PNone None 3 true Sample.offline)
    as (self & E & _); [left; reflexivity | reflexivity | reflexivity |].
  unfold Sample.client. rewrite E. cbn [fst]. split.
  - exact (constructed_num_retries _ _ _ _ _ _ _ _ _ _ E).
  - apply (constructed_attributes (Sample.runtime_of Py3)). do 8 eexists. exact E.
Qed.

(** C8 on the sample instance with the network down, and on the same
    instance given a budget of 3 when the network fails twice and then
    answers. *)
Lemma API_backoff_schedule_witness :
  (exists k,
     sleeps (trace (snd (__API (Sample.runtime_of Py3) 1 Sample.client "/stats" PNone PNone
                               "GET" false Sample.offline)))
     = (sleeps (trace Sample.offline) ++ backoff_delays Sample.offline 0 k)%list)
  /\ (let w := Sample.flaky 2 Sample.ok_answer in
      let run := __API (Sample.runtime_of Py3) 3 (with_retries 3 Sample.client) "/stats"
                       PNone PNone "GET" false w in
      exists r k,
        (k <= 3)%nat
        /\ (forall i, (i < k)%nat ->
              requests_request w (n_requests w + i) r = TransportError)
        /\ ((exists resp,
               requests_request w (n_requests w + k) r = Responds resp
               /\ trace (snd run)
                  = (trace w ++ failed_attempts w r 0 k ++ [EvRequest r])%list)
            \/ ((1 <= k)%nat
                /\ (exists e, fst run = Raise e)
                /\ trace (snd run) = (trace w ++ failed_attempts w r 0 k)%list)
            \/ (k = 3%nat
                /\ fst run = Diverge
                /\ trace (snd run) = (trace w ++ failed_attempts w r 0 k)%list))).
Proof.
  split.
  - exact (proj1 (proj2 (proj2 (API_backoff_schedule (Sample.runtime_of Py3) 1 Sample.client
                                  "/stats" PNone PNone "GET" false Sample.offline)))).
  - cbv zeta.
    exact (proj2 (proj2 (proj2 (proj2
             (API_backoff_schedule (Sample.runtime_of Py3) 3 (with_retries 3 Sample.client)
                "/stats" PNone PNone "GET" false (Sample.flaky 2 Sample.ok_answer)))))
             PNone PNone (PBool true) "https://labs.inquest.net/api"
             (or_introl eq_refl) eq_refl eq_refl eq_refl eq_refl).
Defined.

(** C9 on a 404 whose body is a web page. *)
Lemma API_error_status_body_not_json_witness :
  exists r,
    __API (Sample.runtime_of Py3) 1 Sample.client "/stats" PNone PNone "GET" false
          (Sample.world_of (Responds Sample.page))
    = (Raise ValueError,
       emit (EvRequest r) (count_request (Sample.world_of (Responds Sample.page)))).
Proof.
  apply (API_error_status_body_not_json (Sample.runtime_of Py3) 0 Sample.client
           "/stats" PNone "GET" false (Sample.world_of (Responds Sample.page))
           Sample.page).
  - exact sample_client_constructed.
  - left; reflexivity.
  - intros r; reflexivity.
  - discriminate.
  - reflexivity.
Defined.

(** * The hasher *)

Section Hasher.
Variable rt : runtime.

(** Both interpreter lines accept [-1] and the sizes from 0 to
    [sys.maxsize]. *)
Lemma read_error_none py size :
  -1 <= size <= sys_maxsize -> read_error py size = None.
Proof.
  intros H. unfold read_error, sys_maxsize in *.
  replace (size <? - (2 ^ 63 - 1) - 1) with false by (symmetry; apply Z.ltb_ge; lia).
  replace (2 ^ 63 - 1 <? size) with false by (symmetry; apply Z.ltb_ge; lia).
  replace (size <? -1) with false by (symmetry; apply Z.ltb_ge; lia).
  now destruct py.
Qed.

Lemma HASH_neither path bytes algorithm block_size fmt w :
  truthy path = false -> truthy bytes = false ->
  __HASH rt path bytes algorithm block_size fmt w = (Raise hash_expects, w).
Proof. intros Hp Hb. unfold __HASH. rewrite Hp, Hb. reflexivity. Qed.

Lemma HASH_blocks_not_client_error py fuel p block_size : forall rest h w,
  not_client_error (fst (HASH_blocks py fuel p block_size rest h w)).
Proof.
  induction fuel as [|fuel IH]; intros rest h w; [exact I|].
  simpl. unfold bind, fh_read, read_error, hashfunc_update, the_hashfunc, bind, ret, raise.
  destruct (_ || _); [exact I|].
  destruct py; [| destruct (block_size <? -1); [exact I|]].
  all: cbn [fst snd]; destruct (negb _); [exact I|].
  all: destruct h as [h|]; [apply IH | exact I].
Qed.

(** With a path or a buffer that counts as supplied, whatever goes wrong is
    not the client's exception. *)
Lemma HASH_supplied path bytes algorithm block_size fmt w :
  truthy path = true \/ truthy bytes = true ->
  not_client_error (fst (__HASH rt path bytes algorithm block_size fmt w)).
Proof.
  intros H. unfold __HASH.
  destruct (truthy path) eqn:Hp.
  - destruct (as_path path) as [s|]; try exact I.
    unfold bind, open_rb.
    destruct (fs w !! s) as [[c|]|]; try exact I.
    pose proof (HASH_blocks_not_client_error (python rt) (S (length c)) s block_size c
                  (new_hashfunc (lower algorithm)) (emit (EvOpen s "rb") w)) as Hn.
    cbn beta iota.
    destruct (HASH_blocks _ _ _ _ _ _ _) as [[h| e |] w']; cbn [fst] in *.
    + unfold the_hashfunc, ret, raise. repeat destruct_scrutinee; exact I.
    + exact Hn.
    + exact I.
  - destruct H as [H|H]; [discriminate|]. rewrite H.
    unfold hashfunc_update, the_hashfunc, bind, ret, raise.
    repeat destruct_scrutinee; exact I.
Qed.

(** [__HASH] raises its own error exactly when both [path] and [bytes] are
    false in a boolean context: [None], or empty. *)
Lemma HASH_invalid_input_iff path bytes algorithm block_size fmt w :
  fst (__HASH rt path bytes algorithm block_size fmt w) = Raise hash_expects
  <-> truthy path = false /\ truthy bytes = false.
Proof.
  split.
  - intros H. destruct (truthy path) eqn:Hp, (truthy bytes) eqn:Hb; auto;
      pose proof (HASH_supplied path bytes algorithm block_size fmt w) as Hn;
      rewrite H in Hn; exfalso; apply Hn; rewrite ?Hp, ?Hb; auto.
  - intros [Hp Hb]. now rewrite HASH_neither.
Qed.

(** A non-empty buffer is hashed in one call of [update]. *)
Lemma HASH_buffer_digest b algorithm a block_size fmt w :
  b <> [] -> new_hashfunc (lower algorithm) = Some (a, []) ->
  fmt <> "raw" -> fmt <> "parts" ->
  __HASH rt PNone (PBytes b) algorithm block_size fmt w
  = (Return (PStr (hexdigest rt a b)), w).
Proof.
  intros Hb Ha Hraw Hparts. unfold __HASH. rewrite Ha.
  cbn [truthy]. destruct b as [|x b]; [contradiction|]. cbn [length Nat.eqb negb].
  cbn [as_bytes]. unfold hashfunc_update, the_hashfunc, bind, ret. cbn [fst snd app].
  destruct (String.eqb fmt "raw") eqn:E1; [apply String.eqb_eq in E1; contradiction|].
  destruct (String.eqb fmt "parts") eqn:E2; [apply String.eqb_eq in E2; contradiction|].
  reflexivity.
Qed.

(** Hashing a file block by block is hashing its content, and the loop
    ends within the fuel [__HASH] gives it. *)
Lemma HASH_blocks_whole py p block_size a : forall fuel rest fed w,
  (length rest < fuel)%nat -> block_size <> 0 -> read_error py block_size = None ->
  exists w',
    HASH_blocks py fuel p block_size rest (Some (a, fed)) w
    = (Return (Some (a, (fed ++ rest)%list)), w')
    /\ fs w' = fs w /\ n_requests w' = n_requests w.
Proof.
  induction fuel as [|fuel IH]; intros rest fed w Hlen Hbs Hok; [lia|].
  simpl. unfold bind at 1. unfold fh_read. rewrite Hok.
  set (n := if block_size <? 0 then length rest else Z.to_nat block_size).
  cbn [fst snd].
  destruct rest as [|x rest].
  - rewrite firstn_nil. cbn [truthy length Nat.eqb negb ret].
    eexists. rewrite app_nil_r. split; [reflexivity|]. split; reflexivity.
  - assert (Hn : (0 < n)%nat).
    { unfold n. destruct (block_size <? 0) eqn:E; simpl; lia. }
    destruct n as [|n']; [lia|].
    cbn [firstn skipn truthy length Nat.eqb negb].
    unfold hashfunc_update, the_hashfunc, bind, ret. cbn [fst snd].
    destruct (IH (skipn n' rest) (fed ++ x :: firstn n' rest)%list
                 (emit (EvRead p block_size) w)) as (w' & E & Hfs & Hreq).
    { rewrite length_skipn. simpl in Hlen. lia. }
    { exact Hbs. }
    { exact Hok. }
    exists w'. rewrite E. split; [| split; assumption].
    rewrite <- app_assoc. cbn [app]. now rewrite firstn_skipn.
Qed.

Lemma HASH_file_digest p c algorithm a block_size fmt bytes w :
  p <> "" -> fs w !! p = Some (File c) ->
  new_hashfunc (lower algorithm) = Some (a, []) -> block_size <> 0 ->
  read_error (python rt) block_size = None ->
  fmt <> "raw" -> fmt <> "parts" ->
  exists w',
    __HASH rt (PStr p) bytes algorithm block_size fmt w
    = (Return (PStr (hexdigest rt a c)), w')
    /\ fs w' = fs w.
Proof.
  intros Hp Hf Ha Hbs Hok Hraw Hparts. unfold __HASH. rewrite Ha, (truthy_str p Hp).
  cbn [as_path].
  unfold bind at 1. unfold bind at 1. unfold open_rb. rewrite Hf.
  destruct (HASH_blocks_whole (python rt) p block_size a (S (length c)) c []
              (emit (EvOpen p "rb") w))
    as (w' & E & Hfs & _); [lia | exact Hbs | exact Hok |].
  rewrite E. exists w'. split; [| exact Hfs].
  unfold the_hashfunc, bind, ret. cbn [fst snd app].
  destruct (String.eqb fmt "raw") eqn:E1; [apply String.eqb_eq in E1; contradiction|].
  destruct (String.eqb fmt "parts") eqn:E2; [apply String.eqb_eq in E2; contradiction|].
  reflexivity.
Qed.

(** C3, as the code behaves.  A call that supplies a byte buffer and no
    path fails with the client's exception when the buffer is empty: the
    test [elif bytes:] takes the empty buffer for a missing one.  The call
    neither succeeds nor returns the digest of the empty input. *)
Theorem HASH_empty_buffer_rejected algorithm block_size fmt w :
  __HASH rt PNone (PBytes []) algorithm block_size fmt w = (Raise hash_expects, w).
Proof. apply HASH_neither; reflexivity. Qed.

End Hasher.

(** C3 at [sha256(bytes=b"")]. *)
Lemma HASH_empty_buffer_rejected_witness :
  sha256 (Sample.runtime_of Py3) PNone (PBytes []) Sample.offline
  = (Raise hash_expects, Sample.offline).
Proof.
  exact (HASH_empty_buffer_rejected (Sample.runtime_of Py3) "sha256" 16384 "digest"
           Sample.offline).
Defined.

(** * Operations *)

Section Operations.
Variable rt : runtime.

Lemma str_in_true x l : x ∈ l -> str_in x l = true.
Proof. intros H. unfold str_in. now apply bool_decide_eq_true_2. Qed.

Lemma str_in_false x l : x ∉ l -> str_in x l = false.
Proof. intros H. unfold str_in. now apply bool_decide_eq_false_2. Qed.

(** The pairs the loop of [dfi_search] runs over. *)
Lemma category_table c v :
  (c, v) ∈ combine VALID_CAT [VALID_EXT; VALID_HASH; VALID_IOC] ->
  (c = "ext" /\ v = VALID_EXT) \/ (c = "hash" /\ v = VALID_HASH)
  \/ (c = "ioc" /\ v = VALID_IOC).
Proof.
  cbn [combine VALID_CAT]. rewrite !elem_of_cons, elem_of_nil.
  intros [H | [H | [H | []]]]; inversion H; auto.
Qed.

Lemma category_table_valid c v :
  (c, v) ∈ combine VALID_CAT [VALID_EXT; VALID_HASH; VALID_IOC] -> c ∈ VALID_CAT.
Proof.
  intros H. destruct (category_table c v H) as [[-> _] | [[-> _] | [-> _]]];
    unfold VALID_CAT; rewrite !elem_of_cons; auto.
Qed.

Lemma dfi_search_bad_category fuel (self : instance) category subcategory keyword w :
  lower category ∉ VALID_CAT ->
  dfi_search rt fuel self category subcategory keyword w
  = (Raise (inquestlabs_exception
              (Format "invalid category '%s'. valid categories include: %s"
                      [PStr (lower category); PStr "ext, hash, ioc"])), w).
Proof.
  intros H. unfold dfi_search. rewrite (str_in_false _ _ H). reflexivity.
Qed.

Lemma dfi_search_bad_subcategory fuel (self : instance) category subcategory keyword w v :
  (lower category, v) ∈ combine VALID_CAT [VALID_EXT; VALID_HASH; VALID_IOC] ->
  lower subcategory ∉ v ->
  dfi_search rt fuel self category subcategory keyword w
  = (Raise (inquestlabs_exception
              (Format "invalid subcategory '%s' for category '%s'. valid subcategories include: %s"
                      [PStr (lower subcategory); PStr (lower category); PStr (join ", " v)])),
     w).
Proof.
  intros Hc Hs. unfold dfi_search.
  rewrite (str_in_true _ _ (category_table_valid _ _ Hc)).
  destruct (category_table _ _ Hc) as [[E ->] | [[E ->] | [E ->]]]; rewrite E;
    cbn [negb]; unfold bind;
    cbn [check_subcategory combine VALID_CAT String.eqb Ascii.eqb Bool.eqb andb];
    rewrite (str_in_false _ _ Hs); reflexivity.
Qed.

Lemma dfi_search_request fuel (self : instance) category subcategory keyword w v :
  (lower category, v) ∈ combine VALID_CAT [VALID_EXT; VALID_HASH; VALID_IOC] ->
  lower subcategory ∈ v ->
  dfi_search rt fuel self category subcategory keyword w
  = __API rt fuel self
      ("/dfi/search/" ++ lower category ++ "/"
         ++ (if String.eqb (lower category) "ext" then "ext_" ++ lower subcategory
             else lower subcategory))
      (PDict [(if String.eqb (lower category) "hash" then "hash" else "keyword",
               PStr keyword)])
      PNone "GET" false w.
Proof.
  intros Hc Hs. unfold dfi_search.
  rewrite (str_in_true _ _ (category_table_valid _ _ Hc)).
  destruct (category_table _ _ Hc) as [[E ->] | [[E ->] | [E ->]]]; rewrite E;
    cbn [negb]; unfold bind;
    cbn [check_subcategory combine VALID_CAT String.eqb Ascii.eqb Bool.eqb andb];
    rewrite ?(str_in_true _ _ Hs); cbn [negb andb ret]; reflexivity.
Qed.

(** C7.  [dfi_search] lowercases [category] and [subcategory].  A category
    outside [VALID_CAT] fails with the client's exception, whose message
    lists [ext, hash, ioc]; a subcategory outside the list paired with its
    category fails with the client's exception, whose message lists that
    list; neither touches the world.  For a valid pair the call is the GET
    request of [/dfi/search/<category>/<subcategory>], the subcategory
    prefixed by [ext_] for category [ext], with the keyword as form field
    [hash] for category [hash] and [keyword] otherwise. *)
Theorem dfi_search_validation fuel (self : instance) category subcategory keyword w :
  (lower category ∉ VALID_CAT ->
   dfi_search rt fuel self category subcategory keyword w
   = (Raise (inquestlabs_exception
               (Format "invalid category '%s'. valid categories include: %s"
                       [PStr (lower category); PStr "ext, hash, ioc"])), w))
  /\ (forall v,
        (lower category, v) ∈ combine VALID_CAT [VALID_EXT; VALID_HASH; VALID_IOC] ->
        lower subcategory ∉ v ->
        dfi_search rt fuel self category subcategory keyword w
        = (Raise (inquestlabs_exception
                    (Format "invalid subcategory '%s' for category '%s'. valid subcategories include: %s"
                            [PStr (lower subcategory); PStr (lower category);
                             PStr (join ", " v)])), w))
  /\ (forall v,
        (lower category, v) ∈ combine VALID_CAT [VALID_EXT; VALID_HASH; VALID_IOC] ->
        lower subcategory ∈ v ->
        dfi_search rt fuel self category subcategory keyword w
        = __API rt fuel self
            ("/dfi/search/" ++ lower category ++ "/"
               ++ (if String.eqb (lower category) "ext" then "ext_" ++ lower subcategory
                   else lower subcategory))
            (PDict [(if String.eqb (lower category) "hash" then "hash" else "keyword",
                     PStr keyword)])
            PNone "GET" false w).
Proof.
  split; [apply dfi_search_bad_category|].
  split; intros v; [apply dfi_search_bad_subcategory | apply dfi_search_request].
Qed.

(** A path that is no regular file is refused before the file is opened. *)
Lemma dfi_upload_not_a_file fuel (self : instance) path w :
  is_file w path = false ->
  dfi_upload rt fuel self path w
  = (Raise (inquestlabs_exception
              (Format "invalid file path specified for upload: %s" [PStr path])), w).
Proof.
  intros H. unfold dfi_upload, bind, get_world, os_path_exists, os_path_isfile, is_file in *.
  destruct (fs w !! path) as [[c|]|]; try discriminate H; reflexivity.
Qed.

(** For a regular file, the first two bytes decide. *)
Lemma dfi_upload_sniff fuel (self : instance) path c w :
  fs w !! path = Some (File c) ->
  dfi_upload rt fuel self path w
  = let w' := emit (EvRead path 2) (emit (EvOpen path "rb") w) in
    if existsb (bytes_eq_str (python rt) (firstn 2 c)) [OLE_MAGIC; "PK"]
    then __API rt fuel self "/dfi/upload" PNone (PStr path) "POST" false w'
    else (Raise (inquestlabs_exception
                   (Format "unsupported file type for upload, valid files include: %s"
                           [PStr "doc, docx, ppt, pptx, xls, xlsx"])), w').
Proof.
  intros H. unfold dfi_upload, bind, get_world, os_path_exists, os_path_isfile, is_file,
    open_rb, fh_read.
  rewrite (read_error_none (python rt) 2) by (unfold sys_maxsize; lia).
  rewrite H. cbn [negb orb]. rewrite H. cbn beta iota.
  change (Z.to_nat 2) with 2%nat. cbn [fst snd Z.ltb Z.compare].
  destruct (existsb _ _); reflexivity.
Qed.

(** Under Python 2 the two magic sequences pass the sniff. *)
Lemma dfi_upload_python2_magic fuel (self : instance) path c w :
  python rt = Py2 ->
  fs w !! path = Some (File c) ->
  firstn 2 c = String.list_byte_of_string OLE_MAGIC
  \/ firstn 2 c = String.list_byte_of_string "PK" ->
  dfi_upload rt fuel self path w
  = __API rt fuel self "/dfi/upload" PNone (PStr path) "POST" false
          (emit (EvRead path 2) (emit (EvOpen path "rb") w)).
Proof.
  intros Hpy Hf Hmagic. rewrite (dfi_upload_sniff fuel self path c w Hf). cbv zeta.
  rewrite Hpy. cbn [existsb bytes_eq_str].
  destruct Hmagic as [-> | ->].
  - rewrite bool_decide_eq_true_2 by reflexivity. reflexivity.
  - rewrite (bool_decide_eq_true_2
               (String.list_byte_of_string "PK" = String.list_byte_of_string "PK"))
      by reflexivity.
    now rewrite orb_true_r.
Qed.

(** C2, as the code behaves under Python 3.  [fh.read(2)] is a [bytes]
    object and the two magic sequences it is looked up in are [str]
    literals, so the lookup fails for every file: an existing regular file
    is refused as an unsupported type whatever its first two bytes are,
    OLE and ZIP magic included, and no request is issued. *)
Theorem dfi_upload_python3_rejects_every_file fuel (self : instance) path c w :
  python rt = Py3 ->
  fs w !! path = Some (File c) ->
  dfi_upload rt fuel self path w
  = (Raise (inquestlabs_exception
              (Format "unsupported file type for upload, valid files include: %s"
                      [PStr "doc, docx, ppt, pptx, xls, xlsx"])),
     emit (EvRead path 2) (emit (EvOpen path "rb") w)).
Proof.
  intros Hpy Hf. rewrite (dfi_upload_sniff fuel self path c w Hf). cbv zeta.
  rewrite Hpy. reflexivity.
Qed.

(** [dfi_download] once the bytes have arrived. *)
Lemma dfi_download_empty fuel (self : instance) sha256 path w w1 :
  __API rt fuel self "/dfi/download" (PDict [("sha256", PStr sha256)]) PNone "GET" true w
  = (Return (PBytes []), w1) ->
  dfi_download rt fuel self sha256 path w = (Raise hash_expects, w1) /\ fs w1 = fs w.
Proof.
  intros H. split.
  - unfold dfi_download. rewrite (bind_return _ _ _ _ _ H).
    apply bind_raise. apply HASH_neither; reflexivity.
  - pose proof (keeps_fs_API rt fuel self "/dfi/download" (PDict [("sha256", PStr sha256)])
                  PNone "GET" true w) as Hfs.
    now rewrite H in Hfs.
Qed.

Lemma sha256_of_buffer b w :
  b <> [] -> sha256 rt PNone (PBytes b) w = (Return (PStr (hexdigest rt Sha256 b)), w).
Proof.
  intros Hb. unfold sha256. apply HASH_buffer_digest; try discriminate; auto.
Qed.

(** A non-empty download whose digest differs is not written. *)
Lemma dfi_download_mismatch fuel (self : instance) sha256 path w b w1 :
  __API rt fuel self "/dfi/download" (PDict [("sha256", PStr sha256)]) PNone "GET" true w
  = (Return (PBytes b), w1) ->
  b <> [] -> hexdigest rt Sha256 b <> sha256 ->
  dfi_download rt fuel self sha256 path w
  = (Raise (inquestlabs_exception
              (Format "failed downloading file! expected sha256=%s calculated sha256=%s"
                      [PStr sha256; PStr (hexdigest rt Sha256 b)])), w1)
  /\ fs w1 = fs w.
Proof.
  intros H Hb Hne. split.
  - unfold dfi_download. rewrite (bind_return _ _ _ _ _ H).
    rewrite (bind_return _ _ _ _ _ (sha256_of_buffer b w1 Hb)).
    destruct (String.eqb (hexdigest rt Sha256 b) sha256) eqn:E;
      [apply String.eqb_eq in E; contradiction | reflexivity].
  - pose proof (keeps_fs_API rt fuel self "/dfi/download" (PDict [("sha256", PStr sha256)])
                  PNone "GET" true w) as Hfs.
    now rewrite H in Hfs.
Qed.

(** A non-empty download whose digest is the requested one is written,
    byte for byte, where the file can be created. *)
Lemma dfi_download_match fuel (self : instance) path w b w1 :
  __API rt fuel self "/dfi/download" (PDict [("sha256", PStr (hexdigest rt Sha256 b))])
        PNone "GET" true w
  = (Return (PBytes b), w1) ->
  b <> [] -> fs w !! path <> Some Dir -> may_create w1 path = true ->
  exists w2,
    dfi_download rt fuel self (hexdigest rt Sha256 b) path w = (Return tt, w2)
    /\ fs w2 !! path = Some (File b).
Proof.
  intros H Hb Hdir Hcreate.
  pose proof (keeps_fs_API rt fuel self "/dfi/download"
                (PDict [("sha256", PStr (hexdigest rt Sha256 b))]) PNone "GET" true w) as Hfs.
  rewrite H in Hfs. cbn [snd] in Hfs.
  unfold dfi_download. rewrite (bind_return _ _ _ _ _ H).
  rewrite (bind_return _ _ _ _ _ (sha256_of_buffer b w1 Hb)).
  rewrite String.eqb_refl. cbn [negb as_bytes]. unfold bind, open_wb, fh_write.
  rewrite Hfs, Hcreate. destruct (fs w !! path) as [[c|]|] eqn:E; try contradiction;
    eexists; (split; [reflexivity|]);
    cbn [fs emit set_fs]; by simplify_map_eq.
Qed.

(** C5, as the code behaves.  A download whose payload is empty and whose
    requested hash IS the sha256 of the empty payload is a match, yet the
    file is not written: the call fails in the hasher before the comparison
    is made (the defect of C3). *)
Theorem dfi_download_matching_empty_payload fuel (self : instance) path w w1 :
  __API rt fuel self "/dfi/download" (PDict [("sha256", PStr (hexdigest rt Sha256 []))])
        PNone "GET" true w
  = (Return (PBytes []), w1) ->
  dfi_download rt fuel self (hexdigest rt Sha256 []) path w = (Raise hash_expects, w1)
  /\ fs w1 = fs w.
Proof. apply dfi_download_empty. Qed.

(** C10.  When the bytes received by [dfi_download] are the empty string,
    the recomputation of the digest takes the error branch of [__HASH];
    the call fails with that error whatever hash was requested, the
    comparison is not reached and the file system is left as it was. *)
Theorem dfi_download_empty_payload fuel (self : instance) sha256 path w w1 :
  __API rt fuel self "/dfi/download" (PDict [("sha256", PStr sha256)]) PNone "GET" true w
  = (Return (PBytes []), w1) ->
  dfi_download rt fuel self sha256 path w = (Raise hash_expects, w1) /\ fs w1 = fs w.
Proof. apply dfi_download_empty. Qed.

End Operations.

(** C7 on the two calls of the specification and on an unknown category. *)
Lemma dfi_search_validation_witness :
  let rt := Sample.runtime_of Py3 in
  dfi_search rt 1 Sample.client "ext" "bogus" "x" Sample.offline
  = (Raise (inquestlabs_exception
              (Format "invalid subcategory '%s' for category '%s'. valid subcategories include: %s"
                      [PStr "bogus"; PStr "ext"; PStr "code, context, metadata, ocr"])),
     Sample.offline)
  /\ dfi_search rt 1 Sample.client "Hash" "SHA256" "deadbeef" Sample.offline
     = __API rt 1 Sample.client "/dfi/search/hash/sha256" (PDict [("hash", PStr "deadbeef")])
             PNone "GET" false Sample.offline
  /\ dfi_search rt 1 Sample.client "EXT" "ocr" "invoice" Sample.offline
     = __API rt 1 Sample.client "/dfi/search/ext/ext_ocr" (PDict [("keyword", PStr "invoice")])
             PNone "GET" false Sample.offline
  /\ dfi_search rt 1 Sample.client "yara" "md5" "x" Sample.offline
     = (Raise (inquestlabs_exception
                 (Format "invalid category '%s'. valid categories include: %s"
                         [PStr "yara"; PStr "ext, hash, ioc"])),
        Sample.offline).
Proof.
  cbv zeta. split; [| split; [| split]].
  - apply (proj1 (proj2 (dfi_search_validation (Sample.runtime_of Py3) 1 Sample.client
                           "ext" "bogus" "x" Sample.offline)) VALID_EXT).
    + apply (bool_decide_unpack _). reflexivity.
    + apply (bool_decide_unpack _). reflexivity.
  - apply (proj2 (proj2 (dfi_search_validation (Sample.runtime_of Py3) 1 Sample.client
                           "Hash" "SHA256" "deadbeef" Sample.offline)) VALID_HASH).
    + apply (bool_decide_unpack _). reflexivity.
    + apply (bool_decide_unpack _). reflexivity.
  - apply (proj2 (proj2 (dfi_search_validation (Sample.runtime_of Py3) 1 Sample.client
                           "EXT" "ocr" "invoice" Sample.offline)) VALID_EXT).
    + apply (bool_decide_unpack _). reflexivity.
    + apply (bool_decide_unpack _). reflexivity.
  - apply (proj1 (dfi_search_validation (Sample.runtime_of Py3) 1 Sample.client
                    "yara" "md5" "x" Sample.offline)).
    apply (bool_decide_unpack _). reflexivity.
Defined.

(** The message of the first call above, as Python prints it. *)
Example dfi_search_bogus_message :
  render (Format "invalid subcategory '%s' for category '%s'. valid subcategories include: %s"
                 [PStr "bogus"; PStr "ext"; PStr (join ", " VALID_EXT)])
  = Some "invalid subcategory 'bogus' for category 'ext'. valid subcategories include: code, context, metadata, ocr".
Proof. reflexivity. Qed.

(** C2 on a ZIP container under Python 3: refused. *)
Lemma dfi_upload_python3_rejects_every_file_witness :
  firstn 2 Sample.docx = String.list_byte_of_string "PK"
  /\ dfi_upload (Sample.runtime_of Py3) 1 Sample.client "/tmp/report.docx" Sample.offline
     = (Raise (inquestlabs_exception
                 (Format "unsupported file type for upload, valid files include: %s"
                         [PStr "doc, docx, ppt, pptx, xls, xlsx"])),
        emit (EvRead "/tmp/report.docx" 2) (emit (EvOpen "/tmp/report.docx" "rb") Sample.offline)).
Proof.
  split; [reflexivity|].
  apply (dfi_upload_python3_rejects_every_file (Sample.runtime_of Py3) 1 Sample.client
           "/tmp/report.docx" Sample.docx Sample.offline); reflexivity.
Defined.

(** The same file under Python 2 passes the sniff and reaches [__API]. *)
Example dfi_upload_python2_sample :
  dfi_upload (Sample.runtime_of Py2) 1 Sample.client "/tmp/report.docx" Sample.offline
  = __API (Sample.runtime_of Py2) 1 Sample.client "/dfi/upload" PNone
          (PStr "/tmp/report.docx") "POST" false
          (emit (EvRead "/tmp/report.docx" 2)
                (emit (EvOpen "/tmp/report.docx" "rb") Sample.offline)).
Proof.
  apply (dfi_upload_python2_magic (Sample.runtime_of Py2) 1 Sample.client
           "/tmp/report.docx" Sample.docx Sample.offline);
    [reflexivity | reflexivity | right; reflexivity].
Qed.

(** C5 where the server answers 200 with no content and the hash asked
    for is the digest of no content. *)
Lemma dfi_download_matching_empty_payload_witness :
  let rt := Sample.runtime_of Py3 in
  let w := Sample.world_of (Responds Sample.empty_answer) in
  exists w1,
    dfi_download rt 1 Sample.client (hexdigest rt Sha256 []) "/tmp/saved" w
    = (Raise hash_expects, w1)
    /\ fs w1 = fs w.
Proof.
  cbv zeta.
  destruct (API_raw_content (Sample.runtime_of Py3) 0 Sample.client "/dfi/download"
              (PDict [("sha256", PStr (hexdigest (Sample.runtime_of Py3) Sha256 []))])
              (Sample.world_of (Responds Sample.empty_answer)) Sample.empty_answer
              sample_client_constructed (fun _ => eq_refl) eq_refl) as [r E].
  eexists.
  exact (dfi_download_matching_empty_payload (Sample.runtime_of Py3) 1 Sample.client
           "/tmp/saved" _ _ E).
Defined.

(** C10 on the same answer, whatever hash is asked for. *)
Lemma dfi_download_empty_payload_witness :
  let rt := Sample.runtime_of Py3 in
  let w := Sample.world_of (Responds Sample.empty_answer) in
  exists w1,
    dfi_download rt 1 Sample.client "0f0f" "/tmp/saved" w = (Raise hash_expects, w1)
    /\ fs w1 = fs w.
Proof.
  cbv zeta.
  destruct (API_raw_content (Sample.runtime_of Py3) 0 Sample.client "/dfi/download"
              (PDict [("sha256", PStr "0f0f")])
              (Sample.world_of (Responds Sample.empty_answer)) Sample.empty_answer
              sample_client_constructed (fun _ => eq_refl) eq_refl) as [r E].
  eexists.
  exact (dfi_download_empty_payload (Sample.runtime_of Py3) 1 Sample.client
           "0f0f" "/tmp/saved" _ _ E).
Defined.

(** A download of three bytes: written when the digest is the one asked
    for, refused with both digests when it is not. *)
Example dfi_download_sample_written :
  let rt := Sample.runtime_of Py3 in
  let w := Sample.world_of (Responds Sample.abc_answer) in
  exists w2,
    dfi_download rt 1 Sample.client (hexdigest rt Sha256 (content Sample.abc_answer))
                 "/tmp/saved" w
    = (Return tt, w2)
    /\ fs w2 !! "/tmp/saved" = Some (File (content Sample.abc_answer)).
Proof.
  cbv zeta.
  destruct (API_raw_content (Sample.runtime_of Py3) 0 Sample.client "/dfi/download"
              (PDict [("sha256", PStr (hexdigest (Sample.runtime_of Py3) Sha256
                                         (content Sample.abc_answer)))])
              (Sample.world_of (Responds Sample.abc_answer)) Sample.abc_answer
              sample_client_constructed (fun _ => eq_refl) eq_refl) as [r E].
  apply (dfi_download_match (Sample.runtime_of Py3) 1 Sample.client "/tmp/saved" _ _ _ E);
    first [discriminate | reflexivity].
Qed.

Example dfi_download_sample_refused :
  let rt := Sample.runtime_of Py3 in
  let w := Sample.world_of (Responds Sample.abc_answer) in
  exists w1,
    dfi_download rt 1 Sample.client "0f0f" "/tmp/saved" w
    = (Raise (inquestlabs_exception
                (Format "failed downloading file! expected sha256=%s calculated sha256=%s"
                        [PStr "0f0f"; PStr "636261"])), w1)
    /\ fs w1 = fs w.
Proof.
  cbv zeta.
  destruct (API_raw_content (Sample.runtime_of Py3) 0 Sample.client "/dfi/download"
              (PDict [("sha256", PStr "0f0f")])
              (Sample.world_of (Responds Sample.abc_answer)) Sample.abc_answer
              sample_client_constructed (fun _ => eq_refl) eq_refl) as [r E].
  eexists.
  apply (dfi_download_mismatch (Sample.runtime_of Py3) 1 Sample.client "0f0f" "/tmp/saved"
           _ _ _ E); discriminate.
Qed.

(** The sample instance patched with [retries = 3], network down: three
    requests, three sleeps of ceilings 0.1, 0.4 and 1.6, the last of them
    after the last request, and then the client's exception. *)
Example API_attempts_budget_sample (r : request) :
  exists w',
    API_attempts 3 (<["retries" := PInt 3]> Sample.client) r 0 Sample.offline
    = (Raise (inquestlabs_exception
                (Format "exceeded %s attempts to communicate with InQuest Labs API endpoint %s."
                        [PInt 3; PStr (req_url r)])), w')
    /\ requests_of (trace w') = [r; r; r]
    /\ sleeps (trace w') = backoff_delays Sample.offline 0 3
    /\ exists t d, trace w' = (t ++ [EvSleep d])%list.
Proof.
  apply (API_attempts_budget (<["retries" := PInt 3]> Sample.client) r 3
           (lookup_insert_eq _ _ _) 2 0 0 Sample.offline);
    [reflexivity | intros; reflexivity].
Qed.

(** The one sleep of a call on the sample instance with the network down,
    for the draw 1/2: half of the first ceiling. *)
Example API_sleeps_sample :
  sleeps (trace (snd (__API (Sample.runtime_of Py3) 4 Sample.client "/stats" PNone PNone
                            "GET" false Sample.offline)))
  = [uniform_at 0 (backoff_ceiling 0) (1 # 2)]
  /\ (uniform_at 0 (backoff_ceiling 0) (1 # 2) == 0.05)%Q.
Proof. split; [vm_compute | ]; reflexivity. Qed.

(** A call that is answered at once: one request, no sleep, and the [data]
    of the envelope is returned. *)
Example API_success_sample :
  let answer := {| status_code := 200; content := String.list_byte_of_string "ok" |} in
  let run := __API (Sample.runtime_of Py3) 1 Sample.client "/stats" PNone PNone "GET" false
                   (Sample.world_of (Responds answer)) in
  fst run = Return (PList [])
  /\ length (requests_of (trace (snd run))) = 1%nat
  /\ sleeps (trace (snd run)) = [].
Proof. cbv zeta. repeat split; vm_compute; reflexivity. Qed.

(** * Further properties of the client *)

(** ** The constructor *)

Section ConstructorMore.
Variable rt : runtime.

(** X1.  An instance the constructor returns has exactly the six attributes
    [api_key], [base_url], [config_file], [num_retries], [proxies] and
    [verify_ssl].  [base_url] holds the argument, or
    [https://labs.inquest.net/api] when the argument is [None]; [config_file]
    holds the argument, or [.iqlabskey] in the home directory when the
    argument is [None]; [num_retries], [proxies] and [verify_ssl] hold the
    arguments as they were given. *)
Theorem init_attributes_stored api_key config proxies base_url retries verify_ssl w
    (self : instance) w' :
  __init__ rt api_key config proxies base_url retries verify_ssl w = (Return self, w') ->
  self !! "base_url" = Some (PStr (default "https://labs.inquest.net/api" base_url))
  /\ self !! "config_file" = Some (PStr (config_path config w))
  /\ self !! "num_retries" = Some (PInt retries)
  /\ self !! "proxies" = Some proxies
  /\ self !! "verify_ssl" = Some (PBool verify_ssl)
  /\ dom self = ({["api_key"; "base_url"; "config_file"; "num_retries"; "proxies";
                   "verify_ssl"]} : gset string).
Proof.
  intros H.
  unfold __init__, bind, ret, raise, os_path_expanduser_home, os_environ_get,
    get_world, config_file_content, config_path in *.
  destruct config as [c|]; cbn beta iota in H.
  all: repeat match type of H with
              | context [match ?x with _ => _ end] => destruct x eqn:?
              end.
  all: try discriminate H.
  all: inversion H; subst; clear H.
  all: cbn [default of_optional_str].
  all: repeat split; try (by simplify_map_eq).
  all: rewrite !dom_insert_L, dom_empty_L; set_solver.
Qed.

(** X2.  Whatever its arguments and however it ends, the constructor leaves
    the file system as it is, issues no request and draws no random number;
    the only event it can add to the trace is one read of the configuration
    file. *)
Theorem init_effects api_key config proxies base_url retries verify_ssl w :
  let w' := snd (__init__ rt api_key config proxies base_url retries verify_ssl w) in
  fs w' = fs w /\ n_requests w' = n_requests w /\ n_random w' = n_random w
  /\ (trace w' = trace w
      \/ trace w' = (trace w ++ [EvConfigRead (config_path config w)])%list).
Proof.
  cbv zeta.
  unfold __init__, bind, ret, raise, os_path_expanduser_home, os_environ_get,
    get_world, config_file_content, config_path.
  repeat destruct_scrutinee; cbn [snd fs n_requests n_random trace emit]; auto 6.
Qed.

End ConstructorMore.

(** The constructor consults the runtime for the parser of the
    configuration file only. *)
Lemma constructed_same_parser rt1 rt2 (self : instance) :
  ConfigParser_read rt1 = ConfigParser_read rt2 ->
  constructed rt1 self -> constructed rt2 self.
Proof.
  intros H (api_key & config & proxies & base_url & retries & verify_ssl & w0 & w1 & E).
  exists api_key, config, proxies, base_url, retries, verify_ssl, w0, w1.
  destruct rt1, rt2. cbn in H. subst. exact E.
Qed.

Lemma sample_client_run :
  __init__ (Sample.runtime_of Py3) None None PNone None 3 true Sample.offline
  = (Return Sample.client, Sample.offline).
Proof.
  destruct (init_absent (Sample.runtime_of Py3) None None PNone None 3 true Sample.offline)
    as (self & E & _); [left; reflexivity | reflexivity | reflexivity |].
  unfold Sample.client. rewrite E. reflexivity.
Qed.

Lemma sample_client_constructed_for rt :
  ConfigParser_read rt = Sample.read_ini -> constructed rt Sample.client.
Proof.
  intros H. apply (constructed_same_parser (Sample.runtime_of Py3)); [now rewrite H|].
  exact sample_client_constructed.
Qed.

(** X1 on [inquestlabs_api()]. *)
Lemma init_attributes_stored_witness :
  Sample.client !! "base_url" = Some (PStr "https://labs.inquest.net/api")
  /\ Sample.client !! "config_file" = Some (PStr "/home/analyst/.iqlabskey")
  /\ Sample.client !! "num_retries" = Some (PInt 3)
  /\ Sample.client !! "proxies" = Some PNone
  /\ Sample.client !! "verify_ssl" = Some (PBool true)
  /\ dom Sample.client = ({["api_key"; "base_url"; "config_file"; "num_retries"; "proxies";
                            "verify_ssl"]} : gset string).
Proof.
  exact (init_attributes_stored (Sample.runtime_of Py3) None None PNone None 3 true
           Sample.offline Sample.client Sample.offline sample_client_run).
Defined.

(** ** The request executor *)

Section ExecutorMore.
Variable rt : runtime.

Lemma with_retries_other n (self : instance) k :
  k <> "retries" -> with_retries n self !! k = self !! k.
Proof. intros H. unfold with_retries. by rewrite lookup_insert_ne. Qed.

Lemma with_retries_retries n (self : instance) :
  with_retries n self !! "retries" = Some (PInt n).
Proof. unfold with_retries. by simplify_map_eq. Qed.

(** The request [__API] builds from the attributes of the instance. *)
Lemma API_unfold_request fuel (self : instance) api data method raw w ak px vf b :
  str_in method ["GET"; "POST"] = true ->
  self !! "api_key" = Some ak -> self !! "proxies" = Some px ->
  self !! "verify_ssl" = Some vf -> self !! "base_url" = Some (PStr b) ->
  __API rt fuel self api data PNone method raw w
  = bind (API_attempts fuel self
            {| req_method := method; req_url := b ++ api; req_data := data;
               req_files := None;
               req_headers :=
                 if truthy ak
                 then <["Authorization" := Format "Basic: %s" [ak]]>
                        {["User-Agent" := Format "python-inquestlabs/%s" [__version__]]}
                 else {["User-Agent" := Format "python-inquestlabs/%s" [__version__]]};
               req_proxies := px; req_verify := vf |} 0)
         (API_classify rt (b ++ api) raw) w.
Proof.
  intros Hm Hk Hp Hv Hb.
  unfold __API. rewrite Hm. simpl negb. cbv iota.
  unfold getattr. rewrite Hk, Hp, Hv, Hb. simpl. reflexivity.
Qed.

(** The loop issues the same request in every iteration. *)
Lemma API_attempts_requests (self : instance) r : forall fuel a w,
  exists n, (n <= fuel)%nat
    /\ requests_of (trace (snd (API_attempts fuel self r a w)))
       = (requests_of (trace w) ++ repeat r n)%list.
Proof.
  induction fuel as [|fuel IH]; intros a w.
  - exists 0%nat. split; [lia|]. cbn. now rewrite app_nil_r.
  - destruct (requests_request w (n_requests w) r) as [|resp] eqn:E.
    + rewrite (API_attempts_failed_step fuel self r a w E). cbv zeta.
      set (d := uniform_at 0 (backoff_ceiling a) (random_random w (n_random w))).
      set (w2 := emit (EvSleep d) (count_random (emit (EvRequest r) (count_request w)))).
      assert (Hw2 : requests_of (trace w2) = (requests_of (trace w) ++ [r])%list).
      { unfold w2. cbn [trace emit count_random count_request].
        now rewrite !requests_of_snoc, app_nil_r. }
      destruct (self !! "retries") as [v|].
      * destruct (int_eq (Z.of_nat (S a)) v).
        -- exists 1%nat. split; [lia|]. cbn [snd]. exact Hw2.
        -- destruct (IH (S a) w2) as (n & Hn & E2). exists (S n). split; [lia|].
           rewrite E2, Hw2, <- app_assoc. reflexivity.
      * exists 1%nat. split; [lia|]. cbn [snd]. exact Hw2.
    + rewrite (API_attempts_response fuel self r a w resp E).
      exists 1%nat. split; [lia|]. cbn [snd trace emit count_request].
      now rewrite requests_of_snoc.
Qed.

Lemma bind_world_classify fuel (self : instance) r endpoint raw w :
  snd (bind (API_attempts fuel self r 0) (API_classify rt endpoint raw) w)
  = snd (API_attempts fuel self r 0 w).
Proof.
  unfold bind. destruct (API_attempts fuel self r 0 w) as [[resp|e|] w']; try reflexivity.
  apply API_classify_world.
Qed.

(** X3.  On an instance that has the attributes [api_key], [proxies],
    [verify_ssl] and [base_url], all the requests one call of [__API] issues
    are one and the same request, at most one per iteration of the loop.  It
    has the method and the form data of the call, the URL [base_url + api], no
    attachment, the proxies and the certificate switch of the instance, the
    header [User-Agent], and the header [Authorization] with the key exactly
    when the key is true in a boolean context. *)
Theorem API_requests_identical fuel (self : instance) api data method raw w ak px vf b :
  method = "GET" \/ method = "POST" ->
  self !! "api_key" = Some ak -> self !! "proxies" = Some px ->
  self !! "verify_ssl" = Some vf -> self !! "base_url" = Some (PStr b) ->
  exists r n,
    (n <= fuel)%nat
    /\ requests_of (trace (snd (__API rt fuel self api data PNone method raw w)))
       = (requests_of (trace w) ++ repeat r n)%list
    /\ req_method r = method /\ req_url r = b ++ api /\ req_data r = data
    /\ req_files r = None /\ req_proxies r = px /\ req_verify r = vf
    /\ req_headers r !! "User-Agent" = Some (Format "python-inquestlabs/%s" [__version__])
    /\ req_headers r !! "Authorization"
       = (if truthy ak then Some (Format "Basic: %s" [ak]) else None).
Proof.
  intros Hm Hk Hp Hv Hb. apply str_in_method_ok in Hm.
  rewrite (API_unfold_request fuel self api data method raw w ak px vf b Hm Hk Hp Hv Hb).
  rewrite bind_world_classify.
  match goal with |- context [API_attempts fuel self ?q 0 w] => set (r := q) end.
  destruct (API_attempts_requests self r fuel 0%nat w) as (n & Hn & E).
  exists r, n. split; [exact Hn|]. split; [exact E|].
  unfold r; cbn [req_method req_url req_data req_files req_proxies req_verify req_headers].
  repeat split; destruct (truthy ak); by simplify_map_eq.
Qed.

(** X4.  [__API] opens the file to attach right after the check of the method:
    with a [path] that names no regular file the call fails with the error of
    [open], and the world is left as it was, so no request is issued. *)
Theorem API_attachment_missing fuel (self : instance) api data p method raw w :
  method = "GET" \/ method = "POST" -> p <> "" -> is_file w p = false ->
  __API rt fuel self api data (PStr p) method raw w = (Raise (IOError p), w).
Proof.
  intros Hm Hp Hf. apply str_in_method_ok in Hm.
  unfold __API. rewrite Hm, (truthy_str p Hp). cbn [negb as_path].
  unfold bind, open_rb. unfold is_file in Hf.
  destruct (fs w !! p) as [[c|]|]; [discriminate | reflexivity | reflexivity].
Qed.

(** The first answer ends the call. *)
Lemma API_one_response fuel (self : instance) api data method raw w resp :
  constructed rt self ->
  method = "GET" \/ method = "POST" ->
  (forall r, requests_request w (n_requests w) r = Responds resp) ->
  exists r b,
    self !! "base_url" = Some (PStr b) /\ req_url r = b ++ api
    /\ __API rt (S fuel) self api data PNone method raw w
       = API_classify rt (b ++ api) raw resp (emit (EvRequest r) (count_request w)).
Proof.
  intros Hc Hm Hnet.
  destruct (API_unfold_constructed rt (S fuel) self api data method raw w Hc Hm)
    as (r & (_ & _ & _ & b & Hb & Hu) & E).
  exists r, b. split; [exact Hb|]. split; [exact Hu|].
  rewrite E, Hu.
  now rewrite (bind_return _ _ _ _ _ (API_attempts_response fuel self r 0 w resp (Hnet r))).
Qed.

(** X5.  A 200 answer whose body is a JSON object with an entry [success] ends
    the call after one request.  When [success] is true the call returns the
    entry [data] ([KeyError] when there is none); when it is false the call
    raises the client's exception [status=200 but error communicating with
    <endpoint>: <error>], where <error> is the entry [error], or [n/a] when
    there is none. *)
Theorem API_success_envelope fuel (self : instance) api data method w resp d s :
  constructed rt self ->
  method = "GET" \/ method = "POST" ->
  (forall r, requests_request w (n_requests w) r = Responds resp) ->
  status_code resp = 200 ->
  json_loads rt (content resp) = Some (PDict d) ->
  dict_get d "success" = Some s ->
  exists r b,
    self !! "base_url" = Some (PStr b) /\ req_url r = b ++ api
    /\ __API rt (S fuel) self api data PNone method false w
       = (if truthy s then
            match dict_get d "data" with
            | Some v => Return v
            | None => Raise (KeyError "data")
            end
          else
            Raise (inquestlabs_exception
                     (Format "status=200 but error communicating with %s: %s"
                             [PStr (b ++ api);
                              match dict_get d "error" with
                              | Some x => x
                              | None => PStr "n/a"
                              end])),
          emit (EvRequest r) (count_request w)).
Proof.
  intros Hc Hm Hnet Hs Hj Hd.
  destruct (API_one_response fuel self api data method false w resp Hc Hm Hnet)
    as (r & b & Hb & Hu & E).
  exists r, b. split; [exact Hb|]. split; [exact Hu|]. rewrite E.
  unfold API_classify. rewrite Hs. cbn [Z.eqb Pos.eqb].
  unfold bind, response_json. rewrite Hj. cbn [ret subscript]. rewrite Hd. cbn [ret].
  destruct (truthy s); [| reflexivity].
  destruct (dict_get d "data"); reflexivity.
Qed.

(** X6.  A 200 answer that is no envelope escapes as a built-in exception,
    after one request: [ValueError] when the body is not JSON, [TypeError]
    when it decodes to a value that is no object, [KeyError] when the object
    has no entry [success]. *)
Theorem API_malformed_envelope fuel (self : instance) api data method w resp :
  constructed rt self ->
  method = "GET" \/ method = "POST" ->
  (forall r, requests_request w (n_requests w) r = Responds resp) ->
  status_code resp = 200 ->
  exists r,
    let w' := emit (EvRequest r) (count_request w) in
    let run := __API rt (S fuel) self api data PNone method false w in
    (json_loads rt (content resp) = None -> run = (Raise ValueError, w'))
    /\ (forall body,
          json_loads rt (content resp) = Some body -> (forall d, body <> PDict d) ->
          run = (Raise TypeError, w'))
    /\ (forall d,
          json_loads rt (content resp) = Some (PDict d) -> dict_get d "success" = None ->
          run = (Raise (KeyError "success"), w')).
Proof.
  intros Hc Hm Hnet Hs.
  destruct (API_one_response fuel self api data method false w resp Hc Hm Hnet)
    as (r & b & Hb & Hu & E).
  exists r. cbv zeta. rewrite E.
  unfold API_classify. rewrite Hs. cbn [Z.eqb Pos.eqb].
  unfold bind, response_json.
  split; [| split].
  - intros ->. reflexivity.
  - intros body -> Hbody. destruct body; try reflexivity. now destruct (Hbody d).
  - intros d -> Hd. cbn [ret subscript]. rewrite Hd. reflexivity.
Qed.

(** X7.  An answer with a status other than 200 and a JSON body, whatever the
    [raw] flag says: when the body is an object the call raises the client's
    exception [status=<code> error communicating with <endpoint>: <error>],
    where <error> is the entry [error] or [n/a]; when it is any other JSON
    value the call of [.get] fails with [AttributeError]. *)
Theorem API_error_status_json_body fuel (self : instance) api data method raw w resp body :
  constructed rt self ->
  method = "GET" \/ method = "POST" ->
  (forall r, requests_request w (n_requests w) r = Responds resp) ->
  status_code resp <> 200 ->
  json_loads rt (content resp) = Some body ->
  exists r b,
    self !! "base_url" = Some (PStr b) /\ req_url r = b ++ api
    /\ __API rt (S fuel) self api data PNone method raw w
       = (match body with
          | PDict d =>
              Raise (inquestlabs_exception
                       (Format "status=%d error communicating with %s: %s"
                               [PInt (status_code resp); PStr (b ++ api);
                                match dict_get d "error" with
                                | Some x => x
                                | None => PStr "n/a"
                                end]))
          | _ => Raise (AttributeError "get")
          end,
          emit (EvRequest r) (count_request w)).
Proof.
  intros Hc Hm Hnet Hs Hj.
  destruct (API_one_response fuel self api data method raw w resp Hc Hm Hnet)
    as (r & b & Hb & Hu & E).
  exists r, b. split; [exact Hb|]. split; [exact Hu|]. rewrite E.
  unfold API_classify.
  destruct (status_code resp =? 200) eqn:E2; [apply Z.eqb_eq in E2; contradiction|].
  unfold bind, response_json. rewrite Hj. destruct body; reflexivity.
Qed.

(** *** The budget of an instance that has a [retries] attribute *)

Lemma API_unfold_with_retries fuel (self : instance) n api data method raw w :
  constructed rt self ->
  method = "GET" \/ method = "POST" ->
  exists r b,
    self !! "base_url" = Some (PStr b) /\ req_url r = b ++ api
    /\ __API rt fuel (with_retries n self) api data PNone method raw w
       = bind (API_attempts fuel (with_retries n self) r 0)
              (API_classify rt (b ++ api) raw) w.
Proof.
  intros Hc Hm. apply str_in_method_ok in Hm.
  destruct (constructed_attributes rt self Hc) as (_ & [k Hk] & [b Hb] & [p Hp] & [v Hv]).
  destruct (API_unfold rt fuel (with_retries n self) api data method raw w k p v b Hm)
    as (r & (_ & Hu & _) & E); try (rewrite with_retries_other; [assumption | discriminate]).
  exists r, b. split; [exact Hb|]. split; [exact Hu|]. exact E.
Qed.

Lemma fails_from_S w first j :
  fails_from w first (S j) ->
  (forall r, requests_request w first r = TransportError) /\ fails_from w (S first) j.
Proof.
  intros H. split.
  - intros r. rewrite <- (Nat.add_0_r first). apply H. lia.
  - intros i r Hi. replace (S first + i)%nat with (first + S i)%nat by lia. apply H. lia.
Qed.

(** The loop with a budget that is not exhausted before the answer arrives. *)
Lemma API_attempts_recovers (self : instance) r n resp :
  self !! "retries" = Some (PInt (Z.of_nat n)) ->
  forall j a extra w,
    (a + j < n)%nat ->
    fails_from w (n_requests w) j ->
    requests_request w (n_requests w + j) r = Responds resp ->
    exists w',
      API_attempts (S j + extra) self r a w = (Return resp, w')
      /\ requests_of (trace w') = (requests_of (trace w) ++ repeat r (S j))%list
      /\ sleeps (trace w') = (sleeps (trace w) ++ backoff_delays w a j)%list.
Proof.
  intros Hattr. induction j as [|j IH]; intros a extra w Ha Hfail Hresp.
  - rewrite Nat.add_0_r in Hresp. cbn [Nat.add].
    rewrite (API_attempts_response extra self r a w resp Hresp).
    eexists. split; [reflexivity|]. cbn [trace emit count_request].
    rewrite requests_of_snoc, sleeps_snoc, !app_nil_r. split; reflexivity.
  - destruct (fails_from_S w (n_requests w) j Hfail) as [H0 Hrest].
    change (S (S j) + extra)%nat with (S (S j + extra)).
    rewrite (API_attempts_failed_step (S j + extra) self r a w (H0 r)).
    cbv zeta. rewrite Hattr. cbn [int_eq].
    replace (Z.of_nat (S a) =? Z.of_nat n) with false by (symmetry; apply Z.eqb_neq; lia).
    set (d := uniform_at 0 (backoff_ceiling a) (random_random w (n_random w))).
    set (w2 := emit (EvSleep d) (count_random (emit (EvRequest r) (count_request w)))).
    destruct (IH (S a) extra w2) as (w' & E & Hreq & Hsl).
    + lia.
    + exact Hrest.
    + cbn [w2 n_requests requests_request emit count_random count_request].
      replace (S (n_requests w) + j)%nat with (n_requests w + S j)%nat by lia. exact Hresp.
    + exists w'. split; [exact E|]. split.
      * rewrite Hreq. unfold w2. cbn [trace emit count_random count_request].
        rewrite !requests_of_snoc, app_nil_r, <- app_assoc. reflexivity.
      * rewrite Hsl. unfold w2 at 1. cbn [trace emit count_random count_request].
        rewrite !sleeps_snoc, app_nil_r, <- app_assoc.
        now rewrite (backoff_delays_S w a j d eq_refl w2).
Qed.

(** X8.  On an instance that has been given an attribute [retries] of value
    [n] (the constructor sets none), a call whose first [j < n] requests fail
    in the transport and whose next request is answered issues [j + 1]
    requests, all the same, sleeps once after each failure for the delays of
    the attempts [0], ..., [j - 1], and ends as the answer is classified. *)
Theorem API_recovers_within_budget fuel (self : instance) n j api data method raw w resp :
  constructed rt self ->
  method = "GET" \/ method = "POST" ->
  (j < n)%nat ->
  fails_from w (n_requests w) j ->
  (forall r, requests_request w (n_requests w + j) r = Responds resp) ->
  exists r b w',
    self !! "base_url" = Some (PStr b) /\ req_url r = b ++ api
    /\ __API rt (S j + fuel) (with_retries (Z.of_nat n) self) api data PNone method raw w
       = (fst (API_classify rt (b ++ api) raw resp w'), w')
    /\ requests_of (trace w') = (requests_of (trace w) ++ repeat r (S j))%list
    /\ sleeps (trace w') = (sleeps (trace w) ++ backoff_delays w 0 j)%list.
Proof.
  intros Hc Hm Hj Hfail Hresp.
  destruct (API_unfold_with_retries (S j + fuel) self (Z.of_nat n) api data method raw w Hc Hm)
    as (r & b & Hb & Hu & E).
  destruct (API_attempts_recovers (with_retries (Z.of_nat n) self) r n resp
              (with_retries_retries _ _) j 0%nat fuel w) as (w' & E2 & Hreq & Hsl);
    [lia | exact Hfail | apply Hresp |].
  exists r, b, w'. split; [exact Hb|]. split; [exact Hu|]. split; [| split; assumption].
  rewrite E, (bind_return _ _ _ _ _ E2).
  pose proof (API_classify_world rt (b ++ api) raw resp w') as Hw.
  destruct (API_classify rt (b ++ api) raw resp w') as [o w'']. cbn [fst snd] in *.
  now subst.
Qed.

(** X9.  On such an instance with [retries = n], [n >= 1], and a network that
    is down, the call issues exactly [n] requests, sleeps after every one of
    them, the last included, and then raises the client's exception [exceeded
    <n> attempts to communicate with InQuest Labs API endpoint <endpoint>.].
    *)
Theorem API_budget_exhausted fuel (self : instance) n api data method raw w :
  constructed rt self ->
  method = "GET" \/ method = "POST" ->
  (forall i r, requests_request w i r = TransportError) ->
  exists r b w',
    self !! "base_url" = Some (PStr b) /\ req_url r = b ++ api
    /\ __API rt (S n + fuel) (with_retries (Z.of_nat (S n)) self) api data PNone method raw w
       = (Raise (inquestlabs_exception
                   (Format "exceeded %s attempts to communicate with InQuest Labs API endpoint %s."
                           [PInt (Z.of_nat (S n)); PStr (b ++ api)])), w')
    /\ requests_of (trace w') = (requests_of (trace w) ++ repeat r (S n))%list
    /\ sleeps (trace w') = (sleeps (trace w) ++ backoff_delays w 0 (S n))%list
    /\ exists t d, trace w' = (t ++ [EvSleep d])%list.
Proof.
  intros Hc Hm Hnet.
  destruct (API_unfold_with_retries (S n + fuel) self (Z.of_nat (S n)) api data method raw w
              Hc Hm) as (r & b & Hb & Hu & E).
  destruct (API_attempts_budget (with_retries (Z.of_nat (S n)) self) r (S n)
              (with_retries_retries _ _) n 0%nat fuel w) as (w' & E2 & Hreq & Hsl & Hlast);
    [lia | exact Hnet |].
  exists r, b, w'. split; [exact Hb|]. split; [exact Hu|].
  split; [| split; [| split]]; try assumption.
  rewrite E, (bind_raise _ _ _ _ _ E2), Hu. reflexivity.
Qed.

(** The loop with a budget that is never met. *)
Lemma API_attempts_unbounded (self : instance) r z :
  self !! "retries" = Some (PInt z) -> z <= 0 ->
  forall fuel a w,
    (forall i q, requests_request w i q = TransportError) ->
    fst (API_attempts fuel self r a w) = Diverge
    /\ requests_of (trace (snd (API_attempts fuel self r a w)))
       = (requests_of (trace w) ++ repeat r fuel)%list.
Proof.
  intros Hattr Hz. induction fuel as [|fuel IH]; intros a w Hnet.
  - split; [reflexivity|]. cbn. now rewrite app_nil_r.
  - rewrite (API_attempts_failed_step fuel self r a w (Hnet _ _)).
    cbv zeta. rewrite Hattr. cbn [int_eq].
    replace (Z.of_nat (S a) =? z) with false by (symmetry; apply Z.eqb_neq; lia).
    set (d := uniform_at 0 (backoff_ceiling a) (random_random w (n_random w))).
    set (w2 := emit (EvSleep d) (count_random (emit (EvRequest r) (count_request w)))).
    destruct (IH (S a) w2 Hnet) as [H1 H2]. split; [exact H1|].
    rewrite H2. unfold w2. cbn [trace emit count_random count_request].
    rewrite !requests_of_snoc, app_nil_r, <- app_assoc. reflexivity.
Qed.

(** X10.  With [retries] zero or negative the budget is never exhausted: the
    counter is compared after it was incremented, so it never equals
    [retries].  With the network down the loop is still running after any
    number [fuel] of iterations, and has issued one request in each of them.
    *)
Theorem API_nonpositive_budget_never_ends fuel (self : instance) z api data method raw w :
  constructed rt self ->
  method = "GET" \/ method = "POST" ->
  z <= 0 ->
  (forall i r, requests_request w i r = TransportError) ->
  exists r,
    fst (__API rt fuel (with_retries z self) api data PNone method raw w) = Diverge
    /\ requests_of (trace (snd (__API rt fuel (with_retries z self) api data PNone method
                                      raw w)))
       = (requests_of (trace w) ++ repeat r fuel)%list.
Proof.
  intros Hc Hm Hz Hnet.
  destruct (API_unfold_with_retries fuel self z api data method raw w Hc Hm)
    as (r & b & Hb & Hu & E).
  destruct (API_attempts_unbounded (with_retries z self) r z (with_retries_retries _ _) Hz
              fuel 0%nat w Hnet) as [H1 H2].
  exists r. rewrite E. unfold bind.
  destruct (API_attempts fuel (with_retries z self) r 0 w) as [[resp|e|] w'];
    cbn [fst snd] in *; try discriminate H1.
  split; [reflexivity | exact H2].
Qed.

End ExecutorMore.

(** X4 on a path that does not exist. *)
Lemma API_attachment_missing_witness :
  __API (Sample.runtime_of Py3) 1 Sample.client "/dfi/upload" PNone
        (PStr "/tmp/missing.doc") "POST" false Sample.offline
  = (Raise (IOError "/tmp/missing.doc"), Sample.offline).
Proof.
  apply (API_attachment_missing (Sample.runtime_of Py3) 1 Sample.client "/dfi/upload" PNone
           "/tmp/missing.doc" "POST" false Sample.offline);
    [right; reflexivity | discriminate | reflexivity].
Defined.

(** X3 on an instance that holds a key. *)
Lemma API_requests_identical_witness :
  exists r n,
    (n <= 4)%nat
    /\ requests_of (trace (snd (__API (Sample.runtime_of Py3) 4 Sample.keyed "/stats" PNone
                                      PNone "GET" false Sample.offline)))
       = (requests_of (trace Sample.offline) ++ repeat r n)%list
    /\ req_method r = "GET" /\ req_url r = "https://labs.inquest.net/api/stats"
    /\ req_data r = PNone /\ req_files r = None /\ req_proxies r = PNone
    /\ req_verify r = PBool true
    /\ req_headers r !! "User-Agent" = Some (Format "python-inquestlabs/%s" [__version__])
    /\ req_headers r !! "Authorization" = Some (Format "Basic: %s" [PStr "secret"]).
Proof.
  exact (API_requests_identical (Sample.runtime_of Py3) 4 Sample.keyed "/stats" PNone "GET"
           false Sample.offline (PStr "secret") PNone (PBool true)
           "https://labs.inquest.net/api"
           (or_introl eq_refl) eq_refl eq_refl eq_refl eq_refl).
Defined.

(** X5 on the envelope of a successful answer with no data. *)
Lemma API_success_envelope_witness :
  exists r b,
    Sample.client !! "base_url" = Some (PStr b) /\ req_url r = b ++ "/stats"
    /\ __API (Sample.runtime_of Py3) 1 Sample.client "/stats" PNone PNone "GET" false
             (Sample.world_of (Responds Sample.ok_answer))
       = (Return (PList []),
          emit (EvRequest r) (count_request (Sample.world_of (Responds Sample.ok_answer)))).
Proof.
  apply (API_success_envelope (Sample.runtime_of Py3) 0 Sample.client "/stats" PNone "GET"
           (Sample.world_of (Responds Sample.ok_answer)) Sample.ok_answer
           [("success", PBool true); ("data", PList [])] (PBool true)).
  - exact sample_client_constructed.
  - left; reflexivity.
  - intros r; reflexivity.
  - reflexivity.
  - reflexivity.
  - reflexivity.
Defined.

(** X6 on a web page, on a JSON list, and on an object without [success]. *)
Lemma API_malformed_envelope_witness :
  let rt := Sample.runtime_labs Py3 in
  let w_page := Sample.world_of (Responds (Sample.answer_of 200 "<html>")) in
  let w_list := Sample.world_of (Responds (Sample.answer_of 200 "list")) in
  let w_flag := Sample.world_of (Responds (Sample.answer_of 200 "no-flag")) in
  (exists r, __API rt 1 Sample.client "/stats" PNone PNone "GET" false w_page
             = (Raise ValueError, emit (EvRequest r) (count_request w_page)))
  /\ (exists r, __API rt 1 Sample.client "/stats" PNone PNone "GET" false w_list
                = (Raise TypeError, emit (EvRequest r) (count_request w_list)))
  /\ (exists r, __API rt 1 Sample.client "/stats" PNone PNone "GET" false w_flag
                = (Raise (KeyError "success"), emit (EvRequest r) (count_request w_flag))).
Proof.
  cbv zeta.
  assert (Hc : constructed (Sample.runtime_labs Py3) Sample.client)
    by (apply sample_client_constructed_for; reflexivity).
  split; [| split].
  - destruct (API_malformed_envelope (Sample.runtime_labs Py3) 0 Sample.client "/stats"
                PNone "GET" (Sample.world_of (Responds (Sample.answer_of 200 "<html>")))
                (Sample.answer_of 200 "<html>") Hc (or_introl eq_refl)
                (fun _ => eq_refl) eq_refl) as (r & H & _).
    exists r. apply H. reflexivity.
  - destruct (API_malformed_envelope (Sample.runtime_labs Py3) 0 Sample.client "/stats"
                PNone "GET" (Sample.world_of (Responds (Sample.answer_of 200 "list")))
                (Sample.answer_of 200 "list") Hc (or_introl eq_refl)
                (fun _ => eq_refl) eq_refl) as (r & _ & H & _).
    exists r. apply (H (PList [])); [reflexivity | discriminate].
  - destruct (API_malformed_envelope (Sample.runtime_labs Py3) 0 Sample.client "/stats"
                PNone "GET" (Sample.world_of (Responds (Sample.answer_of 200 "no-flag")))
                (Sample.answer_of 200 "no-flag") Hc (or_introl eq_refl)
                (fun _ => eq_refl) eq_refl) as (r & _ & _ & H).
    exists r. apply (H [("data", PList [])]); reflexivity.
Defined.

(** X7 on a 429 that carries an error message. *)
Lemma API_error_status_json_body_witness :
  exists r b,
    Sample.client !! "base_url" = Some (PStr b) /\ req_url r = b ++ "/stats"
    /\ __API (Sample.runtime_labs Py3) 1 Sample.client "/stats" PNone PNone "GET" false
             (Sample.world_of (Responds (Sample.answer_of 429 "refused")))
       = (Raise (inquestlabs_exception
                   (Format "status=%d error communicating with %s: %s"
                           [PInt 429; PStr (b ++ "/stats"); PStr "rate limited"])),
          emit (EvRequest r)
               (count_request (Sample.world_of (Responds (Sample.answer_of 429 "refused"))))).
Proof.
  apply (API_error_status_json_body (Sample.runtime_labs Py3) 0 Sample.client "/stats" PNone
           "GET" false (Sample.world_of (Responds (Sample.answer_of 429 "refused")))
           (Sample.answer_of 429 "refused")
           (PDict [("success", PBool false); ("error", PStr "rate limited")])).
  - apply sample_client_constructed_for; reflexivity.
  - left; reflexivity.
  - intros r; reflexivity.
  - discriminate.
  - reflexivity.
Defined.

Lemma fails_from_flaky j answer : fails_from (Sample.flaky j answer) 0 j.
Proof.
  intros i r Hi. cbn [Sample.flaky requests_request Nat.add].
  destruct (Nat.ltb_spec i j); [reflexivity | lia].
Qed.

(** X8 with a budget of 3 on a network that fails twice. *)
Lemma API_recovers_within_budget_witness :
  exists r b w',
    Sample.client !! "base_url" = Some (PStr b) /\ req_url r = b ++ "/stats"
    /\ __API (Sample.runtime_of Py3) 3 (with_retries 3 Sample.client) "/stats" PNone PNone
             "GET" false (Sample.flaky 2 Sample.ok_answer)
       = (Return (PList []), w')
    /\ requests_of (trace w') = repeat r 3
    /\ sleeps (trace w') = backoff_delays (Sample.flaky 2 Sample.ok_answer) 0 2.
Proof.
  exact (API_recovers_within_budget (Sample.runtime_of Py3) 0 Sample.client 3 2 "/stats"
           PNone "GET" false (Sample.flaky 2 Sample.ok_answer) Sample.ok_answer
           sample_client_constructed (or_introl eq_refl) (le_n 3)
           (fails_from_flaky 2 Sample.ok_answer) (fun _ => eq_refl)).
Defined.

(** X9 with a budget of 3 and the network down. *)
Lemma API_budget_exhausted_witness :
  exists r b w',
    Sample.client !! "base_url" = Some (PStr b) /\ req_url r = b ++ "/stats"
    /\ __API (Sample.runtime_of Py3) 3 (with_retries 3 Sample.client) "/stats" PNone PNone
             "GET" false Sample.offline
       = (Raise (inquestlabs_exception
                   (Format "exceeded %s attempts to communicate with InQuest Labs API endpoint %s."
                           [PInt 3; PStr (b ++ "/stats")])), w')
    /\ requests_of (trace w') = repeat r 3
    /\ sleeps (trace w') = backoff_delays Sample.offline 0 3
    /\ exists t d, trace w' = (t ++ [EvSleep d])%list.
Proof.
  exact (API_budget_exhausted (Sample.runtime_of Py3) 0 Sample.client 2 "/stats" PNone "GET"
           false Sample.offline sample_client_constructed (or_introl eq_refl)
           (fun _ _ => eq_refl)).
Defined.

(** X10 with a budget of 0, after 5 iterations. *)
Lemma API_nonpositive_budget_never_ends_witness :
  exists r,
    fst (__API (Sample.runtime_of Py3) 5 (with_retries 0 Sample.client) "/stats" PNone PNone
               "GET" false Sample.offline) = Diverge
    /\ requests_of (trace (snd (__API (Sample.runtime_of Py3) 5 (with_retries 0 Sample.client)
                                      "/stats" PNone PNone "GET" false Sample.offline)))
       = repeat r 5.
Proof.
  exact (API_nonpositive_budget_never_ends (Sample.runtime_of Py3) 5 Sample.client 0 "/stats"
           PNone "GET" false Sample.offline sample_client_constructed (or_introl eq_refl)
           (Z.le_refl 0) (fun _ _ => eq_refl)).
Defined.

(** ** The hasher *)

Section HasherMore.
Variable rt : runtime.

Lemma ascii_lower_idempotent c : ascii_lower (ascii_lower c) = ascii_lower c.
Proof. destruct c as [[] [] [] [] [] [] [] []]; reflexivity. Qed.

Lemma lower_idempotent s : lower (lower s) = lower s.
Proof. induction s as [|c s IH]; simpl; [reflexivity|]. now rewrite ascii_lower_idempotent, IH. Qed.

Lemma hex_value_digit n : (n < 16)%N -> hex_value (hex_digit n) = Some (Z.of_N n).
Proof.
  intros H.
  assert (Hn : In n (map N.of_nat (seq 0 16))).
  { apply in_map_iff. exists (N.to_nat n). split; [lia|]. apply in_seq. lia. }
  cbn in Hn. repeat (destruct Hn as [<- | Hn]; [reflexivity|]). contradiction.
Qed.

(** Two hexadecimal digits are one byte. *)
Lemma int16_from_byte acc b s :
  int16_from acc (hex_of_byte b ++ s) = int16_from (256 * acc + Z.of_N (Byte.to_N b)) s.
Proof.
  unfold hex_of_byte. cbv zeta.
  pose proof (Byte.to_N_bounded b) as Hb.
  set (n := Byte.to_N b) in *.
  change (int16_from acc (String (hex_digit (n / 16)) (String (hex_digit (n mod 16)) s))
          = int16_from (256 * acc + Z.of_N n) s).
  cbn [int16_from].
  rewrite (hex_value_digit (n / 16)) by (apply N.Div0.div_lt_upper_bound; lia).
  cbn [mbind option_bind].
  rewrite (hex_value_digit (n mod 16)) by (apply N.mod_lt; lia).
  cbn [mbind option_bind]. f_equal.
  rewrite (N.div_mod n 16) at 3 by lia. lia.
Qed.

Lemma int16_from_hexlify l : forall acc,
  int16_from acc (hexlify l) = Some (fold_left (fun acc b => 256 * acc + Z.of_N (Byte.to_N b)) l acc).
Proof.
  induction l as [|b l IH]; intros acc; [reflexivity|].
  cbn [hexlify fold_left]. rewrite int16_from_byte. apply IH.
Qed.

Lemma int16_hexlify l : l <> [] -> int16 (hexlify l) = Some (be_value l).
Proof.
  intros H. destruct l as [|b l]; [contradiction|].
  unfold int16, be_value. rewrite <- int16_from_hexlify.
  destruct b; reflexivity.
Qed.

Lemma hexlify_cons b l :
  hexlify (b :: l)
  = String (hex_digit (Byte.to_N b / 16)) (String (hex_digit (Byte.to_N b mod 16)) (hexlify l)).
Proof. reflexivity. Qed.

(** Eight hexadecimal digits are four bytes. *)
Lemma hexlify_take l : str_take 8 (hexlify l) = hexlify (firstn 4 l).
Proof.
  destruct l as [|b1 [|b2 [|b3 [|b4 l]]]]; reflexivity.
Qed.

Lemma hexlify_drop l : str_drop 8 (hexlify l) = hexlify (skipn 4 l).
Proof.
  destruct l as [|b1 [|b2 [|b3 [|b4 l]]]]; reflexivity.
Qed.

Lemma hexlify_length l : String.length (hexlify l) = (2 * length l)%nat.
Proof.
  induction l as [|b l IH]; [reflexivity|].
  rewrite hexlify_cons. cbn [String.length length]. rewrite IH. lia.
Qed.

Lemma hexlify_nonempty l : l <> [] -> hexlify l <> "".
Proof. destruct l; [contradiction|]. rewrite hexlify_cons. discriminate. Qed.

(** The chunks of a hexadecimal string convert to the numbers of the groups of
    four bytes. *)
Lemma parts_of_hexlify fuel1 : forall fuel2 l,
  (length l <= fuel1)%nat -> (length l <= fuel2)%nat ->
  mapM int16 (chunks_fuel fuel1 (hexlify l) 8) = Some (words32_fuel fuel2 l).
Proof.
  induction fuel1 as [|fuel1 IH]; intros fuel2 l H1 H2.
  - destruct l; [| simpl in H1; lia]. destruct fuel2; reflexivity.
  - destruct l as [|b l]; [destruct fuel2; reflexivity|].
    destruct fuel2 as [|fuel2]; [simpl in H2; lia|].
    cbn [chunks_fuel words32_fuel]. rewrite hexlify_cons at 1.
    rewrite hexlify_take, hexlify_drop.
    cbn [mapM]. rewrite int16_hexlify by discriminate. cbn [mbind option_bind].
    rewrite (IH fuel2 (skipn 4 (b :: l))).
    + reflexivity.
    + rewrite length_skipn. simpl in *. lia.
    + rewrite length_skipn. simpl in *. lia.
Qed.

Lemma parts_of_digest d :
  mapM int16 (chunks (hexlify d) 8) = Some (words32 d).
Proof.
  unfold chunks, words32. apply parts_of_hexlify; [rewrite hexlify_length; lia | lia].
Qed.

Lemma be_value_bounds l : forall acc,
  0 <= acc ->
  0 <= fold_left (fun acc b => 256 * acc + Z.of_N (Byte.to_N b)) l acc
    < (acc + 1) * 256 ^ Z.of_nat (length l).
Proof.
  induction l as [|b l IH]; intros acc Hacc.
  - cbn. lia.
  - cbn [fold_left length]. pose proof (Byte.to_N_bounded b) as Hb.
    specialize (IH (256 * acc + Z.of_N (Byte.to_N b)) ltac:(lia)).
    rewrite Nat2Z.inj_succ, Z.pow_succ_r by lia.
    split; [lia|]. destruct IH as [_ IH].
    eapply Z.lt_le_trans; [exact IH|]. 
    assert (0 < 256 ^ Z.of_nat (length l)) by (apply Z.pow_pos_nonneg; lia).
    nia.
Qed.

Lemma words32_fuel_bounds fuel : forall l,
  Forall (fun z => 0 <= z < 2 ^ 32) (words32_fuel fuel l).
Proof.
  induction fuel as [|fuel IH]; intros l; [constructor|].
  destruct l as [|b l]; [constructor|]. cbn [words32_fuel]. constructor; [| apply IH].
  unfold be_value. pose proof (be_value_bounds (firstn 4 (b :: l)) 0 ltac:(lia)) as [H0 H1].
  split; [exact H0|]. eapply Z.lt_le_trans; [exact H1|].
  change (2 ^ 32) with ((0 + 1) * 256 ^ 4).
  apply Z.mul_le_mono_nonneg_l; [lia|]. apply Z.pow_le_mono_r; [lia|].
  rewrite length_firstn. lia.
Qed.

(** A name outside [VALID_HASH] selects no function. *)
Lemma new_hashfunc_none s : s ∉ VALID_HASH -> new_hashfunc s = None.
Proof.
  intros H. unfold new_hashfunc.
  repeat match goal with
         | |- context [String.eqb s ?x] =>
             let E := fresh "E" in
             destruct (String.eqb s x) eqn:E;
             [ exfalso; apply H; apply String.eqb_eq in E; subst s;
               unfold VALID_HASH; rewrite !elem_of_cons; tauto | clear E ]
         end.
  reflexivity.
Qed.

(** The loop with no hash object: the first read decides. *)
Lemma HASH_blocks_unbound py p block_size fuel rest w :
  exists o w',
    HASH_blocks py (S fuel) p block_size rest None w = (o, w')
    /\ match read_error py block_size with
       | Some e => o = Raise e
       | None => o = Return None \/ o = Raise (UnboundLocalError "hashfunc")
       end.
Proof.
  cbn [HASH_blocks]. unfold bind at 1. unfold fh_read.
  destruct (read_error py block_size) as [e|]; [eauto|]. cbn [fst snd].
  destruct (firstn _ rest); cbn [truthy length Nat.eqb negb]; eauto.
Qed.

(** A size that Python 3 refuses ends the loop at its first read. *)
Lemma HASH_blocks_refused py p block_size fuel rest h w e :
  read_error py block_size = Some e ->
  HASH_blocks py (S fuel) p block_size rest h w = (Raise e, w).
Proof.
  intros H. cbn [HASH_blocks]. unfold bind at 1. unfold fh_read. now rewrite H.
Qed.

(** X11.  [__HASH] raises the client's exception exactly when [path] and
    [bytes] are both false in a boolean context ([None], the empty string, the
    empty buffer); the exception is then [hash expects either 'path' or
    'bytes'.] and nothing was read. *)
Theorem HASH_client_error_iff path bytes algorithm block_size fmt w :
  ((exists m, fst (__HASH rt path bytes algorithm block_size fmt w)
              = Raise (inquestlabs_exception m))
   <-> truthy path = false /\ truthy bytes = false)
  /\ (truthy path = false -> truthy bytes = false ->
      __HASH rt path bytes algorithm block_size fmt w = (Raise hash_expects, w)).
Proof.
  split; [split|].
  - intros [m H]. destruct (truthy path) eqn:Hp, (truthy bytes) eqn:Hb; auto;
      pose proof (HASH_supplied rt path bytes algorithm block_size fmt w) as Hn;
      rewrite H in Hn; exfalso; apply Hn; rewrite ?Hp, ?Hb; auto.
  - intros [Hp Hb]. eexists. rewrite (HASH_neither rt); [reflexivity | exact Hp | exact Hb].
  - apply HASH_neither.
Qed.

(** X12.  Each of [md5], [sha1], [sha256] and [sha512] returns the hexadecimal
    digest of its own algorithm, and gives the same text for a file and for a
    buffer that holds the (non-empty) content of the file. *)
Theorem hash_shortcuts_agree p c w :
  p <> "" -> fs w !! p = Some (File c) -> c <> [] ->
  (fst (md5 rt (PStr p) PNone w) = Return (PStr (hexdigest rt Md5 c))
   /\ md5 rt PNone (PBytes c) w = (Return (PStr (hexdigest rt Md5 c)), w))
  /\ (fst (sha1 rt (PStr p) PNone w) = Return (PStr (hexdigest rt Sha1 c))
      /\ sha1 rt PNone (PBytes c) w = (Return (PStr (hexdigest rt Sha1 c)), w))
  /\ (fst (sha256 rt (PStr p) PNone w) = Return (PStr (hexdigest rt Sha256 c))
      /\ sha256 rt PNone (PBytes c) w = (Return (PStr (hexdigest rt Sha256 c)), w))
  /\ (fst (sha512 rt (PStr p) PNone w) = Return (PStr (hexdigest rt Sha512 c))
      /\ sha512 rt PNone (PBytes c) w = (Return (PStr (hexdigest rt Sha512 c)), w)).
Proof.
  intros Hp Hf Hc. unfold md5, sha1, sha256, sha512.
  repeat split;
    first
      [ apply HASH_buffer_digest; try discriminate; auto; fail
      | match goal with
        | |- fst (__HASH rt (PStr p) PNone ?alg 16384 "digest" w) = Return (PStr (hexdigest rt ?a c)) =>
            destruct (HASH_file_digest rt p c alg a 16384 "digest" PNone w)
              as (w' & E & _); try discriminate; auto;
              [apply read_error_none; unfold sys_maxsize; lia | now rewrite E]
        end ].
Qed.

(** X13.  The digest of a file does not depend on the size of the blocks it is
    read in: for [block_size = -1], which reads the file in one go, and for
    every positive [block_size] up to the default 16384, the loop ends and
    the result is the digest of the whole content; the path is used whatever
    [bytes] is, and the file system is left unchanged.  Under Python 3 a
    [block_size] below [-1] is refused by the first read: the call fails with
    [ValueError] once the file is open, whatever the algorithm. *)
Theorem HASH_block_size_independent p c bytes algorithm a block_size fmt w :
  p <> "" -> fs w !! p = Some (File c) ->
  (block_size = -1 \/ 0 < block_size <= 16384 ->
   new_hashfunc (lower algorithm) = Some (a, []) -> fmt <> "raw" -> fmt <> "parts" ->
   exists w',
     __HASH rt (PStr p) bytes algorithm block_size fmt w
     = (Return (PStr (hexdigest rt a c)), w')
     /\ fs w' = fs w)
  /\ (python rt = Py3 -> - sys_maxsize - 1 <= block_size < -1 ->
      __HASH rt (PStr p) bytes algorithm block_size fmt w
      = (Raise ValueError, emit (EvOpen p "rb") w)).
Proof.
  intros Hp Hf. split.
  - intros Hbs Ha Hraw Hparts.
    apply HASH_file_digest; try assumption; [lia|].
    apply read_error_none. unfold sys_maxsize. lia.
  - intros Hpy Hbs. unfold __HASH. rewrite (truthy_str p Hp). cbn [as_path].
    unfold bind at 1. unfold bind at 1. unfold open_rb. rewrite Hf.
    rewrite (HASH_blocks_refused (python rt) p block_size (length c) c _ _ ValueError);
      [reflexivity|].
    unfold read_error, sys_maxsize in *. rewrite Hpy.
    replace (block_size <? - (2 ^ 63 - 1) - 1) with false by (symmetry; apply Z.ltb_ge; lia).
    replace (2 ^ 63 - 1 <? block_size) with false by (symmetry; apply Z.ltb_ge; lia).
    replace (block_size <? -1) with true by (symmetry; apply Z.ltb_lt; lia).
    reflexivity.
Qed.

(** X14.  With [block_size = 0] the first read returns nothing and the loop
    ends at once: the result is the digest of the empty input, whatever the
    file holds. *)
Theorem HASH_block_size_zero p c bytes algorithm a fmt w :
  p <> "" -> fs w !! p = Some (File c) ->
  new_hashfunc (lower algorithm) = Some (a, []) ->
  fmt <> "raw" -> fmt <> "parts" ->
  __HASH rt (PStr p) bytes algorithm 0 fmt w
  = (Return (PStr (hexdigest rt a [])), emit (EvRead p 0) (emit (EvOpen p "rb") w)).
Proof.
  intros Hp Hf Ha Hraw Hparts. unfold __HASH. rewrite Ha, (truthy_str p Hp).
  cbn [as_path].
  unfold bind at 1. unfold bind at 1. unfold open_rb. rewrite Hf.
  cbn [HASH_blocks]. unfold bind at 1. unfold fh_read.
  rewrite (read_error_none (python rt) 0) by (unfold sys_maxsize; lia). cbn.
  destruct (String.eqb fmt "raw") eqn:E1; [apply String.eqb_eq in E1; contradiction|].
  destruct (String.eqb fmt "parts") eqn:E2; [apply String.eqb_eq in E2; contradiction|].
  reflexivity.
Qed.

(** X15.  A non-empty [path] that names no regular file (nothing, or a
    directory) makes [__HASH] fail with the error of [open]; the world is left
    as it was. *)
Theorem HASH_missing_file p bytes algorithm block_size fmt w :
  p <> "" -> is_file w p = false ->
  __HASH rt (PStr p) bytes algorithm block_size fmt w = (Raise (IOError p), w).
Proof.
  intros Hp Hf. unfold __HASH. rewrite (truthy_str p Hp). cbn [as_path].
  unfold bind, open_rb. unfold is_file in Hf.
  destruct (fs w !! p) as [[c|]|]; [discriminate | reflexivity | reflexivity].
Qed.

(** X16.  The name of the algorithm is case-insensitive.  A name that is,
    lowercased, none of [md5], [sha1], [sha256], [sha512] leaves the local
    variable [hashfunc] unbound: hashing a non-empty buffer, or any existing
    file, then fails with [UnboundLocalError], not with the client's
    exception.  (For a file this is so at every [block_size] the read
    accepts; at one it refuses, the error of the read comes first.) *)
Theorem HASH_algorithm_name path bytes algorithm block_size fmt w :
  __HASH rt path bytes algorithm block_size fmt w
  = __HASH rt path bytes (lower algorithm) block_size fmt w
  /\ (lower algorithm ∉ VALID_HASH ->
      (forall b, b <> [] ->
         __HASH rt PNone (PBytes b) algorithm block_size fmt w
         = (Raise (UnboundLocalError "hashfunc"), w))
      /\ (forall p c, p <> "" -> fs w !! p = Some (File c) ->
            fst (__HASH rt (PStr p) bytes algorithm block_size fmt w)
            = Raise (default (UnboundLocalError "hashfunc")
                             (read_error (python rt) block_size)))).
Proof.
  split.
  - unfold __HASH. now rewrite lower_idempotent.
  - intros Ha. apply new_hashfunc_none in Ha. split.
    + intros b Hb. unfold __HASH. rewrite Ha.
      destruct b as [|x b]; [contradiction|]. reflexivity.
    + intros p c Hp Hf. unfold __HASH. rewrite Ha, (truthy_str p Hp). cbn [as_path].
      unfold bind at 1. unfold bind at 1. unfold open_rb. rewrite Hf.
      destruct (HASH_blocks_unbound (python rt) p block_size (length c) c
                  (emit (EvOpen p "rb") w)) as (o & w' & E & Ho).
      rewrite E. destruct (read_error (python rt) block_size) as [e|].
      * subst o. reflexivity.
      * destruct Ho as [-> | ->]; reflexivity.
Qed.

(** X17.  With the format [parts] the digest of a non-empty buffer comes back
    as numbers, one for each successive group of four bytes of the digest,
    most significant byte first (eight hexadecimal digits each; a shorter last
    group gives a smaller number).  The conversion of the chunks never fails,
    and every part is below [2^32].  (Python 2 returns the list; Python 3
    returns the lazy [map] over it.) *)
Theorem HASH_parts_are_words b algorithm a block_size w :
  b <> [] -> new_hashfunc (lower algorithm) = Some (a, []) ->
  __HASH rt PNone (PBytes b) algorithm block_size "parts" w
  = (Return (PList (PInt <$> words32 (hashlib_digest rt a b))), w)
  /\ Forall (fun z => 0 <= z < 2 ^ 32) (words32 (hashlib_digest rt a b)).
Proof.
  intros Hb Ha. split.
  - unfold __HASH. rewrite Ha. destruct b as [|x b]; [contradiction|].
    cbn [truthy length Nat.eqb negb as_bytes].
    unfold hashfunc_update, the_hashfunc, bind, ret. cbn [fst snd app].
    cbn [String.eqb Ascii.eqb Bool.eqb]. unfold hexdigest.
    now rewrite parts_of_digest.
  - apply words32_fuel_bounds.
Qed.

(** X18.  A non-empty text string given as [bytes]: under Python 3, where
    [hashlib] accepts byte strings only, the call fails with [TypeError];
    under Python 2 the bytes of the string are hashed. *)
Theorem HASH_text_buffer s algorithm a block_size fmt w :
  s <> "" -> new_hashfunc (lower algorithm) = Some (a, []) ->
  (python rt = Py3 ->
   __HASH rt PNone (PStr s) algorithm block_size fmt w = (Raise TypeError, w))
  /\ (python rt = Py2 -> fmt <> "raw" -> fmt <> "parts" ->
      __HASH rt PNone (PStr s) algorithm block_size fmt w
      = (Return (PStr (hexdigest rt a (String.list_byte_of_string s))), w)).
Proof.
  intros Hs Ha. split.
  - intros Hpy. unfold __HASH. rewrite Ha, (truthy_str s Hs). cbn [truthy].
    unfold as_bytes. rewrite Hpy. reflexivity.
  - intros Hpy Hraw Hparts. unfold __HASH. rewrite Ha, (truthy_str s Hs). cbn [truthy].
    unfold as_bytes. rewrite Hpy.
    unfold hashfunc_update, the_hashfunc, bind, ret. cbn [fst snd app].
    destruct (String.eqb fmt "raw") eqn:E1; [apply String.eqb_eq in E1; contradiction|].
    destruct (String.eqb fmt "parts") eqn:E2; [apply String.eqb_eq in E2; contradiction|].
    reflexivity.
Qed.

End HasherMore.

(** X11 on an empty path and on an empty string as buffer. *)
Lemma HASH_client_error_iff_witness :
  __HASH (Sample.runtime_of Py3) (PStr "") PNone "md5" 16384 "digest" Sample.offline
  = (Raise hash_expects, Sample.offline)
  /\ exists m,
       fst (__HASH (Sample.runtime_of Py3) PNone (PStr "") "md5" 16384 "digest"
                   Sample.offline)
       = Raise (inquestlabs_exception m).
Proof.
  split.
  - apply (proj2 (HASH_client_error_iff (Sample.runtime_of Py3) (PStr "") PNone "md5" 16384
                    "digest" Sample.offline)); reflexivity.
  - apply (proj1 (HASH_client_error_iff (Sample.runtime_of Py3) PNone (PStr "") "md5" 16384
                    "digest" Sample.offline)).
    split; reflexivity.
Defined.

(** X12 on a sample file. *)
Lemma hash_shortcuts_agree_witness :
  let rt := Sample.runtime_of Py3 in
  let c := String.list_byte_of_string "plain" in
  (fst (md5 rt (PStr "/tmp/notes.txt") PNone Sample.offline)
   = Return (PStr (hexdigest rt Md5 c))
   /\ md5 rt PNone (PBytes c) Sample.offline
      = (Return (PStr (hexdigest rt Md5 c)), Sample.offline))
  /\ (fst (sha1 rt (PStr "/tmp/notes.txt") PNone Sample.offline)
      = Return (PStr (hexdigest rt Sha1 c))
      /\ sha1 rt PNone (PBytes c) Sample.offline
         = (Return (PStr (hexdigest rt Sha1 c)), Sample.offline))
  /\ (fst (sha256 rt (PStr "/tmp/notes.txt") PNone Sample.offline)
      = Return (PStr (hexdigest rt Sha256 c))
      /\ sha256 rt PNone (PBytes c) Sample.offline
         = (Return (PStr (hexdigest rt Sha256 c)), Sample.offline))
  /\ (fst (sha512 rt (PStr "/tmp/notes.txt") PNone Sample.offline)
      = Return (PStr (hexdigest rt Sha512 c))
      /\ sha512 rt PNone (PBytes c) Sample.offline
         = (Return (PStr (hexdigest rt Sha512 c)), Sample.offline)).
Proof.
  cbv zeta.
  apply (hash_shortcuts_agree (Sample.runtime_of Py3) "/tmp/notes.txt"
           (String.list_byte_of_string "plain") Sample.offline);
    [discriminate | reflexivity | discriminate].
Defined.

(** X13 on a file of five bytes, read two at a time and read with the size
    [-2]. *)
Lemma HASH_block_size_independent_witness :
  (exists w',
     __HASH (Sample.runtime_of Py3) (PStr "/tmp/notes.txt") PNone "SHA1" 2 "digest"
            Sample.offline
     = (Return (PStr "6e69616c70"), w')
     /\ fs w' = fs Sample.offline)
  /\ __HASH (Sample.runtime_of Py3) (PStr "/tmp/notes.txt") PNone "SHA1" (-2) "digest"
            Sample.offline
     = (Raise ValueError, emit (EvOpen "/tmp/notes.txt" "rb") Sample.offline).
Proof.
  split.
  - apply (proj1 (HASH_block_size_independent (Sample.runtime_of Py3) "/tmp/notes.txt"
                    (String.list_byte_of_string "plain") PNone "SHA1" Sha1 2 "digest"
                    Sample.offline ltac:(discriminate) eq_refl));
      first [discriminate | reflexivity | (right; lia)].
  - apply (proj2 (HASH_block_size_independent (Sample.runtime_of Py3) "/tmp/notes.txt"
                    (String.list_byte_of_string "plain") PNone "SHA1" Sha1 (-2) "digest"
                    Sample.offline ltac:(discriminate) eq_refl));
      [reflexivity | unfold sys_maxsize; lia].
Defined.

(** X14 on the same file. *)
Lemma HASH_block_size_zero_witness :
  __HASH (Sample.runtime_of Py3) (PStr "/tmp/notes.txt") PNone "md5" 0 "digest"
         Sample.offline
  = (Return (PStr ""),
     emit (EvRead "/tmp/notes.txt" 0) (emit (EvOpen "/tmp/notes.txt" "rb") Sample.offline)).
Proof.
  apply (HASH_block_size_zero (Sample.runtime_of Py3) "/tmp/notes.txt"
           (String.list_byte_of_string "plain") PNone "md5" Md5 "digest" Sample.offline);
    first [discriminate | reflexivity].
Defined.

(** X15 on a directory. *)
Lemma HASH_missing_file_witness :
  __HASH (Sample.runtime_of Py3) (PStr "/tmp/out") PNone "md5" 16384 "digest" Sample.offline
  = (Raise (IOError "/tmp/out"), Sample.offline).
Proof.
  apply (HASH_missing_file (Sample.runtime_of Py3) "/tmp/out" PNone "md5" 16384 "digest"
           Sample.offline); [discriminate | reflexivity].
Defined.

Lemma sha3_not_valid : lower "SHA3" ∉ VALID_HASH.
Proof.
  unfold VALID_HASH. rewrite !elem_of_cons, elem_of_nil.
  intros [H | [H | [H | [H | []]]]]; discriminate H.
Qed.

(** X16 on the name [SHA3]. *)
Lemma HASH_algorithm_name_witness :
  __HASH (Sample.runtime_of Py3) PNone (PBytes (String.list_byte_of_string "abc")) "SHA3"
         16384 "digest" Sample.offline
  = (Raise (UnboundLocalError "hashfunc"), Sample.offline)
  /\ fst (__HASH (Sample.runtime_of Py3) (PStr "/tmp/notes.txt") PNone "SHA3" 16384 "digest"
                 Sample.offline)
     = Raise (UnboundLocalError "hashfunc").
Proof.
  destruct (proj2 (HASH_algorithm_name (Sample.runtime_of Py3) PNone PNone "SHA3" 16384
                     "digest" Sample.offline) sha3_not_valid) as [Hb Hf].
  split.
  - apply Hb. discriminate.
  - apply (Hf "/tmp/notes.txt" (String.list_byte_of_string "plain"));
      [discriminate | reflexivity].
Defined.

(** X17 on a digest of five bytes. *)
Lemma HASH_parts_are_words_witness :
  __HASH (Sample.runtime_of Py3) PNone (PBytes (String.list_byte_of_string "abcde")) "md5"
         16384 "parts" Sample.offline
  = (Return (PList [PInt 1701077858; PInt 97]), Sample.offline)
  /\ Forall (fun z => 0 <= z < 2 ^ 32) [1701077858; 97].
Proof.
  apply (HASH_parts_are_words (Sample.runtime_of Py3) (String.list_byte_of_string "abcde")
           "md5" Md5 16384 Sample.offline); [discriminate | reflexivity].
Defined.

(** X18 on the string [abc]. *)
Lemma HASH_text_buffer_witness :
  __HASH (Sample.runtime_of Py3) PNone (PStr "abc") "md5" 16384 "digest" Sample.offline
  = (Raise TypeError, Sample.offline)
  /\ __HASH (Sample.runtime_of Py2) PNone (PStr "abc") "md5" 16384 "digest" Sample.offline
     = (Return (PStr "636261"), Sample.offline).
Proof.
  split.
  - apply (proj1 (HASH_text_buffer (Sample.runtime_of Py3) "abc" "md5" Md5 16384 "digest"
                    Sample.offline ltac:(discriminate) eq_refl)).
    reflexivity.
  - apply (proj2 (HASH_text_buffer (Sample.runtime_of Py2) "abc" "md5" Md5 16384 "digest"
                    Sample.offline ltac:(discriminate) eq_refl));
      first [discriminate | reflexivity].
Defined.

(** ** What the operations leave alone *)

Section EffectsMore.
Variable rt : runtime.

Lemma silent_ret {A} (a : A) : silent (ret a).
Proof. intros w. auto. Qed.

Lemma silent_raise {A} e : silent (@raise A e).
Proof. intros w. auto. Qed.

Lemma silent_diverge {A} : silent (@diverge A).
Proof. intros w. auto. Qed.

Lemma silent_bind {A B} (m : M A) (k : A -> M B) :
  silent m -> (forall a, silent (k a)) -> silent (bind m k).
Proof.
  intros Hm Hk w. unfold bind. specialize (Hm w).
  destruct (m w) as [[a|e|] w']; cbn [snd] in *; try assumption.
  destruct (Hk a w') as (H1 & H2). destruct Hm as (H3 & H4). split; congruence.
Qed.

Lemma silent_open_rb p : silent (open_rb p).
Proof.
  intros w. unfold open_rb. destruct (fs w !! p) as [[c|]|]; auto.
  cbn [snd trace emit n_requests]. rewrite requests_of_snoc, app_nil_r. auto.
Qed.

Lemma silent_fh_read py p n rest : silent (fh_read py p n rest).
Proof.
  intros w. unfold fh_read. destruct (read_error py n); [auto|].
  cbn [snd trace emit n_requests]. rewrite requests_of_snoc, app_nil_r. auto.
Qed.

Lemma quiet_fh_read py p n rest : quiet (fh_read py p n rest).
Proof.
  intros w. unfold fh_read. destruct (read_error py n); [auto|].
  cbn [snd trace emit n_random random_random]. rewrite sleeps_snoc, app_nil_r. auto.
Qed.

Lemma keeps_fs_HASH_blocks py p block_size : forall fuel rest h,
  keeps_fs (HASH_blocks py fuel p block_size rest h).
Proof.
  induction fuel as [|fuel IH]; intros rest h; simpl;
    unfold hashfunc_update, the_hashfunc; keeps_fs_effects.
Qed.

Lemma silent_HASH_blocks py p block_size : forall fuel rest h,
  silent (HASH_blocks py fuel p block_size rest h).
Proof.
  induction fuel as [|fuel IH]; intros rest h; simpl;
    unfold hashfunc_update, the_hashfunc;
    repeat first
      [ apply silent_ret | apply silent_raise | apply silent_diverge | apply silent_fh_read
      | apply IH
      | apply silent_bind; [| intros ? ]
      | effects_step ].
Qed.

Lemma quiet_HASH_blocks py p block_size : forall fuel rest h,
  quiet (HASH_blocks py fuel p block_size rest h).
Proof.
  induction fuel as [|fuel IH]; intros rest h; simpl;
    unfold hashfunc_update, the_hashfunc;
    repeat first
      [ apply quiet_fh_read | apply IH
      | progress (eauto with effects)
      | apply quiet_bind; [| intros ? ]
      | effects_step ].
Qed.

Lemma keeps_fs_HASH path bytes algorithm block_size fmt :
  keeps_fs (__HASH rt path bytes algorithm block_size fmt).
Proof.
  unfold __HASH, hashfunc_update, the_hashfunc.
  repeat first
    [ apply keeps_fs_HASH_blocks
    | progress (eauto with effects)
    | apply keeps_fs_bind; [| intros ? ]
    | effects_step ].
Qed.

(** X19.  [__HASH] only reads: whatever its arguments and however it ends, it
    leaves the file system unchanged, issues no request, and neither sleeps
    nor draws a random number. *)
Theorem HASH_only_reads path bytes algorithm block_size fmt :
  keeps_fs (__HASH rt path bytes algorithm block_size fmt)
  /\ silent (__HASH rt path bytes algorithm block_size fmt)
  /\ quiet (__HASH rt path bytes algorithm block_size fmt).
Proof.
  split; [apply keeps_fs_HASH|]. split.
  - unfold __HASH, hashfunc_update, the_hashfunc.
    repeat first
      [ apply silent_ret | apply silent_raise | apply silent_diverge | apply silent_open_rb
      | apply silent_HASH_blocks
      | apply silent_bind; [| intros ? ]
      | effects_step ].
  - unfold __HASH, hashfunc_update, the_hashfunc.
    repeat first
      [ apply quiet_HASH_blocks
      | progress (eauto with effects)
      | apply quiet_bind; [| intros ? ]
      | effects_step ].
Qed.

Lemma keeps_fs_select_attribute py f : forall items,
  keeps_fs (select_attribute py f items).
Proof.
  induction items as [|attr items IH]; simpl; unfold subscript; keeps_fs_effects.
Qed.

Lemma keeps_fs_dfi_attributes fuel (self : instance) sha256 filter_by :
  keeps_fs (dfi_attributes rt fuel self sha256 filter_by).
Proof.
  unfold dfi_attributes.
  repeat first
    [ apply keeps_fs_API | apply keeps_fs_select_attribute
    | progress (eauto with effects)
    | apply keeps_fs_bind; [| intros ? ]
    | effects_step ].
Qed.

(** [keeps_fs_effects] for the operations built on [__API]. *)
Ltac keeps_fs_operation :=
  repeat first
    [ apply keeps_fs_API | apply keeps_fs_dfi_attributes
    | progress (eauto with effects)
    | apply keeps_fs_bind; [| intros ? ]
    | effects_step ].

Lemma keeps_fs_check_subcategory c s : forall pairs,
  keeps_fs (check_subcategory c s pairs).
Proof.
  induction pairs as [|[c' v] pairs IH]; simpl; keeps_fs_effects.
Qed.

(** X20.  No operation but [dfi_download] writes: [__API], [dfi_search],
    [dfi_upload], [dfi_attributes], [dfi_details], [dfi_list], [dfi_sources],
    [stats] and the four YARA helpers leave the file system as they found it,
    whatever their arguments and however they end. *)
Theorem operations_keep_file_system fuel (self : instance) :
  (forall api data path method raw, keeps_fs (__API rt fuel self api data path method raw))
  /\ (forall category subcategory keyword,
        keeps_fs (dfi_search rt fuel self category subcategory keyword))
  /\ (forall path, keeps_fs (dfi_upload rt fuel self path))
  /\ (forall sha256 filter_by, keeps_fs (dfi_attributes rt fuel self sha256 filter_by))
  /\ (forall sha256 attributes, keeps_fs (dfi_details rt fuel self sha256 attributes))
  /\ keeps_fs (dfi_list rt fuel self)
  /\ keeps_fs (dfi_sources rt fuel self)
  /\ keeps_fs (stats rt fuel self)
  /\ (forall regex endian, keeps_fs (yara_b64re rt fuel self regex endian))
  /\ (forall instring, keeps_fs (yara_hexcase rt fuel self instring))
  /\ (forall regex endian, keeps_fs (yara_widere rt fuel self regex endian))
  /\ (forall magic offset is_hex, keeps_fs (yara_uint rt fuel self magic offset is_hex)).
Proof.
  repeat split; intros.
  - apply keeps_fs_API.
  - unfold dfi_search.
    repeat first
      [ apply keeps_fs_API | apply keeps_fs_check_subcategory
      | progress (eauto with effects)
      | apply keeps_fs_bind; [| intros ? ]
      | effects_step ].
  - unfold dfi_upload. keeps_fs_operation.
  - apply keeps_fs_dfi_attributes.
  - unfold dfi_details, setitem. keeps_fs_operation.
  - apply keeps_fs_API.
  - apply keeps_fs_API.
  - apply keeps_fs_API.
  - unfold yara_b64re. keeps_fs_operation.
  - apply keeps_fs_API.
  - unfold yara_widere. keeps_fs_operation.
  - apply keeps_fs_API.
Qed.

Lemma written_snoc t e :
  written (t ++ [e]) = (written t ++ written [e])%list.
Proof. unfold written. now rewrite omap_app. Qed.

Lemma reads_only_ret {A} (a : A) : reads_only (ret a).
Proof. intros w. reflexivity. Qed.

Lemma reads_only_raise {A} e : reads_only (@raise A e).
Proof. intros w. reflexivity. Qed.

Lemma reads_only_diverge {A} : reads_only (@diverge A).
Proof. intros w. reflexivity. Qed.

Lemma reads_only_bind {A B} (m : M A) (k : A -> M B) :
  reads_only m -> (forall a, reads_only (k a)) -> reads_only (bind m k).
Proof.
  intros Hm Hk w. unfold bind. specialize (Hm w).
  destruct (m w) as [[a|e|] w']; cbn [snd] in *; try assumption.
  now rewrite Hk.
Qed.

Lemma reads_only_getattr (self : instance) name : reads_only (getattr self name).
Proof. unfold getattr. destruct (self !! name); intros w; reflexivity. Qed.

Lemma reads_only_open_rb p : reads_only (open_rb p).
Proof.
  intros w. unfold open_rb. destruct (fs w !! p) as [[c|]|]; try reflexivity.
  cbn [snd trace emit]. rewrite written_snoc. cbn. now rewrite app_nil_r.
Qed.

Lemma reads_only_fh_read py p n rest : reads_only (fh_read py p n rest).
Proof.
  intros w. unfold fh_read. destruct (read_error py n); [reflexivity|].
  cbn [snd trace emit]. rewrite written_snoc. cbn. now rewrite app_nil_r.
Qed.

Lemma reads_only_do_request r : reads_only (do_request r).
Proof.
  intros w. cbn [do_request snd trace emit count_request].
  rewrite written_snoc. cbn. now rewrite app_nil_r.
Qed.

Lemma reads_only_random_uniform a b : reads_only (random_uniform a b).
Proof. intros w. reflexivity. Qed.

Lemma reads_only_time_sleep d : reads_only (time_sleep d).
Proof.
  intros w. cbn [time_sleep log snd trace emit].
  rewrite written_snoc. cbn. now rewrite app_nil_r.
Qed.

(** Decompose a computation down to the building blocks above, and to
    what [known] settles. *)
Ltac reads_only_effects known :=
  repeat first
    [ known
    | apply reads_only_ret | apply reads_only_raise | apply reads_only_diverge
    | apply reads_only_getattr | apply reads_only_open_rb | apply reads_only_fh_read
    | apply reads_only_do_request | apply reads_only_random_uniform
    | apply reads_only_time_sleep
    | apply reads_only_bind; [| intros ? ]
    | effects_step ].

Lemma reads_only_API_attempts fuel (self : instance) r : forall a,
  reads_only (API_attempts fuel self r a).
Proof.
  induction fuel as [|fuel IH]; intros a; simpl; reads_only_effects ltac:(apply IH).
Qed.

Lemma reads_only_API fuel (self : instance) api data path method raw :
  reads_only (__API rt fuel self api data path method raw).
Proof.
  unfold __API, str_add, API_classify, response_json, subscript, dict_get_default.
  reads_only_effects ltac:(apply reads_only_API_attempts).
Qed.

Lemma reads_only_HASH_blocks py p block_size : forall fuel rest h,
  reads_only (HASH_blocks py fuel p block_size rest h).
Proof.
  induction fuel as [|fuel IH]; intros rest h; simpl;
    unfold hashfunc_update, the_hashfunc; reads_only_effects ltac:(apply IH).
Qed.

Lemma reads_only_HASH path bytes algorithm block_size fmt :
  reads_only (__HASH rt path bytes algorithm block_size fmt).
Proof.
  unfold __HASH, hashfunc_update, the_hashfunc.
  reads_only_effects ltac:(apply reads_only_HASH_blocks).
Qed.

Lemma writes_to_reads_only {A} path (m : M A) : reads_only m -> writes_to path m.
Proof. intros H w. exists []. rewrite app_nil_r. split; [apply H | constructor]. Qed.

Lemma writes_to_bind {A B} path (m : M A) (k : A -> M B) :
  writes_to path m -> (forall a, writes_to path (k a)) -> writes_to path (bind m k).
Proof.
  intros Hm Hk w. unfold bind. destruct (Hm w) as (l & E & Hl).
  destruct (m w) as [[a|e|] w']; cbn [snd] in *; try (exists l; split; assumption).
  destruct (Hk a w') as (l' & E' & Hl'). exists (l ++ l')%list. split.
  - now rewrite E', E, app_assoc.
  - apply Forall_app; split; assumption.
Qed.

Lemma writes_to_open_wb path : writes_to path (open_wb path).
Proof.
  intros w. unfold open_wb.
  destruct (fs w !! path) as [[c|]|]; [| exists []; rewrite app_nil_r; split; [reflexivity | constructor] |].
  all: destruct (may_create w path);
    [| exists []; rewrite app_nil_r; split; [reflexivity | constructor]].
  all: exists [path]; cbn [snd trace emit set_fs]; rewrite written_snoc;
    split; [reflexivity | repeat constructor].
Qed.

Lemma writes_to_fh_write path data : writes_to path (fh_write path data).
Proof.
  intros w. exists [path]. cbn [fh_write snd trace emit set_fs]. rewrite written_snoc.
  split; [reflexivity | repeat constructor].
Qed.

(** X21.  [dfi_download] opens no file for writing but its destination, and
    writes to no other: whatever the arguments and however the call ends,
    every path it opens for writing or writes to is [path] as it was given. *)
Theorem dfi_download_writes_destination_only fuel (self : instance) sha256 path :
  writes_to path (dfi_download rt fuel self sha256 path).
Proof.
  unfold dfi_download.
  apply writes_to_bind; [apply writes_to_reads_only, reads_only_API | intros data].
  apply writes_to_bind; [apply writes_to_reads_only, reads_only_HASH | intros calc].
  destruct (negb _); [apply writes_to_reads_only, reads_only_raise|].
  apply writes_to_bind; [apply writes_to_open_wb | intros _].
  destruct (as_bytes (python rt) data);
    [apply writes_to_fh_write | apply writes_to_reads_only, reads_only_raise].
Qed.

End EffectsMore.

(** ** The operations *)

Section OperationsMore.
Variable rt : runtime.

(** *** [dfi_download] *)

(** X22.  A download that is answered by a 200 with a non-empty payload issues
    one request.  When the sha256 of the payload is the requested hash and
    the destination is no directory, the destination is opened for writing:
    where the operating system allows that, the call returns and the
    destination holds exactly the payload; where it does not (an empty name,
    a missing parent directory), the call fails with the error of [open] and
    nothing is written.  When the digest differs, the call raises the
    client's exception [failed downloading file! expected sha256=<requested>
    calculated sha256=<digest>] and the file system is unchanged. *)
Theorem dfi_download_integrity fuel (self : instance) sha256 path w resp :
  constructed rt self ->
  (forall r, requests_request w (n_requests w) r = Responds resp) ->
  status_code resp = 200 -> content resp <> [] ->
  (hexdigest rt Sha256 (content resp) = sha256 -> fs w !! path <> Some Dir ->
   may_create w path = true ->
   exists w',
     dfi_download rt (S fuel) self sha256 path w = (Return tt, w')
     /\ fs w' !! path = Some (File (content resp))
     /\ n_requests w' = S (n_requests w))
  /\ (hexdigest rt Sha256 (content resp) = sha256 -> fs w !! path <> Some Dir ->
      may_create w path = false ->
      exists w',
        dfi_download rt (S fuel) self sha256 path w = (Raise (IOError path), w')
        /\ fs w' = fs w
        /\ n_requests w' = S (n_requests w))
  /\ (hexdigest rt Sha256 (content resp) <> sha256 ->
      exists w',
        dfi_download rt (S fuel) self sha256 path w
        = (Raise (inquestlabs_exception
                    (Format "failed downloading file! expected sha256=%s calculated sha256=%s"
                            [PStr sha256; PStr (hexdigest rt Sha256 (content resp))])), w')
        /\ fs w' = fs w
        /\ n_requests w' = S (n_requests w)).
Proof.
  intros Hc Hnet Hs Hb.
  destruct (API_raw_content rt fuel self "/dfi/download" (PDict [("sha256", PStr sha256)])
              w resp Hc Hnet Hs) as (r & E).
  assert (Hrun : hexdigest rt Sha256 (content resp) = sha256 ->
                 dfi_download rt (S fuel) self sha256 path w
                 = bind (open_wb path) (fun _ => fh_write path (content resp))
                        (emit (EvRequest r) (count_request w))).
  { intros <-. unfold dfi_download. rewrite (bind_return _ _ _ _ _ E).
    rewrite (bind_return _ _ _ _ _ (sha256_of_buffer rt (content resp) _ Hb)).
    now rewrite String.eqb_refl. }
  split; [| split].
  - intros Hd Hdir Hcreate. rewrite (Hrun Hd). unfold bind, open_wb, fh_write.
    cbn [fs may_create emit count_request]. rewrite Hcreate.
    destruct (fs w !! path) as [[c|]|]; try contradiction;
      eexists; (split; [reflexivity|]); cbn [fs n_requests emit set_fs count_request];
      (split; [by simplify_map_eq | reflexivity]).
  - intros Hd Hdir Hcreate. rewrite (Hrun Hd). unfold bind, open_wb.
    cbn [fs may_create emit count_request]. rewrite Hcreate.
    destruct (fs w !! path) as [[c|]|]; try contradiction;
      eexists; (split; [reflexivity|]); split; reflexivity.
  - intros Hne.
    destruct (dfi_download_mismatch rt (S fuel) self sha256 path w (content resp) _ E Hb Hne)
      as (E2 & Hfs).
    eexists. split; [exact E2|]. split; [exact Hfs | reflexivity].
Qed.

Lemma hex_digit_lower n : (n < 16)%N -> ascii_lower (hex_digit n) = hex_digit n.
Proof.
  intros H.
  assert (Hn : In n (map N.of_nat (seq 0 16))).
  { apply in_map_iff. exists (N.to_nat n). split; [lia|]. apply in_seq. lia. }
  cbn in Hn. repeat (destruct Hn as [<- | Hn]; [reflexivity|]). contradiction.
Qed.

(** Hexadecimal text is in lower case. *)
Lemma lower_hexlify l : lower (hexlify l) = hexlify l.
Proof.
  induction l as [|b l IH]; [reflexivity|].
  rewrite hexlify_cons. cbn [lower]. rewrite IH.
  pose proof (Byte.to_N_bounded b) as Hb.
  rewrite !hex_digit_lower; [reflexivity | apply N.mod_lt; lia
                            | apply N.Div0.div_lt_upper_bound; lia].
Qed.

(** The default format returns the hexadecimal text of a digest. *)
Lemma HASH_digest_is_hex path bytes algorithm block_size w v w' :
  __HASH rt path bytes algorithm block_size "digest" w = (Return v, w') ->
  exists d, v = PStr (hexlify d).
Proof.
  unfold __HASH. unfold bind at 1.
  destruct (_ w) as [[h|e|] w1]; try discriminate.
  unfold bind, the_hashfunc. destruct h as [h|]; [| discriminate].
  cbn [ret String.eqb Ascii.eqb Bool.eqb]. intros H. inversion H. unfold hexdigest. eauto.
Qed.

(** X23.  The hashes are compared as text, and [hexdigest] is lower case: a
    requested hash that contains an upper-case letter matches no payload.
    Such a call never returns normally and writes nothing, whatever the
    network answers. *)
Theorem dfi_download_uppercase_hash fuel (self : instance) sha256 path w :
  lower sha256 <> sha256 ->
  fst (dfi_download rt fuel self sha256 path w) <> Return tt
  /\ fs (snd (dfi_download rt fuel self sha256 path w)) = fs w.
Proof.
  intros Hup. unfold dfi_download, bind.
  pose proof (keeps_fs_API rt fuel self "/dfi/download" (PDict [("sha256", PStr sha256)])
                PNone "GET" true w) as Hapi.
  destruct (__API _ _ _ _ _ _ _ _ w) as [[data|e|] w1]; cbn [fst snd] in *;
    try (split; [discriminate | exact Hapi]).
  pose proof (keeps_fs_HASH rt PNone data "sha256" 16384 "digest" w1) as Hh.
  unfold inquestlabs_api.sha256.
  destruct (__HASH _ _ _ _ _ _ w1) as [[calc|e|] w2] eqn:Eh; cbn [fst snd] in *;
    try (split; [discriminate | congruence]).
  destruct (HASH_digest_is_hex _ _ _ _ _ _ _ Eh) as [d ->].
  destruct (String.eqb (hexlify d) sha256) eqn:E.
  - apply String.eqb_eq in E. rewrite <- E, lower_hexlify in Hup. contradiction.
  - cbn [negb raise fst snd]. split; [discriminate | congruence].
Qed.

(** X24.  A matching download whose destination is a directory fails with the
    error of [open], after the request was made; nothing is written. *)
Theorem dfi_download_directory_destination fuel (self : instance) path w resp :
  constructed rt self ->
  (forall r, requests_request w (n_requests w) r = Responds resp) ->
  status_code resp = 200 -> content resp <> [] ->
  fs w !! path = Some Dir ->
  exists r,
    dfi_download rt (S fuel) self (hexdigest rt Sha256 (content resp)) path w
    = (Raise (IOError path), emit (EvRequest r) (count_request w)).
Proof.
  intros Hc Hnet Hs Hb Hdir.
  destruct (API_raw_content rt fuel self "/dfi/download"
              (PDict [("sha256", PStr (hexdigest rt Sha256 (content resp)))])
              w resp Hc Hnet Hs) as (r & E).
  exists r. unfold dfi_download. rewrite (bind_return _ _ _ _ _ E).
  rewrite (bind_return _ _ _ _ _ (sha256_of_buffer rt (content resp) _ Hb)).
  rewrite String.eqb_refl. cbn [negb]. unfold bind, open_wb.
  cbn [fs emit count_request]. rewrite Hdir. reflexivity.
Qed.

(** *** [dfi_upload] *)

(** [__API] with a file to attach: the file is opened, and the request
    carries it. *)
Lemma API_unfold_attachment fuel (self : instance) api data p c method raw w ak px vf b :
  str_in method ["GET"; "POST"] = true ->
  p <> "" -> fs w !! p = Some (File c) ->
  self !! "api_key" = Some ak -> self !! "proxies" = Some px ->
  self !! "verify_ssl" = Some vf -> self !! "base_url" = Some (PStr b) ->
  exists r,
    (req_method r = method /\ req_url r = b ++ api /\ req_data r = data
     /\ req_files r = Some p)
    /\ __API rt fuel self api data (PStr p) method raw w
       = bind (API_attempts fuel self r 0) (API_classify rt (b ++ api) raw)
              (emit (EvOpen p "rb") w).
Proof.
  intros Hm Hp Hf Hk Hpx Hv Hb. eexists. split; cycle 1.
  - unfold __API. rewrite Hm, (truthy_str p Hp). cbn [negb as_path].
    unfold bind at 1. unfold bind at 1. unfold open_rb. cbv beta.
    rewrite Hf. cbn beta iota. unfold ret at 1.
    unfold getattr. rewrite Hk, Hpx, Hv, Hb. simpl. reflexivity.
  - simpl. auto.
Qed.

(** X25.  Under Python 2 a regular file that starts with the OLE or the ZIP
    magic is opened, sniffed, opened again and sent: one POST to [base_url +
    /dfi/upload] that carries the file, and the call ends as the answer is
    classified.  Any other regular file is refused after the sniff, and no
    request is issued. *)
Theorem dfi_upload_python2 fuel (self : instance) path c w :
  python rt = Py2 ->
  constructed rt self ->
  path <> "" -> fs w !! path = Some (File c) ->
  (firstn 2 c = String.list_byte_of_string OLE_MAGIC
   \/ firstn 2 c = String.list_byte_of_string "PK" ->
   forall resp, (forall r, requests_request w (n_requests w) r = Responds resp) ->
   exists r b w',
     self !! "base_url" = Some (PStr b)
     /\ req_method r = "POST" /\ req_url r = b ++ "/dfi/upload" /\ req_files r = Some path
     /\ dfi_upload rt (S fuel) self path w
        = (fst (API_classify rt (b ++ "/dfi/upload") false resp w'), w')
     /\ trace w' = (trace w ++ [EvOpen path "rb"; EvRead path 2; EvOpen path "rb";
                                 EvRequest r])%list)
  /\ (firstn 2 c <> String.list_byte_of_string OLE_MAGIC ->
      firstn 2 c <> String.list_byte_of_string "PK" ->
      dfi_upload rt fuel self path w
      = (Raise (inquestlabs_exception
                  (Format "unsupported file type for upload, valid files include: %s"
                          [PStr "doc, docx, ppt, pptx, xls, xlsx"])),
         emit (EvRead path 2) (emit (EvOpen path "rb") w))).
Proof.
  intros Hpy Hc Hp Hf. split.
  - intros Hmagic resp Hnet.
    rewrite (dfi_upload_python2_magic rt (S fuel) self path c w Hpy Hf Hmagic).
    destruct (constructed_attributes rt self Hc) as (_ & [k Hk] & [b Hb] & [px Hpx] & [v Hv]).
    set (w1 := emit (EvRead path 2) (emit (EvOpen path "rb") w)).
    destruct (API_unfold_attachment (S fuel) self "/dfi/upload" PNone path c "POST" false
                w1 k px v b) as (r & (H1 & H2 & _ & H4) & E); try assumption; try reflexivity.
    exists r, b. eexists. split; [exact Hb|]. split; [exact H1|]. split; [exact H2|].
    split; [exact H4|]. rewrite E.
    rewrite (bind_return _ _ _ _ _
               (API_attempts_response fuel self r 0 (emit (EvOpen path "rb") w1) resp
                  (Hnet r))).
    split.
    + apply injective_projections; [reflexivity|]. cbn [snd].
      apply API_classify_world.
    + unfold w1. cbn [trace emit count_request]. rewrite <- !app_assoc. reflexivity.
  - intros Hole Hpk. rewrite (dfi_upload_sniff rt fuel self path c w Hf). cbv zeta.
    rewrite Hpy. cbn [existsb bytes_eq_str].
    rewrite !bool_decide_eq_false_2 by assumption. reflexivity.
Qed.

(** *** [dfi_attributes] and [dfi_details] *)

Lemma lower_nonempty s : s <> "" -> lower s <> "".
Proof. destruct s; [contradiction | discriminate]. Qed.

(** X26.  A non-empty filter that is, lowercased, none of the six kinds of
    [VALID_IOC] is refused before any request: the client's exception names
    the lowercased filter and lists the valid ones, and the world is left as
    it was. *)
Theorem dfi_attributes_invalid_filter fuel (self : instance) sha256 f w :
  f <> "" -> lower f ∉ VALID_IOC ->
  dfi_attributes rt fuel self sha256 (Some f) w
  = (Raise (inquestlabs_exception
              (Format "invalid attribute filter '%s'. valid filters include: %s"
                      [PStr (lower f); PStr "domain, email, filename, ip, url, xmpid"])), w).
Proof.
  intros Hf Hin. unfold dfi_attributes. rewrite (truthy_str f Hf).
  rewrite (str_in_false _ _ Hin). reflexivity.
Qed.

(** The comprehension of [dfi_attributes] on records that all have the entry.
    *)
Lemma select_attribute_filter py f : forall items w,
  Forall (fun attr => attribute_of attr <> None) items ->
  select_attribute py f items w = (Return (List.filter (has_attribute py f) items), w).
Proof.
  induction items as [|attr items IH]; intros w Hall; [reflexivity|].
  inversion Hall as [|? ? Hattr Hrest]; subst.
  cbn [select_attribute List.filter]. unfold bind at 1. unfold has_attribute.
  destruct attr; try (now destruct Hattr). cbn [attribute_of subscript] in *.
  destruct (dict_get d "attribute") as [a|]; [| now destruct Hattr].
  cbn [ret]. unfold bind. rewrite (IH w Hrest). reflexivity.
Qed.

Lemma select_attribute_missing_key py f : forall items w attr,
  In attr items -> (exists d, attr = PDict d /\ dict_get d "attribute" = None) ->
  Forall (fun attr => exists d, attr = PDict d) items ->
  select_attribute py f items w = (Raise (KeyError "attribute"), w).
Proof.
  induction items as [|x items IH]; intros w attr Hin Hbad Hall; [destruct Hin|].
  inversion Hall as [|? ? [d ->] Hrest]; subst.
  cbn [select_attribute]. unfold bind at 1. cbn [subscript].
  destruct (dict_get d "attribute") as [a|] eqn:Ea.
  - cbn [ret]. destruct Hin as [<- | Hin].
    + destruct Hbad as (d' & Hd & Hnone). inversion Hd; subst. congruence.
    + unfold bind. now rewrite (IH w attr Hin Hbad Hrest).
  - reflexivity.
Qed.

(** X27.  With a valid filter, [dfi_attributes] returns, in their order, those
    records of the answer whose entry [attribute] equals the lowercased
    filter; a record without that entry makes the call fail with [KeyError].
    Without a filter ([None], or the empty string) the answer is returned as
    it is. *)
Theorem dfi_attributes_filter fuel (self : instance) sha256 f w items w1 :
  f <> "" -> lower f ∈ VALID_IOC ->
  __API rt fuel self "/dfi/details/attributes" (PDict [("sha256", PStr sha256)])
        PNone "GET" false w
  = (Return (PList items), w1) ->
  (Forall (fun attr => attribute_of attr <> None) items ->
   dfi_attributes rt fuel self sha256 (Some f) w
   = (Return (PList (List.filter (has_attribute (python rt) (lower f)) items)), w1))
  /\ (forall attr,
        In attr items -> (exists d, attr = PDict d /\ dict_get d "attribute" = None) ->
        Forall (fun attr => exists d, attr = PDict d) items ->
        dfi_attributes rt fuel self sha256 (Some f) w = (Raise (KeyError "attribute"), w1))
  /\ dfi_attributes rt fuel self sha256 None w = (Return (PList items), w1)
  /\ dfi_attributes rt fuel self sha256 (Some "") w = (Return (PList items), w1).
Proof.
  intros Hf Hin H.
  assert (E : dfi_attributes rt fuel self sha256 (Some f) w
              = bind (select_attribute (python rt) (lower f) items)
                     (fun selected => ret (PList selected)) w1).
  { unfold dfi_attributes. rewrite (truthy_str f Hf), (str_in_true _ _ Hin).
    cbn [negb]. unfold bind at 1. cbn [ret]. unfold bind at 1. rewrite H.
    rewrite (truthy_str _ (lower_nonempty f Hf)). reflexivity. }
  split; [| split; [| split]].
  - intros Hall. rewrite E. unfold bind.
    now rewrite (select_attribute_filter _ _ items w1 Hall).
  - intros attr Hattr Hbad Hall. rewrite E. unfold bind.
    now rewrite (select_attribute_missing_key _ _ items w1 attr Hattr Hbad Hall).
  - unfold dfi_attributes, bind. cbn [ret]. now rewrite H.
  - unfold dfi_attributes, bind. cbn [truthy String.eqb negb ret]. now rewrite H.
Qed.

(** What is stored under a key is what is found there, and the other keys keep
    their values. *)
Lemma dict_get_set_eq d k v : dict_get (dict_set d k v) k = Some v.
Proof.
  induction d as [|[k' x] d IH]; cbn [dict_set dict_get].
  - now rewrite String.eqb_refl.
  - destruct (String.eqb k' k) eqn:E; cbn [dict_get].
    + now rewrite String.eqb_refl.
    + now rewrite E.
Qed.

Lemma dict_get_set_ne d k v k2 : k2 <> k -> dict_get (dict_set d k v) k2 = dict_get d k2.
Proof.
  intros Hne. induction d as [|[k' x] d IH]; cbn [dict_set dict_get].
  - destruct (String.eqb k k2) eqn:E; [apply String.eqb_eq in E; congruence | reflexivity].
  - destruct (String.eqb k' k) eqn:E; cbn [dict_get].
    + apply String.eqb_eq in E. subst k'.
      destruct (String.eqb k k2) eqn:E2; [apply String.eqb_eq in E2; congruence | reflexivity].
    + now rewrite IH.
Qed.

(** X28.  [dfi_details] without the flag returns the answer of [/dfi/details].
    With the flag it issues a second request, to [/dfi/details/attributes],
    and stores that answer under the key [attributes] of the details: the key
    then holds it, every other key holds what it held, and a new key goes
    last.  Details that are no JSON object make the assignment fail with
    [TypeError], after both requests. *)
Theorem dfi_details_with_attributes fuel (self : instance) sha256 w data w1 a w2 :
  __API rt fuel self "/dfi/details" (PDict [("sha256", PStr sha256)]) PNone "GET" false w
  = (Return data, w1) ->
  __API rt fuel self "/dfi/details/attributes" (PDict [("sha256", PStr sha256)])
        PNone "GET" false w1
  = (Return a, w2) ->
  dfi_details rt fuel self sha256 false w = (Return data, w1)
  /\ (forall d, data = PDict d ->
        exists d',
          dfi_details rt fuel self sha256 true w = (Return (PDict d'), w2)
          /\ dict_get d' "attributes" = Some a
          /\ (forall k, k <> "attributes" -> dict_get d' k = dict_get d k)
          /\ (dict_get d "attributes" = None -> d' = (d ++ [("attributes", a)])%list))
  /\ ((forall d, data <> PDict d) ->
      dfi_details rt fuel self sha256 true w = (Raise TypeError, w2)).
Proof.
  intros H1 H2.
  assert (E : dfi_details rt fuel self sha256 true w = setitem data "attributes" a w2).
  { unfold dfi_details. rewrite (bind_return _ _ _ _ _ H1).
    unfold dfi_attributes. unfold bind at 1. unfold bind at 1. cbn [ret].
    unfold bind at 1. rewrite H2. reflexivity. }
  split; [| split].
  - unfold dfi_details. now rewrite (bind_return _ _ _ _ _ H1).
  - intros d ->. exists (dict_set d "attributes" a). split; [exact E|].
    split; [apply dict_get_set_eq|]. split; [intros k Hk; now apply dict_get_set_ne|].
    intros Hnone. clear -Hnone. induction d as [|[k x] d IH]; [reflexivity|].
    cbn [dict_get dict_set] in *. destruct (String.eqb k "attributes"); [discriminate|].
    cbn [app]. now rewrite IH.
  - intros Hnd. rewrite E. destruct data; try reflexivity. now destruct (Hnd d).
Qed.

(** *** The YARA helpers *)

Lemma ascii_upper_idempotent c : ascii_upper (ascii_upper c) = ascii_upper c.
Proof. destruct c as [[] [] [] [] [] [] [] []]; reflexivity. Qed.

Lemma upper_idempotent s : upper (upper s) = upper s.
Proof.
  induction s as [|c s IH]; [reflexivity|].
  cbn [upper]. now rewrite ascii_upper_idempotent, IH.
Qed.

Lemma truthy_upper s : truthy (PStr (upper s)) = truthy (PStr s).
Proof. destruct s; reflexivity. Qed.

(** X29.  [yara_b64re] reads the endianness without regard to case.  [BIG]
    adds the form field [option] with value [widen_big], [LITTLE] with value
    [widen_little]; any other non-empty value written in ASCII is refused
    with the client's exception before any request; [None] and the empty
    string add nothing. *)
Theorem yara_b64re_endianness fuel (self : instance) regex w :
  (forall e,
     yara_b64re rt fuel self regex (Some e) w
     = yara_b64re rt fuel self regex (Some (upper e)) w)
  /\ (forall e, upper e = "BIG" ->
        yara_b64re rt fuel self regex (Some e) w
        = __API rt fuel self "/yara/base64re"
            (PDict [("instring", PStr regex); ("option", PStr "widen_big")])
            PNone "GET" false w)
  /\ (forall e, upper e = "LITTLE" ->
        yara_b64re rt fuel self regex (Some e) w
        = __API rt fuel self "/yara/base64re"
            (PDict [("instring", PStr regex); ("option", PStr "widen_little")])
            PNone "GET" false w)
  /\ (forall e, e <> "" -> ascii_only e = true ->
        upper e <> "BIG" -> upper e <> "LITTLE" ->
        yara_b64re rt fuel self regex (Some e) w
        = (Raise (inquestlabs_exception
                    (Format "invalid endianess supplied to yara_b64re: %s"
                            [PStr (upper e)])), w))
  /\ (forall e, e = None \/ e = Some "" ->
        yara_b64re rt fuel self regex e w
        = __API rt fuel self "/yara/base64re" (PDict [("instring", PStr regex)])
            PNone "GET" false w).
Proof.
  split; [| split; [| split; [| split]]].
  - intros e. unfold yara_b64re. now rewrite truthy_upper, upper_idempotent.
  - intros e He. unfold yara_b64re. rewrite He.
    destruct e as [|c e]; [discriminate|]. reflexivity.
  - intros e He. unfold yara_b64re. rewrite He.
    destruct e as [|c e]; [discriminate|]. reflexivity.
  - intros e Hne _ Hb Hl. unfold yara_b64re. rewrite (truthy_str e Hne).
    destruct (String.eqb (upper e) "BIG") eqn:E1; [apply String.eqb_eq in E1; contradiction|].
    destruct (String.eqb (upper e) "LITTLE") eqn:E2;
      [apply String.eqb_eq in E2; contradiction|].
    reflexivity.
  - intros e [-> | ->]; reflexivity.
Qed.

(** X30.  [yara_widere] reads the endianness without regard to case.  [BIG]
    and [LITTLE] add the form field [kind] with the upper-case value; any
    other non-empty value written in ASCII is refused before any request,
    with a message that names [yara_b64re], not [yara_widere]; [None] and
    the empty string add nothing. *)
Theorem yara_widere_endianness fuel (self : instance) regex w :
  (forall e,
     yara_widere rt fuel self regex (Some e) w
     = yara_widere rt fuel self regex (Some (upper e)) w)
  /\ (forall e, upper e = "BIG" \/ upper e = "LITTLE" ->
        yara_widere rt fuel self regex (Some e) w
        = __API rt fuel self "/yara/widere"
            (PDict [("instring", PStr regex); ("kind", PStr (upper e))])
            PNone "GET" false w)
  /\ (forall e, e <> "" -> ascii_only e = true ->
        upper e <> "BIG" -> upper e <> "LITTLE" ->
        yara_widere rt fuel self regex (Some e) w
        = (Raise (inquestlabs_exception
                    (Format "invalid endianess supplied to yara_b64re: %s"
                            [PStr (upper e)])), w))
  /\ (forall e, e = None \/ e = Some "" ->
        yara_widere rt fuel self regex e w
        = __API rt fuel self "/yara/widere" (PDict [("instring", PStr regex)])
            PNone "GET" false w).
Proof.
  split; [| split; [| split]].
  - intros e. unfold yara_widere. now rewrite truthy_upper, upper_idempotent.
  - intros e He. unfold yara_widere.
    assert (Hne : e <> "") by (intros ->; destruct He; discriminate).
    rewrite (truthy_str e Hne), str_in_true; [reflexivity|].
    rewrite !elem_of_cons. tauto.
  - intros e Hne _ Hb Hl. unfold yara_widere. rewrite (truthy_str e Hne).
    rewrite str_in_false; [reflexivity|].
    rewrite !elem_of_cons, elem_of_nil. tauto.
  - intros e [-> | ->]; reflexivity.
Qed.

End OperationsMore.

(** X22 on a payload of three bytes: requested by its digest for a file in
    [/tmp], requested by its digest for the empty file name, and requested
    by another hash. *)
Lemma dfi_download_integrity_witness :
  let rt := Sample.runtime_of Py3 in
  let w := Sample.world_of (Responds Sample.abc_answer) in
  (exists w',
     dfi_download rt 1 Sample.client "636261" "/tmp/sample.bin" w = (Return tt, w')
     /\ fs w' !! "/tmp/sample.bin" = Some (File (String.list_byte_of_string "abc"))
     /\ n_requests w' = 1%nat)
  /\ (exists w',
        dfi_download rt 1 Sample.client "636261" "" w = (Raise (IOError ""), w')
        /\ fs w' = fs w
        /\ n_requests w' = 1%nat)
  /\ (exists w',
        dfi_download rt 1 Sample.client "00ff" "/tmp/sample.bin" w
        = (Raise (inquestlabs_exception
                    (Format "failed downloading file! expected sha256=%s calculated sha256=%s"
                            [PStr "00ff"; PStr "636261"])), w')
        /\ fs w' = fs w
        /\ n_requests w' = 1%nat).
Proof.
  cbv zeta. split; [| split].
  - apply (proj1 (dfi_download_integrity (Sample.runtime_of Py3) 0 Sample.client "636261"
                    "/tmp/sample.bin" (Sample.world_of (Responds Sample.abc_answer))
                    Sample.abc_answer sample_client_constructed (fun _ => eq_refl) eq_refl
                    ltac:(discriminate)));
      [reflexivity | discriminate | reflexivity].
  - apply (proj1 (proj2 (dfi_download_integrity (Sample.runtime_of Py3) 0 Sample.client
                           "636261" "" (Sample.world_of (Responds Sample.abc_answer))
                           Sample.abc_answer sample_client_constructed (fun _ => eq_refl)
                           eq_refl ltac:(discriminate))));
      [reflexivity | discriminate | reflexivity].
  - apply (proj2 (proj2 (dfi_download_integrity (Sample.runtime_of Py3) 0 Sample.client
                           "00ff" "/tmp/sample.bin"
                           (Sample.world_of (Responds Sample.abc_answer))
                           Sample.abc_answer sample_client_constructed (fun _ => eq_refl)
                           eq_refl ltac:(discriminate)))).
    discriminate.
Defined.

(** X23 on a payload requested by its digest in upper case. *)
Lemma dfi_download_uppercase_hash_witness :
  let rt := Sample.runtime_of Py3 in
  let w := Sample.world_of (Responds (Sample.answer_of 200 "jkl")) in
  lower "6C6B6A" = hexdigest rt Sha256 (content (Sample.answer_of 200 "jkl"))
  /\ fst (dfi_download rt 1 Sample.client "6C6B6A" "/tmp/sample.bin" w) <> Return tt
  /\ fs (snd (dfi_download rt 1 Sample.client "6C6B6A" "/tmp/sample.bin" w)) = fs w.
Proof.
  cbv zeta. split; [reflexivity|].
  apply (dfi_download_uppercase_hash (Sample.runtime_of Py3) 1 Sample.client "6C6B6A"
           "/tmp/sample.bin" (Sample.world_of (Responds (Sample.answer_of 200 "jkl")))).
  discriminate.
Defined.

(** X24 on a destination that is a directory. *)
Lemma dfi_download_directory_destination_witness :
  exists r,
    dfi_download (Sample.runtime_of Py3) 1 Sample.client "636261" "/tmp/out"
                 (Sample.world_of (Responds Sample.abc_answer))
    = (Raise (IOError "/tmp/out"),
       emit (EvRequest r) (count_request (Sample.world_of (Responds Sample.abc_answer)))).
Proof.
  apply (dfi_download_directory_destination (Sample.runtime_of Py3) 0 Sample.client
           "/tmp/out" (Sample.world_of (Responds Sample.abc_answer)) Sample.abc_answer).
  - exact sample_client_constructed.
  - intros r; reflexivity.
  - reflexivity.
  - discriminate.
  - reflexivity.
Defined.

(** X25 on an archive and on a text file. *)
Lemma dfi_upload_python2_witness :
  let rt := Sample.runtime_of Py2 in
  let w := Sample.world_of (Responds Sample.ok_answer) in
  (exists r b w',
     Sample.client !! "base_url" = Some (PStr b)
     /\ req_method r = "POST" /\ req_url r = b ++ "/dfi/upload"
     /\ req_files r = Some "/tmp/report.docx"
     /\ dfi_upload rt 1 Sample.client "/tmp/report.docx" w = (Return (PList []), w')
     /\ trace w' = [EvOpen "/tmp/report.docx" "rb"; EvRead "/tmp/report.docx" 2;
                    EvOpen "/tmp/report.docx" "rb"; EvRequest r])
  /\ dfi_upload rt 1 Sample.client "/tmp/notes.txt" w
     = (Raise (inquestlabs_exception
                 (Format "unsupported file type for upload, valid files include: %s"
                         [PStr "doc, docx, ppt, pptx, xls, xlsx"])),
        emit (EvRead "/tmp/notes.txt" 2) (emit (EvOpen "/tmp/notes.txt" "rb") w)).
Proof.
  cbv zeta.
  assert (Hc : constructed (Sample.runtime_of Py2) Sample.client)
    by (apply sample_client_constructed_for; reflexivity).
  split.
  - apply (proj1 (dfi_upload_python2 (Sample.runtime_of Py2) 0 Sample.client
                    "/tmp/report.docx" Sample.docx
                    (Sample.world_of (Responds Sample.ok_answer)) eq_refl Hc
                    ltac:(discriminate) eq_refl)
                 (or_intror eq_refl) Sample.ok_answer (fun _ => eq_refl)).
  - apply (proj2 (dfi_upload_python2 (Sample.runtime_of Py2) 1 Sample.client
                    "/tmp/notes.txt" (String.list_byte_of_string "plain")
                    (Sample.world_of (Responds Sample.ok_answer)) eq_refl Hc
                    ltac:(discriminate) eq_refl)); discriminate.
Defined.

Lemma hostname_not_valid : lower "Hostname" ∉ VALID_IOC.
Proof.
  unfold VALID_IOC. rewrite !elem_of_cons, elem_of_nil.
  intros [H | [H | [H | [H | [H | [H | []]]]]]]; discriminate H.
Qed.

(** X26 on the filter [Hostname]. *)
Lemma dfi_attributes_invalid_filter_witness :
  dfi_attributes (Sample.runtime_of Py3) 1 Sample.client "00ff" (Some "Hostname")
                 Sample.offline
  = (Raise (inquestlabs_exception
              (Format "invalid attribute filter '%s'. valid filters include: %s"
                      [PStr "hostname"; PStr "domain, email, filename, ip, url, xmpid"])),
     Sample.offline).
Proof.
  apply (dfi_attributes_invalid_filter (Sample.runtime_of Py3) 1 Sample.client "00ff"
           "Hostname" Sample.offline); [discriminate | exact hostname_not_valid].
Defined.

(** A successful envelope gives its data. *)
Lemma API_success_data rt fuel (self : instance) api data method w resp d s v :
  constructed rt self ->
  method = "GET" \/ method = "POST" ->
  (forall r, requests_request w (n_requests w) r = Responds resp) ->
  status_code resp = 200 ->
  json_loads rt (content resp) = Some (PDict d) ->
  dict_get d "success" = Some s -> truthy s = true -> dict_get d "data" = Some v ->
  exists r,
    __API rt (S fuel) self api data PNone method false w
    = (Return v, emit (EvRequest r) (count_request w)).
Proof.
  intros Hc Hm Hnet Hs Hj Hd Ht Hv.
  destruct (API_one_response rt fuel self api data method false w resp Hc Hm Hnet)
    as (r & b & Hb & Hu & E).
  exists r. rewrite E.
  unfold API_classify. rewrite Hs. cbn [Z.eqb Pos.eqb].
  unfold bind, response_json. rewrite Hj. cbn [ret subscript]. rewrite Hd. cbn [ret].
  rewrite Ht, Hv. reflexivity.
Qed.

Lemma domain_valid : lower "Domain" ∈ VALID_IOC.
Proof. unfold VALID_IOC. rewrite !elem_of_cons. auto. Qed.

(** X27 on three records, two of them domains. *)
Lemma dfi_attributes_filter_witness :
  let rt := Sample.runtime_labs Py3 in
  let w := Sample.scripted [Sample.answer_of 200 "attributes"] in
  exists w1,
    dfi_attributes rt 1 Sample.client "00ff" (Some "Domain") w
    = (Return (PList [PDict [("attribute", PStr "domain"); ("value", PStr "a.example")];
                      PDict [("attribute", PStr "domain"); ("value", PStr "b.example")]]),
       w1)
    /\ dfi_attributes rt 1 Sample.client "00ff" None w
       = (Return (PList Sample.attributes), w1).
Proof.
  cbv zeta.
  destruct (API_success_data (Sample.runtime_labs Py3) 0 Sample.client
              "/dfi/details/attributes" (PDict [("sha256", PStr "00ff")]) "GET"
              (Sample.scripted [Sample.answer_of 200 "attributes"])
              (Sample.answer_of 200 "attributes")
              [("success", PBool true); ("data", PList Sample.attributes)] (PBool true)
              (PList Sample.attributes)) as (r & E);
    [apply sample_client_constructed_for; reflexivity | left; reflexivity
    | intros r; reflexivity | reflexivity | reflexivity | reflexivity | reflexivity
    | reflexivity |].
  eexists.
  destruct (dfi_attributes_filter (Sample.runtime_labs Py3) 1 Sample.client "00ff" "Domain"
              _ Sample.attributes _ ltac:(discriminate) domain_valid E)
    as (Hfilter & _ & Hnone & _).
  split; [| exact Hnone].
  apply Hfilter. repeat constructor; discriminate.
Defined.

(** X28 on a service that answers the details and then the attributes. *)
Lemma dfi_details_with_attributes_witness :
  let rt := Sample.runtime_labs Py3 in
  let w := Sample.scripted [Sample.answer_of 200 "details"; Sample.answer_of 200 "attributes"] in
  exists d' w2,
    dfi_details rt 1 Sample.client "00ff" true w = (Return (PDict d'), w2)
    /\ dict_get d' "attributes" = Some (PList Sample.attributes)
    /\ (forall k, k <> "attributes" -> dict_get d' k = dict_get Sample.details k)
    /\ d' = (Sample.details ++ [("attributes", PList Sample.attributes)])%list
    /\ length (requests_of (trace w2)) = 2%nat.
Proof.
  cbv zeta.
  assert (Hc : constructed (Sample.runtime_labs Py3) Sample.client)
    by (apply sample_client_constructed_for; reflexivity).
  destruct (API_success_data (Sample.runtime_labs Py3) 0 Sample.client
              "/dfi/details" (PDict [("sha256", PStr "00ff")]) "GET"
              (Sample.scripted [Sample.answer_of 200 "details";
                                Sample.answer_of 200 "attributes"])
              (Sample.answer_of 200 "details")
              [("success", PBool true); ("data", PDict Sample.details)] (PBool true)
              (PDict Sample.details) Hc (or_introl eq_refl) (fun _ => eq_refl)
              eq_refl eq_refl eq_refl eq_refl eq_refl) as (r1 & E1).
  destruct (API_success_data (Sample.runtime_labs Py3) 0 Sample.client
              "/dfi/details/attributes" (PDict [("sha256", PStr "00ff")]) "GET"
              (emit (EvRequest r1)
                 (count_request (Sample.scripted [Sample.answer_of 200 "details";
                                                  Sample.answer_of 200 "attributes"])))
              (Sample.answer_of 200 "attributes")
              [("success", PBool true); ("data", PList Sample.attributes)] (PBool true)
              (PList Sample.attributes) Hc (or_introl eq_refl) (fun _ => eq_refl)
              eq_refl eq_refl eq_refl eq_refl eq_refl) as (r2 & E2).
  destruct (proj1 (proj2 (dfi_details_with_attributes (Sample.runtime_labs Py3) 1
                            Sample.client "00ff" _ _ _ _ _ E1 E2)) Sample.details eq_refl)
    as (d' & E & Hget & Hother & Hlast).
  exists d'. eexists. split; [exact E|]. split; [exact Hget|]. split; [exact Hother|].
  split; [apply Hlast; reflexivity | reflexivity].
Defined.

(** X29 on three spellings and an empty one. *)
Lemma yara_b64re_endianness_witness :
  let rt := Sample.runtime_of Py3 in
  yara_b64re rt 1 Sample.client "evil" (Some "big") Sample.offline
  = __API rt 1 Sample.client "/yara/base64re"
          (PDict [("instring", PStr "evil"); ("option", PStr "widen_big")])
          PNone "GET" false Sample.offline
  /\ yara_b64re rt 1 Sample.client "evil" (Some "Little") Sample.offline
     = __API rt 1 Sample.client "/yara/base64re"
             (PDict [("instring", PStr "evil"); ("option", PStr "widen_little")])
             PNone "GET" false Sample.offline
  /\ yara_b64re rt 1 Sample.client "evil" (Some "middle") Sample.offline
     = (Raise (inquestlabs_exception
                 (Format "invalid endianess supplied to yara_b64re: %s" [PStr "MIDDLE"])),
        Sample.offline)
  /\ yara_b64re rt 1 Sample.client "evil" (Some "") Sample.offline
     = __API rt 1 Sample.client "/yara/base64re" (PDict [("instring", PStr "evil")])
             PNone "GET" false Sample.offline.
Proof.
  cbv zeta.
  destruct (yara_b64re_endianness (Sample.runtime_of Py3) 1 Sample.client "evil"
              Sample.offline) as (_ & Hbig & Hlittle & Hbad & Hnone).
  split; [apply Hbig; reflexivity|].
  split; [apply Hlittle; reflexivity|].
  split; [apply Hbad; first [discriminate | reflexivity]|].
  apply Hnone. right; reflexivity.
Defined.

(** X30 on two spellings and on no endianness. *)
Lemma yara_widere_endianness_witness :
  let rt := Sample.runtime_of Py3 in
  yara_widere rt 1 Sample.client "evil" (Some "big") Sample.offline
  = __API rt 1 Sample.client "/yara/widere"
          (PDict [("instring", PStr "evil"); ("kind", PStr "BIG")])
          PNone "GET" false Sample.offline
  /\ yara_widere rt 1 Sample.client "evil" (Some "middle") Sample.offline
     = (Raise (inquestlabs_exception
                 (Format "invalid endianess supplied to yara_b64re: %s" [PStr "MIDDLE"])),
        Sample.offline)
  /\ yara_widere rt 1 Sample.client "evil" None Sample.offline
     = __API rt 1 Sample.client "/yara/widere" (PDict [("instring", PStr "evil")])
             PNone "GET" false Sample.offline.
Proof.
  cbv zeta.
  destruct (yara_widere_endianness (Sample.runtime_of Py3) 1 Sample.client "evil"
              Sample.offline) as (_ & Hkind & Hbad & Hnone).
  split; [apply (Hkind "big"); left; reflexivity|].
  split; [apply Hbad; first [discriminate | reflexivity]|].
  apply Hnone. left; reflexivity.
Defined.
